(** * Zalo call recorder: call detection, capture, conversion and upload

    A shallow embedding of the recording pipeline of the Electron
    application ([src/main.js], the controller, and [src/renderer.js], the
    capture surface), together with the properties of its specification.

    Conventions of the embedding.
    - JavaScript strings are [string]s of code units below 256; numbers that
      the code uses as integers (memory in KB, thresholds, sizes, HTTP codes)
      are [Z].
    - A promise, or a synchronous call that may throw, is an [outcome]:
      [Ret v] for a normal result, [Throw e] for an exception or rejection.
    - The outside world (the process table tool, the network, the transcoding
      tool, faults of the file system, the media devices) is an explicit
      argument of each function that consults it.
    - Functions of the JavaScript and Node runtime that the program only
      calls ([parseFloat], [path.join], base64 decoding, ...) are the fields
      of the class [Runtime].
    - [console.log], [console.warn] and [console.error] of the controller
      write to the console and, for errors, append to the log file of the
      day. The controller's model keeps the evaluation of their arguments
      where it can throw and leaves the writing out: its [filesystem] is
      the file system apart from the log file. A property that says what
      became of the files is stated for a run that logs no error, or for
      one path that the log file cannot be. The capture surface keeps its
      logs as [ELog] events, since a property speaks about them. *)

From Stdlib Require Import ZArith QArith String Ascii List Bool Lia.
From Stdlib Require Import DecimalString DecimalN DecimalPos.
From stdpp Require Import base option list strings gmap.

Set Warnings "-register-all".

Local Open Scope string_scope.
Local Open Scope Z_scope.

(* ===================================================================== *)
(** * Part I: the program *)
(* ===================================================================== *)

(** ** JavaScript values and results of calls that may throw *)

(** The values that cross the network and the process boundary: JSON data,
    and [Error] objects, which are objects with a [message] field. *)
Inductive jsval : Type :=
| VUndefined
| VNull
| VBool (b : bool)
| VNum (n : Z)
| VStr (s : string)
| VBuffer (bytes : string)
| VObj (fields : list (string * jsval)).

Inductive outcome (A : Type) : Type :=
| Ret (a : A)
| Throw (e : jsval).
Arguments Ret {A} a.
Arguments Throw {A} e.

(** ** JavaScript string primitives used by the program *)

Module JsString.

(** [WhiteSpace] and [LineTerminator] code units below 256: what
    [String.prototype.trim], [\s] and [parseInt] skip. *)
Definition is_ws (c : ascii) : bool :=
  match c with
  | "009" | "010" | "011" | "012" | "013" | " " | "160" => true
  | _ => false
  end%char.

Fixpoint trimStart (s : string) : string :=
  match s with
  | "" => ""
  | String c s' => if is_ws c then trimStart s' else s
  end.

Fixpoint trimEnd (s : string) : string :=
  match s with
  | "" => ""
  | String c s' =>
      match trimEnd s' with
      | "" => if is_ws c then "" else String c ""
      | t => String c t
      end
  end.

Definition trim (s : string) : string := trimEnd (trimStart s).

(** [toLowerCase] on one code unit below 256: the letters A-Z and the
    capital letters of Latin-1 (192-222, but not the sign 215) move up by
    32. *)
Definition lower (c : ascii) : ascii :=
  let n := nat_of_ascii c in
  if (65 <=? n)%nat && (n <=? 90)%nat then ascii_of_nat (n + 32)
  else if (192 <=? n)%nat && (n <=? 222)%nat && negb (n =? 215)%nat
       then ascii_of_nat (n + 32)
  else c.

(** [toUpperCase] on the letters a-z; the program applies it to the names
    of HTTP methods only. *)
Definition upper (c : ascii) : ascii :=
  let n := nat_of_ascii c in
  if (97 <=? n)%nat && (n <=? 122)%nat then ascii_of_nat (n - 32) else c.

Fixpoint toLowerCase (s : string) : string :=
  match s with
  | "" => ""
  | String c s' => String (lower c) (toLowerCase s')
  end.

Fixpoint toUpperCase (s : string) : string :=
  match s with
  | "" => ""
  | String c s' => String (upper c) (toUpperCase s')
  end.

Definition startsWith (p s : string) : bool := String.prefix p s.

Fixpoint includes (sub s : string) : bool :=
  String.prefix sub s ||
  match s with
  | "" => false
  | String _ s' => includes sub s'
  end.

(** [s.indexOf(c)] for a one-character needle; [None] is [-1]. *)
Fixpoint indexOf (c : ascii) (s : string) : option nat :=
  match s with
  | "" => None
  | String d s' => if Ascii.eqb d c then Some 0%nat else S <$> indexOf c s'
  end.

Fixpoint skip (n : nat) (s : string) : string :=
  match n, s with
  | O, _ => s
  | S n', String _ s' => skip n' s'
  | S _, "" => ""
  end.

Fixpoint take (n : nat) (s : string) : string :=
  match n, s with
  | S n', String c s' => String c (take n' s')
  | _, _ => ""
  end.

(** [s.split(c)] for a one-character separator. *)
Fixpoint split (sep : ascii) (s : string) : list string :=
  match s with
  | "" => [""]
  | String c s' =>
      if Ascii.eqb c sep then "" :: split sep s'
      else match split sep s' with
           | w :: ws => String c w :: ws
           | [] => [String c ""]
           end
  end.

(** [s.split(/\r?\n/)]. *)
Fixpoint splitLines (s : string) : list string :=
  match s with
  | "" => [""]
  | String c s' =>
      let rest := splitLines s' in
      if Ascii.eqb c "010" then "" :: rest
      else if Ascii.eqb c "013" && startsWith (String "010" "") s' then rest
      else match rest with
           | w :: ws => String c w :: ws
           | [] => [String c ""]
           end
  end.

(** [s.split(/\s+/)]: the pieces between maximal runs of white space. *)
Fixpoint splitWs (s : string) : list string :=
  match s with
  | "" => [""]
  | String c s' =>
      if is_ws c then
        match s' with
        | "" => [""; ""]
        | String c' _ => if is_ws c' then splitWs s' else "" :: splitWs s'
        end
      else match splitWs s' with
           | w :: ws => String c w :: ws
           | [] => [String c ""]
           end
  end.

(** [parts.join(sep)]. *)
Fixpoint join (sep : string) (l : list string) : string :=
  match l with
  | [] => ""
  | [x] => x
  | x :: l' => x +:+ sep +:+ join sep l'
  end.

Fixpoint removeChars (drop : ascii -> bool) (s : string) : string :=
  match s with
  | "" => ""
  | String c s' =>
      if drop c then removeChars drop s' else String c (removeChars drop s')
  end.

(** [s.replace(pat, rep)] with a string pattern: the first occurrence. *)
Fixpoint replaceFirst (pat rep s : string) : string :=
  if String.prefix pat s then rep +:+ skip (String.length pat) s
  else match s with
       | "" => ""
       | String c s' => String c (replaceFirst pat rep s')
       end.

(** The value of a digit in radices up to 36. *)
Definition digitValue (c : ascii) : option Z :=
  let n := Z.of_nat (nat_of_ascii c) in
  if (48 <=? n) && (n <=? 57) then Some (n - 48)
  else if (97 <=? n) && (n <=? 122) then Some (n - 87)
  else if (65 <=? n) && (n <=? 90) then Some (n - 55)
  else None.

(** The longest prefix of radix-[R] digits, read left to right; [acc] is
    [None] until a digit has been read. *)
Fixpoint parseDigits (R : Z) (s : string) (acc : option Z) : option Z :=
  match s with
  | "" => acc
  | String c s' =>
      match digitValue c with
      | Some d =>
          if d <? R then parseDigits R s' (Some (default 0 acc * R + d))
          else acc
      | None => acc
      end
  end.

(** [parseInt(s, radix)]; radix [0] stands for a missing radix and [None]
    for [NaN]. *)
Definition parseInt (s : string) (radix : Z) : option Z :=
  let S0 := trimStart s in
  let '(sign, S1) :=
    match S0 with
    | String "-" r => (-1, r)
    | String "+" r => (1, r)
    | _ => (1, S0)
    end in
  if negb (radix =? 0) && ((radix <? 2) || (36 <? radix)) then None
  else
    let stripPrefix := (radix =? 0) || (radix =? 16) in
    let R := if radix =? 0 then 10 else radix in
    let '(R, S2) :=
      if stripPrefix && (startsWith "0x" S1 || startsWith "0X" S1)
      then (16, skip 2 S1) else (R, S1) in
    (fun v => sign * v) <$> parseDigits R S2 None.

End JsString.

(** ** Functions of the runtime that the program only calls *)

Class Runtime : Type := {
  (** [parseFloat]; [None] is [NaN] *)
  parseFloat : string -> option Q;
  (** [path.join], [path.basename] and [path.extname] *)
  path_join : string -> string -> string;
  path_basename : string -> string;
  path_extname : string -> string;
  (** [Buffer.from(s, 'base64')], as the bytes it yields *)
  base64_decode : string -> string;
  (** [(size / 1024).toFixed(2)] for a size in bytes *)
  sizeKB_toFixed2 : Z -> string;
  (** [new Date(t).toISOString()], which throws on an invalid date *)
  toISOString : jsval -> outcome string;
}.

(** ** ProcessSampler and CallStateDetector ([src/main.js]) *)

(** What the callback of [child_process.exec] receives. *)
Inductive exec_result : Type :=
| ExecError (code : Z) (stderr : string)
| ExecOk (stdout : string).

Module Sampler.
Import JsString.

Definition isZaloCallRow (l : string) : bool :=
  includes "zalocall.exe" (toLowerCase l).

(** [memUsageStr.replace(/[,K]/gi, "")] *)
Definition isCommaOrK (c : ascii) : bool :=
  match c with
  | ","%char | "K"%char | "k"%char => true
  | _ => false
  end.

Definition memUsageStr (line : string) : string :=
  join " " (drop 4 (splitWs (trim line))).

(** [checkZaloMemory], applied to the result of
    [tasklist /fi "imagename eq ZaloCall.exe"]. *)
Definition checkZaloMemory (r : exec_result) : Z :=
  match r with
  | ExecError _ _ => 0
  | ExecOk stdout =>
      let lines := split "010" stdout in
      if (length lines =? 0)%nat then 0
      else
        match find isZaloCallRow lines with
        | None => 0
        | Some line =>
            match parseInt (removeChars isCommaOrK (memUsageStr line)) 0 with
            | None => 0
            | Some memKB => memKB
            end
        end
  end.

(** The double quote, code 34. *)
Definition isQuote (c : ascii) : bool := Ascii.eqb c "034"%char.

(** [checkZaloCPU], applied to the result of the [typeperf] query. *)
Definition checkZaloCPU `{Runtime} (r : exec_result) : Q :=
  match r with
  | ExecError _ _ => 0%Q
  | ExecOk stdout =>
      let lines := split "010" (trim stdout) in
      if (3 <=? length lines)%nat then
        let lastLine := removeChars isQuote (nth 1 lines "") in
        let parts := split "," lastLine in
        match parts !! 1%nat with
        | None => 0%Q
        | Some p =>
            match parseFloat p with
            | None => 0%Q
            | Some cpu => if Qeq_bool cpu 0 then 0%Q else cpu
            end
        end
      else 0%Q
  end.

Record callStatus : Type := { isInCall : bool; memory : Z }.

(** [checkZaloCallStatusMemory]; [threshold] is the current value of the
    global [MEMORY_CALL_THRESHOLD_KB]. *)
Definition checkZaloCallStatusMemory (threshold : Z) (r : exec_result)
  : callStatus :=
  let memory := checkZaloMemory r in
  let isInCall := memory >? threshold in
  {| isInCall := isInCall; memory := memory |}.

End Sampler.

(** ** Threshold configuration and its reload ([src/main.js]) *)

Module Config.
Import JsString.

Definition DEFAULT_THRESHOLD : Z := 100000.

(** The globals [MEMORY_CALL_THRESHOLD_KB], [installThreshold] and
    [installNameCode]. *)
Record state : Type := {
  MEMORY_CALL_THRESHOLD_KB : Z;
  installThreshold : option Z;
  installNameCode : option string;
}.

(** [appConfig.MEMORY_CALL_THRESHOLD_KB || DEFAULT_THRESHOLD]; the field of
    [default.json] is a number or is missing. *)
Definition fallbackThreshold (appConfigThreshold : option Z) : Z :=
  match appConfigThreshold with
  | Some v => if v =? 0 then DEFAULT_THRESHOLD else v
  | None => DEFAULT_THRESHOLD
  end.

Definition initial (appConfigThreshold : option Z) : state :=
  {| MEMORY_CALL_THRESHOLD_KB := fallbackThreshold appConfigThreshold;
     installThreshold := None;
     installNameCode := None |}.

(** [config.txt] as [fs.existsSync] and [fs.readFileSync] find it. *)
Inductive config_file : Type :=
| Missing
| Unreadable
| Content (text : string).

(** The body of the loop over the lines of the file. *)
Definition processLine (st : state) (line : string) : state :=
  let trimmedLine := trim line in
  if bool_decide (trimmedLine = "") || startsWith "#" trimmedLine then st
  else
    match indexOf "=" trimmedLine with
    | None => st
    | Some equalIndex =>
        let key := trim (take equalIndex trimmedLine) in
        let value := trim (skip (S equalIndex) trimmedLine) in
        let st1 :=
          if bool_decide (key = "MEMORY_CALL_THRESHOLD_KB") then
            match parseInt value 10 with
            | Some parsed =>
                {| MEMORY_CALL_THRESHOLD_KB := MEMORY_CALL_THRESHOLD_KB st;
                   installThreshold := Some parsed;
                   installNameCode := installNameCode st |}
            | None => st
            end
          else st in
        if bool_decide (key = "NAME_CODE") then
          {| MEMORY_CALL_THRESHOLD_KB := MEMORY_CALL_THRESHOLD_KB st1;
             installThreshold := installThreshold st1;
             installNameCode := Some value |}
        else st1
    end.

Definition loadConfigFiles (appConfigThreshold : option Z)
    (file : config_file) (st : state) : state :=
  let st1 :=
    match file with
    | Content configContent =>
        fold_left processLine (splitLines configContent) st
    | Missing | Unreadable => st
    end in
  match installThreshold st1 with
  | Some v =>
      {| MEMORY_CALL_THRESHOLD_KB := v;
         installThreshold := installThreshold st1;
         installNameCode := installNameCode st1 |}
  | None =>
      let previousValue := MEMORY_CALL_THRESHOLD_KB st1 in
      let fallbackValue := fallbackThreshold appConfigThreshold in
      if negb (previousValue =? fallbackValue) then
        {| MEMORY_CALL_THRESHOLD_KB := fallbackValue;
           installThreshold := installThreshold st1;
           installNameCode := installNameCode st1 |}
      else st1
  end.

End Config.

(** ** Timers and watchers of the controller ([src/main.js]) *)

Module App.
Import Config.

Inductive callback : Type :=
| LoadConfigFiles
| MonitorTick
| StartVersionCheck.

(** What a piece of start-up code leaves registered with the event loop. *)
Inductive registration : Type :=
| SetTimeout (ms : Z) (cb : callback)
| SetInterval (ms : Z) (cb : callback)
| WatchFile (interval : Z) (cb : callback)
| WatchDir (delay : Z) (cb : callback).

(** [setupConfigFileWatcher]: [fs.watchFile] on [config.txt] and [fs.watch]
    on its directory, both calling [loadConfigFiles]. *)
Definition setupConfigFileWatcher : list registration :=
  [WatchFile 1000 LoadConfigFiles; WatchDir 100 LoadConfigFiles].

(** The body of [app.whenReady().then(...)]. The call of
    [setupConfigFileWatcher] is commented out in the source, and so is
    that of [startClipboardMonitoring]. *)
Definition whenReady : list registration :=
  [SetTimeout 5000 LoadConfigFiles;
   SetInterval 3000 MonitorTick;
   SetTimeout 10000 StartVersionCheck].

Record world : Type := {
  configFile : config_file;
  globals : state;
  registered : list registration;
}.

Definition boot (appConfigThreshold : option Z) (file : config_file)
  : world :=
  {| configFile := file;
     globals := initial appConfigThreshold;
     registered := whenReady |}.

Inductive event : Type :=
(** another process creates or rewrites [config.txt] *)
| FileWritten (text : string)
(** the file and directory watchers get to see the file's current state *)
| WatchersNotified
(** [ms] milliseconds have passed since the application was ready *)
| TimeoutElapsed (ms : Z)
(** one period of the monitoring interval *)
| IntervalElapsed.

Definition fire (appConfigThreshold : option Z) (w : world) (cb : callback)
  : world :=
  match cb with
  | LoadConfigFiles =>
      {| configFile := configFile w;
         globals := loadConfigFiles appConfigThreshold (configFile w)
                      (globals w);
         registered := registered w |}
  | MonitorTick | StartVersionCheck => w
  end.

(** The callbacks that an event runs, in registration order. *)
Definition triggered (ev : event) (r : registration) : option callback :=
  match ev, r with
  | WatchersNotified, WatchFile _ cb => Some cb
  | WatchersNotified, WatchDir _ cb => Some cb
  | TimeoutElapsed t, SetTimeout ms cb => if t =? ms then Some cb else None
  | IntervalElapsed, SetInterval _ cb => Some cb
  | _, _ => None
  end.

(** A timeout is removed once it has fired. *)
Definition survives (ev : event) (r : registration) : bool :=
  match ev, r with
  | TimeoutElapsed t, SetTimeout ms _ => negb (t =? ms)
  | _, _ => true
  end.

Definition step (appConfigThreshold : option Z) (w : world) (ev : event)
  : world :=
  match ev with
  | FileWritten text =>
      {| configFile := Content text;
         globals := globals w;
         registered := registered w |}
  | _ =>
      let w' := fold_left (fire appConfigThreshold)
                  (omap (triggered ev) (registered w)) w in
      {| configFile := configFile w';
         globals := globals w';
         registered := filter (fun r => survives ev r = true)
                         (registered w') |}
  end.

Definition run (appConfigThreshold : option Z) (w : world)
    (evs : list event) : world :=
  fold_left (step appConfigThreshold) evs w.

(** The verdict of the detector in a world, for one query of the process
    table. *)
Definition classify (w : world) (r : exec_result) : Sampler.callStatus :=
  Sampler.checkZaloCallStatusMemory (MEMORY_CALL_THRESHOLD_KB (globals w)) r.

End App.

(** ** JavaScript values at work *)

Module Js.

Definition newError (message : string) : jsval :=
  VObj [("message", VStr message)].

Definition typeError (message : string) : jsval :=
  VObj [("name", VStr "TypeError"); ("message", VStr message)].

(** [ToBoolean] *)
Definition truthy (v : jsval) : bool :=
  match v with
  | VUndefined | VNull => false
  | VBool b => b
  | VNum n => negb (n =? 0)
  | VStr s => negb (bool_decide (s = ""))
  | VBuffer _ | VObj _ => true
  end.

(** The first binding of a key in the fields of an object. *)
Fixpoint field (k : string) (fields : list (string * jsval)) : jsval :=
  match fields with
  | [] => VUndefined
  | (k', v) :: rest => if bool_decide (k = k') then v else field k rest
  end.

(** [v.k], and the destructuring [const { k } = v]: both throw on
    [undefined] and [null]. The keys the program reads are no properties of
    a primitive or a buffer. *)
Definition getProp (v : jsval) (k : string) : outcome jsval :=
  match v with
  | VUndefined | VNull =>
      Throw (typeError ("Cannot read properties of undefined (reading '" +:+ k +:+ "')"))
  | VObj fields => Ret (field k fields)
  | VBool _ | VNum _ | VStr _ | VBuffer _ => Ret VUndefined
  end.

(** [v?.k] *)
Definition optProp (v : jsval) (k : string) : jsval :=
  match v with
  | VObj fields => field k fields
  | _ => VUndefined
  end.

(** A value inside a template literal. *)
Definition toStr (v : jsval) : string :=
  match v with
  | VUndefined => "undefined"
  | VNull => "null"
  | VBool true => "true"
  | VBool false => "false"
  | VNum n => NilZero.string_of_int (Z.to_int n)
  | VStr s => s
  | VBuffer bytes => bytes
  | VObj _ => "[object Object]"
  end.

(** Whether an object has a property of its own under the key. *)
Definition hasOwn (k : string) (fields : list (string * jsval)) : bool :=
  existsb (fun kv => bool_decide (kv.1 = k)) fields.

(** [ToString], as a template literal applies it to a value. The values of
    the program are data (JSON, or a structured clone), so no property of an
    object is a function: an object with a [toString] of its own cannot be
    converted, since its [valueOf] gives the object back, and the conversion
    throws. *)
Definition ToString (v : jsval) : outcome string :=
  match v with
  | VObj fields =>
      if hasOwn "toString" fields
      then Throw (typeError "Cannot convert object to primitive value")
      else Ret "[object Object]"
  | _ => Ret (toStr v)
  end.

(** [o[k] = v] on the fields of an object: the property is overwritten
    where it is, or added at the end. *)
Fixpoint setField (k : string) (v : jsval) (fields : list (string * jsval))
  : list (string * jsval) :=
  match fields with
  | [] => [(k, v)]
  | (k', v') :: rest =>
      if bool_decide (k = k') then (k, v) :: rest
      else (k', v') :: setField k v rest
  end.

Definition bind {A B} (o : outcome A) (k : A -> outcome B) : outcome B :=
  match o with
  | Ret a => k a
  | Throw e => Throw e
  end.

(** [try { body } catch (e) { handler(e) }] *)
Definition tryCatch {A} (body : outcome A) (handler : jsval -> outcome A)
  : outcome A :=
  match body with
  | Ret a => Ret a
  | Throw e => handler e
  end.

End Js.

(** ** The API client ([callApi] of [src/main.js]) *)

(** The configuration object handed to [axios]. *)
Record axiosConfig : Type := {
  method : string;
  url : string;
  headers : list (string * jsval);
  timeout : Z;
  (** [maxContentLength] and [maxBodyLength] set to [Infinity] *)
  unlimitedBody : bool;
  data : option jsval;
}.

(** The network as the controller meets it: [axios(config)] resolves with a
    response, of which [callApi] keeps the [data], or rejects with an
    error. *)
Definition network : Type := axiosConfig -> outcome jsval.

Module Api.
Import JsString Js.

Definition isBuffer (v : jsval) : bool :=
  match v with VBuffer _ => true | _ => false end.

Definition isNull (v : jsval) : bool :=
  match v with VNull => true | _ => false end.

Definition sendsBody (METHOD : string) : bool :=
  bool_decide (METHOD = "POST") || bool_decide (METHOD = "PUT")
    || bool_decide (METHOD = "PATCH").

(** The default parameter [data = null]: an argument that is [undefined]
    is replaced by [null]. *)
Definition dataOrNull (data : jsval) : jsval :=
  match data with
  | VUndefined => VNull
  | _ => data
  end.

(** The statements inside the [try] of [callApi]. The URL is built, by a
    template literal, before the base URL is checked. *)
Definition callApiBody (net : network) (apiUrl endpoint : jsval)
    (method : string) (data : jsval) (customHeaders : list (string * jsval))
    (timeout : Z) : outcome jsval :=
  let data := dataOrNull data in
  Js.bind
    (if truthy endpoint then
       match endpoint with
       | VStr e => Ret (startsWith "http://" e || startsWith "https://" e)
       | _ => Throw (typeError "endpoint.startsWith is not a function")
       end
     else Ret false)
    (fun isFullUrl =>
  Js.bind
    (if isFullUrl then Ret (toStr endpoint)
     else
       Js.bind (ToString apiUrl) (fun base =>
       Js.bind (ToString endpoint) (fun path =>
       Ret (base +:+ "/" +:+ path))))
    (fun finalUrl =>
  Js.bind
    (if isFullUrl then Ret false
     else if negb (truthy apiUrl) then Ret true
     else match apiUrl with
          | VStr a | VBuffer a => Ret (includes "undefined" a)
          | _ => Throw (typeError "apiUrl.includes is not a function")
          end)
    (fun apiUrlNotSet =>
  if apiUrlNotSet then Ret (VBool false)
  else
    let headers :=
      if negb (truthy (field "Content-Type" customHeaders))
         && negb (isBuffer data) && negb (isNull data)
      then setField "Content-Type" (VStr "application/json") customHeaders
      else customHeaders in
    let config :=
      {| method := toUpperCase method;
         url := finalUrl;
         headers := headers;
         timeout := timeout;
         unlimitedBody := isBuffer data;
         data := if truthy data && sendsBody (toUpperCase method)
                 then Some data else None |} in
    net config))).

(** [callApi]: whatever the body throws is caught and returned, after the
    message for the log has been formatted with the endpoint in a template
    literal. *)
Definition callApi (net : network) (apiUrl endpoint : jsval)
    (method : string) (data : jsval) (customHeaders : list (string * jsval))
    (timeout : Z) : outcome jsval :=
  tryCatch
    (callApiBody net apiUrl endpoint method data customHeaders timeout)
    (fun error => Js.bind (ToString endpoint) (fun _ => Ret error)).

End Api.

(** ** The file system *)

Inductive node : Type :=
| Dir
| File (content : string).

Abbreviation filesystem := (gmap string node).

(** The calls of [fs] that fail although the path is fine (a locked file, a
    full disk, missing rights), per path. *)
Record fsFaults : Type := {
  statFails : string -> bool;
  readFails : string -> bool;
  writeFails : string -> bool;
  unlinkFails : string -> bool;
  mkdirFails : string -> bool;
}.

(** A computation of the controller over the file system. *)
Definition M (A : Type) : Type := filesystem -> outcome A * filesystem.

Module Fs.

Definition ret {A} (a : A) : M A := fun fs => (Ret a, fs).

Definition throw {A} (e : jsval) : M A := fun fs => (Throw e, fs).

Definition bind {A B} (m : M A) (k : A -> M B) : M B :=
  fun fs =>
    match m fs with
    | (Ret a, fs') => k a fs'
    | (Throw e, fs') => (Throw e, fs')
    end.

Definition lift {A} (o : outcome A) : M A := fun fs => (o, fs).

(** [try { body } catch (e) { handler(e) }]; the effects of the body up to
    the exception stay. *)
Definition tryCatch {A} (body : M A) (handler : jsval -> M A) : M A :=
  fun fs =>
    match body fs with
    | (Ret a, fs') => (Ret a, fs')
    | (Throw e, fs') => handler e fs'
    end.

Definition size (n : node) : Z :=
  match n with
  | Dir => 0
  | File content => Z.of_nat (String.length content)
  end.

Definition existsSync (p : string) : M bool :=
  fun fs => (Ret (bool_decide (is_Some (fs !! p))), fs).

(** [fs.statSync(p).size] *)
Definition statSize (F : fsFaults) (p : string) : M Z :=
  fun fs =>
    match fs !! p with
    | None => (Throw (Js.newError ("ENOENT: no such file or directory, stat '" +:+ p +:+ "'")), fs)
    | Some n =>
        if statFails F p then (Throw (Js.newError ("EPERM: operation not permitted, stat '" +:+ p +:+ "'")), fs)
        else (Ret (size n), fs)
    end.

Definition readFileSync (F : fsFaults) (p : string) : M string :=
  fun fs =>
    match fs !! p with
    | None => (Throw (Js.newError ("ENOENT: no such file or directory, open '" +:+ p +:+ "'")), fs)
    | Some Dir => (Throw (Js.newError "EISDIR: illegal operation on a directory, read"), fs)
    | Some (File content) =>
        if readFails F p then (Throw (Js.newError ("EBUSY: resource busy or locked, open '" +:+ p +:+ "'")), fs)
        else (Ret content, fs)
    end.

(** A write that fails leaves the file system as it was. *)
Definition writeFileSync (F : fsFaults) (p : string) (content : string)
  : M unit :=
  fun fs =>
    match fs !! p with
    | Some Dir => (Throw (Js.newError "EISDIR: illegal operation on a directory, open"), fs)
    | _ =>
        if writeFails F p then (Throw (Js.newError ("ENOSPC: no space left on device, write '" +:+ p +:+ "'")), fs)
        else (Ret tt, <[p := File content]> fs)
    end.

Definition unlinkSync (F : fsFaults) (p : string) : M unit :=
  fun fs =>
    match fs !! p with
    | None => (Throw (Js.newError ("ENOENT: no such file or directory, unlink '" +:+ p +:+ "'")), fs)
    | Some Dir => (Throw (Js.newError ("EPERM: operation not permitted, unlink '" +:+ p +:+ "'")), fs)
    | Some (File _) =>
        if unlinkFails F p then (Throw (Js.newError ("EBUSY: resource busy or locked, unlink '" +:+ p +:+ "'")), fs)
        else (Ret tt, delete p fs)
    end.

(** [fs.mkdirSync(p, { recursive: true })] *)
Definition mkdirSync (F : fsFaults) (p : string) : M unit :=
  fun fs =>
    match fs !! p with
    | Some (File _) => (Throw (Js.newError ("EEXIST: file already exists, mkdir '" +:+ p +:+ "'")), fs)
    | Some Dir => (Ret tt, fs)
    | None =>
        if mkdirFails F p then (Throw (Js.newError ("EPERM: operation not permitted, mkdir '" +:+ p +:+ "'")), fs)
        else (Ret tt, <[p := Dir]> fs)
    end.

End Fs.

Notation "'let*' x ':=' m 'in' k" := (Fs.bind m (fun x => k))
  (at level 10, x name, m at level 100, k at level 200, only parsing).
Notation "'do*' m 'in' k" := (Fs.bind m (fun _ => k))
  (at level 10, m at level 100, k at level 200, only parsing).

(** ** ConversionStage ([convertToMP3] and the [save-file] handler) *)

(** What the controller is given besides the file system: the faults of the
    file system, the transcoding tool and the clock. The tool, run on a
    command line, reports an error or not and may write its output file;
    that it touches no other file is an assumption of the model. *)
Record host : Type := {
  faults : fsFaults;
  ffmpeg : string -> filesystem -> option jsval * option string;
  (** the [DD_MM_YYYY] folder name for the current date *)
  dateFolder : string;
  OUTPUT_DIR : string;
  FFMPEG_PATH : string;
}.

Module Conversion.
Import JsString.

Definition quoted (s : string) : string :=
  String "034" (s +:+ String "034" "").

Definition command (H : host) (inputPath outputPath : string) : string :=
  quoted (FFMPEG_PATH H) +:+ " -i " +:+ quoted inputPath
    +:+ " -vn -ar 44100 -ac 2 -b:a 192k " +:+ quoted outputPath.

(** [exec(command, ...)]: the tool runs, and its output file, if it wrote
    one, is in the file system when the callback runs. *)
Definition exec (H : host) (inputPath outputPath : string)
  : M (option jsval) :=
  fun fs =>
    let '(error, written) := ffmpeg H (command H inputPath outputPath) fs in
    (Ret error,
     match written with
     | Some content => <[outputPath := File content]> fs
     | None => fs
     end).

Definition convertToMP3 (H : host) (inputPath outputPath : string)
  : M string :=
  let* inputExists := Fs.existsSync inputPath in
  if negb inputExists then
    Fs.throw (Js.newError ("Input file not found: " +:+ inputPath))
  else
    let* inputSize := Fs.statSize (faults H) inputPath in
    if inputSize =? 0 then Fs.throw (Js.newError "Input file is empty")
    else
      let* toolExists := Fs.existsSync (FFMPEG_PATH H) in
      if negb toolExists then
        Fs.throw (Js.newError ("FFmpeg not found: " +:+ FFMPEG_PATH H))
      else
        let* error := exec H inputPath outputPath in
        match error with
        | Some e => Fs.throw e
        | None =>
            let* outputExists := Fs.existsSync outputPath in
            if outputExists then
              let* outputSize := Fs.statSize (faults H) outputPath in
              if outputSize =? 0 then
                Fs.throw (Js.newError "Output file is empty")
              else Fs.ret outputPath
            else Fs.throw (Js.newError "Output file was not created")
        end.

(** The [save-file] handler up to the conversion step: the checks of the
    payload, the date folder and the temporary file. It yields the date
    folder's path and the temporary file's path. *)
Definition saveTemp `{Runtime} (H : host) (filename : string)
    (dataUrl : jsval) : M (string * string) :=
  match dataUrl with
  | VStr url =>
      if negb (Js.truthy dataUrl) || negb (startsWith "data:" url) then
        Fs.throw (Js.newError "Invalid dataUrl format")
      else
        let dateDir := path_join (OUTPUT_DIR H) (dateFolder H) in
        let* dirExists := Fs.existsSync dateDir in
        do* (if negb dirExists then Fs.mkdirSync (faults H) dateDir
             else Fs.ret tt) in
        let tempFilename := replaceFirst ".mp3" ".webm" filename in
        let tempFilePath := path_join dateDir tempFilename in
        match split "," url !! 1%nat with
        | None | Some "" =>
            Fs.throw (Js.newError "Invalid dataUrl: no base64 data found")
        | Some base64Data =>
            let buffer := base64_decode base64Data in
            if (String.length buffer =? 0)%nat then
              Fs.throw (Js.newError "Buffer is empty")
            else
              do* Fs.writeFileSync (faults H) tempFilePath buffer in
              let* tempSize := Fs.statSize (faults H) tempFilePath in
              if tempSize =? 0 then
                Fs.throw (Js.newError "Temporary file is empty")
              else Fs.ret (dateDir, tempFilePath)
        end
  | VUndefined | VNull | VBool false | VNum 0 =>
      Fs.throw (Js.newError "Invalid dataUrl format")
  | _ => Fs.throw (Js.typeError "dataUrl.startsWith is not a function")
  end.

(** The conversion step of the handler and what follows it. *)
Definition convertAndClean `{Runtime} (H : host) (filename dateDir
    tempFilePath : string) : M jsval :=
  let mp3FilePath := path_join dateDir filename in
  do* Fs.tryCatch
        (do* convertToMP3 H tempFilePath mp3FilePath in Fs.ret tt)
        (fun err =>
           do* Fs.tryCatch
                 (let* tempExists := Fs.existsSync tempFilePath in
                  if tempExists then Fs.unlinkSync (faults H) tempFilePath
                  else Fs.ret tt)
                 (fun _ => Fs.ret tt) in
           Fs.throw err) in
  do* Fs.tryCatch (Fs.unlinkSync (faults H) tempFilePath)
        (fun _ => Fs.ret tt) in
  let* size := Fs.statSize (faults H) mp3FilePath in
  Fs.ret (VObj [("path", VStr mp3FilePath);
                ("size", VStr (sizeKB_toFixed2 size))]).

(** [ipcMain.handle('save-file', ...)] *)
Definition saveFile `{Runtime} (H : host) (filename : string)
    (dataUrl : jsval) : M jsval :=
  Fs.tryCatch
    (let* paths := saveTemp H filename dataUrl in
     convertAndClean H filename paths.1 paths.2)
    (fun error => Fs.throw error).

End Conversion.

(** ** UploadStage (the [upload-file] handler) *)

(** The fields of [appConfig] that the upload reads. *)
Record appConfig : Type := {
  API_URL : jsval;
  API_UPLOAD_URL : jsval;
  UPLOAD_API : jsval;
  SAVE_HISTORY_API : jsval;
  SALE_TOKEN : jsval;
}.

Module Upload.
Import JsString.

Definition contentTypeMap : list (string * string) :=
  [(".mp3", "audio/mpeg"); (".webm", "audio/webm"); (".jpg", "image/jpeg");
   (".jpeg", "image/jpeg"); (".png", "image/png")].

(** [contentTypeMap[ext] || 'application/octet-stream'] *)
Definition contentTypeOf (fileExtension : string) : string :=
  match find (fun kv => bool_decide (kv.1 = fileExtension)) contentTypeMap with
  | Some kv => kv.2
  | None => "application/octet-stream"
  end.

Definition is200 (v : jsval) : bool :=
  match v with VNum 200 => true | _ => false end.

(** [ipcMain.handle('upload-file', ...)] *)
Definition uploadFile `{Runtime} (H : host) (cfg : appConfig)
    (net : network) (timeParams : jsval) (filePath : string) : M bool :=
  Fs.tryCatch
    (let* fileExists := Fs.existsSync filePath in
     if bool_decide (filePath = "") || negb fileExists then
       Fs.throw (Js.newError ("File not found: " +:+ filePath))
     else
       let* beginTime := Fs.lift (Js.getProp timeParams "beginTime") in
       let* endTime := Fs.lift (Js.getProp timeParams "endTime") in
       let fileName := path_basename filePath in
       let fileExtension := toLowerCase (path_extname filePath) in
       let contentType := contentTypeOf fileExtension in
       let* response :=
         Fs.lift (Api.callApi net (API_UPLOAD_URL cfg) (UPLOAD_API cfg) "POST"
                    (VObj [("name", VStr fileName);
                           ("type", VStr contentType)])
                    [("x-api-token", SALE_TOKEN cfg)] 10000) in
       let* code := Fs.lift (Js.getProp response "code") in
       if negb (is200 code) then Fs.ret false
       else
         let* responseData := Fs.lift (Js.getProp response "data") in
         let* presignUrl := Fs.lift (Js.getProp responseData "presignUrl") in
         let* url := Fs.lift (Js.getProp responseData "url") in
         let* fileBuffer := Fs.readFileSync (faults H) filePath in
         do* Fs.lift (Api.callApi net (VStr "") presignUrl "PUT"
                        (VBuffer fileBuffer)
                        [("Content-Type", VStr contentType)] 60000) in
         let* begin_time := Fs.lift (toISOString beginTime) in
         let* end_time := Fs.lift (toISOString endTime) in
         let* saveHistoryResponse :=
           Fs.lift (Api.callApi net (API_URL cfg) (SAVE_HISTORY_API cfg) "POST"
                      (VObj [("begin_time", VStr begin_time);
                             ("end_time", VStr end_time);
                             ("call_url", url)])
                      [("x-api-token", SALE_TOKEN cfg)] 10000) in
         if negb (Js.truthy (Js.optProp saveHistoryResponse "success")) then
           Fs.ret false
         else
           do* Fs.tryCatch
                 (let* stillThere := Fs.existsSync filePath in
                  if stillThere then Fs.unlinkSync (faults H) filePath
                  else Fs.ret tt)
                 (fun _ => Fs.ret tt) in
           Fs.ret true)
    (fun error => Fs.throw error).

End Upload.

(** ** AudioCapturePipeline ([src/renderer.js]) *)

Module Renderer.
Import JsString.

(** [MediaRecorder.state]; the program never pauses a recorder. *)
Inductive recorderState : Type :=
| RecorderInactive
| RecorderRecording.

Record recorder : Type := {
  recorderState_ : recorderState;
  mimeType : string;
}.

(** [AudioContext.state] *)
Inductive contextState : Type :=
| ContextRunning
| ContextClosed.

(** The module-level variables; a chunk is kept as its size in bytes;
    [None] is [undefined] or [null]. *)
Record state : Type := {
  recording : bool;
  audioChunks : list Z;
  startTime : option Z;
  combinedRecorder : option recorder;
  audioContext : option contextState;
  destination : bool;
}.

Definition initial : state :=
  {| recording := false; audioChunks := []; startTime := None;
     combinedRecorder := None; audioContext := None; destination := false |}.

(** What the capture surface does that others can see. *)
Inductive event : Type :=
| ELog (message : string)
| EMicrophoneAcquired
| ESystemAudioAcquired (sourceId : string)
| ERecorderStarted (mime : string)
| ERecorderStopped
| EInvoke (channel : string) (payload : jsval).

(** An entry of the result of [get-sources]. *)
Record source : Type := { id : string; name : string }.

(** The devices and the runtime at a [start]. *)
Record media : Type := {
  now : Z;
  (** [new AudioContext()] succeeds *)
  contextCreated : bool;
  (** the microphone stream is granted and wired to the destination *)
  microphone : bool;
  (** the answer to [get-sources]; [None] when the request is rejected *)
  sources : option (list source);
  (** the desktop stream of a source: its number of audio tracks, or
      [None] when it is refused *)
  desktopAudioTracks : string -> option nat;
  isTypeSupported : string -> bool;
  (** [new MediaRecorder(...)] succeeds *)
  recorderConstructed : bool;
  (** [combinedRecorder.start(1000)] succeeds *)
  recorderStarts : bool;
}.

Definition mimeTypes : list string :=
  ["audio/webm;codecs=opus"; "audio/webm"; "audio/ogg;codecs=opus";
   "audio/mp4"].

Definition isEntireScreen (s : source) : bool :=
  includes "entire" (toLowerCase (name s))
  || includes "screen" (toLowerCase (name s))
  || includes "screen" (id s).

(** Step 2 of [startRecording]: whether system audio got connected, and
    the events of the attempt. *)
Definition connectSystemAudio (E : media) : bool * list event :=
  match sources E with
  | None => (false, [EInvoke "get-sources" VUndefined; ELog "System audio error:"])
  | Some found =>
      match find isEntireScreen found with
      | None => (false, [EInvoke "get-sources" VUndefined])
      | Some entireScreen =>
          match desktopAudioTracks E (id entireScreen) with
          | None =>
              (false, [EInvoke "get-sources" VUndefined;
                       ELog "System audio error:"])
          | Some tracks =>
              if (0 <? tracks)%nat then
                (true, [EInvoke "get-sources" VUndefined;
                        ESystemAudioAcquired (id entireScreen)])
              else (false, [EInvoke "get-sources" VUndefined])
          end
      end
  end.

(** Step 1: the microphone. *)
Definition connectMicrophone (E : media) : bool * list event :=
  if microphone E then (true, [EMicrophoneAcquired])
  else (false, [ELog "Microphone error:"]).

Definition withRecording (b : bool) (st : state) : state :=
  {| recording := b; audioChunks := audioChunks st;
     startTime := startTime st; combinedRecorder := combinedRecorder st;
     audioContext := audioContext st; destination := destination st |}.

Definition startRecording (E : media) (st : state) : state * list event :=
  if recording st then (st, [])
  else
    let st1 :=
      {| recording := true; audioChunks := []; startTime := Some (now E);
         combinedRecorder := combinedRecorder st;
         audioContext := audioContext st; destination := destination st |} in
    if negb (contextCreated E) then
      (withRecording false st1, [ELog "startRecording: Critical error:"])
    else
      let st2 :=
        {| recording := true; audioChunks := []; startTime := Some (now E);
           combinedRecorder := combinedRecorder st;
           audioContext := Some ContextRunning; destination := true |} in
      let '(micConnected, micEvents) := connectMicrophone E in
      let '(systemConnected, systemEvents) := connectSystemAudio E in
      let evs := (micEvents ++ systemEvents)%list in
      if negb micConnected && negb systemConnected then
        (withRecording false st2,
         (evs ++ [ELog "No audio sources available!"])%list)
      else
        match find (isTypeSupported E) mimeTypes with
        | None =>
            (withRecording false st2,
             (evs ++ [ELog "No supported MIME type found!"])%list)
        | Some selectedMimeType =>
            if negb (recorderConstructed E) then
              (withRecording false st2,
               (evs ++ [ELog "startRecording: Critical error:"])%list)
            else if negb (recorderStarts E) then
              ({| recording := false; audioChunks := [];
                  startTime := Some (now E);
                  combinedRecorder :=
                    Some {| recorderState_ := RecorderInactive;
                            mimeType := selectedMimeType |};
                  audioContext := Some ContextRunning;
                  destination := true |},
               (evs ++ [ELog "startRecording: Critical error:"])%list)
            else
              ({| recording := true; audioChunks := [];
                  startTime := Some (now E);
                  combinedRecorder :=
                    Some {| recorderState_ := RecorderRecording;
                            mimeType := selectedMimeType |};
                  audioContext := Some ContextRunning;
                  destination := true |},
               (evs ++ [ERecorderStarted selectedMimeType])%list)
        end.

(** [combinedRecorder.ondataavailable] *)
Definition ondataavailable (size : Z) (st : state) : state :=
  if 0 <? size then
    {| recording := recording st;
       audioChunks := (audioChunks st ++ [size])%list;
       startTime := startTime st; combinedRecorder := combinedRecorder st;
       audioContext := audioContext st; destination := destination st |}
  else st.

(** The recorder and the controller at a [stop]. *)
Record stopping : Type := {
  (** [combinedRecorder.stop()] throws *)
  stopThrows : bool;
  (** the [stop] event of the recorder arrives within five seconds *)
  stopAcknowledged : bool;
  (** the sizes of the data events that arrive while the stop waits *)
  lateData : list Z;
  stoppedAt : Z;
  filename : string;
  (** [blobToDataURL] of the chunks *)
  dataUrl : list Z -> outcome jsval;
  (** the controller's answers to the two requests *)
  saveFileAnswer : jsval -> outcome jsval;
  uploadFileAnswer : jsval -> outcome jsval;
}.

(** Whether the stop has a live recorder to finalize. *)
Definition recorderLive (st : state) : bool :=
  match combinedRecorder st with
  | Some r =>
      match recorderState_ r with
      | RecorderRecording => true
      | RecorderInactive => false
      end
  | None => false
  end.

(** The chunks at hand when the handler looks at [audioChunks.length]:
    those pushed during capture and those that arrived while a live
    recorder was being stopped. *)
Definition accumulated (S : stopping) (st : state) : list Z :=
  if recorderLive st && negb (stopThrows S) then
    audioChunks
      (fold_left (fun s size => ondataavailable size s) (lateData S) st)
  else audioChunks st.

(** The events of the wait for the recorder. *)
Definition finalizeEvents (S : stopping) (st : state) : list event :=
  if recorderLive st then
    if stopThrows S then [ELog "stopRecording: Error stopping recorder:"]
    else if stopAcknowledged S then [ERecorderStopped]
    else [ERecorderStopped;
          ELog "stopRecording: Timeout waiting for MediaRecorder to stop"]
  else [].

Definition sum (sizes : list Z) : Z := fold_right Z.add 0 sizes.

(** The [try] block that saves and uploads, with the events up to its
    completion or its exception. *)
Definition saveAndUpload (S : stopping) (st : state) (chunks : list Z)
  : outcome unit * list event :=
  if sum chunks =? 0 then
    (Throw (Js.newError "Blob is empty"), [ELog "Blob is empty!"])
  else
    match dataUrl S chunks with
    | Throw e => (Throw e, [])
    | Ret audioData =>
        let request :=
          VObj [("filename", VStr (filename S)); ("dataUrl", audioData)] in
        match saveFileAnswer S request with
        | Throw e => (Throw e, [EInvoke "save-file" request])
        | Ret result =>
            match Js.getProp result "path" with
            | Throw e => (Throw e, [EInvoke "save-file" request])
            | Ret path =>
                let upload :=
                  VObj [("timeParams",
                         VObj [("beginTime",
                                from_option VNum VUndefined (startTime st));
                               ("endTime", VNum (stoppedAt S))]);
                        ("filePath", path)] in
                match uploadFileAnswer S upload with
                | Throw e =>
                    (Throw e, [EInvoke "save-file" request;
                               EInvoke "upload-file" upload])
                | Ret _ =>
                    (Ret tt, [EInvoke "save-file" request;
                              EInvoke "upload-file" upload])
                end
            end
        end
    end.

(** [stopRecording]. Closing the audio context and releasing the tracks
    leave no trace in the variables: the context is cleared at the end. *)
Definition stopRecording (S : stopping) (st : state) : state * list event :=
  if negb (recording st) then (st, [])
  else
    let chunks := accumulated S st in
    let saved :=
      if (0 <? length chunks)%nat then
        match saveAndUpload S st chunks with
        | (Ret _, evs) => evs
        | (Throw _, evs) =>
            (evs ++ [ELog "stopRecording: Error saving file:"])%list
        end
      else [ELog "stopRecording: No audio data available!"] in
    ({| recording := false; audioChunks := []; startTime := startTime st;
        combinedRecorder := None; audioContext := None;
        destination := false |},
     (finalizeEvents S st ++ saved)%list).

Definition isInvoke (channel : string) (e : event) : bool :=
  match e with
  | EInvoke c _ => bool_decide (c = channel)
  | _ => false
  end.

Definition isRecorderStarted (e : event) : bool :=
  match e with ERecorderStarted _ => true | _ => false end.

Definition isAcquire (e : event) : bool :=
  match e with
  | EMicrophoneAcquired | ESystemAudioAcquired _ => true
  | _ => false
  end.

End Renderer.

(** ** Clipboard texts ([src/main.js]) *)

Module Clipboard.
Import JsString.

(** [\d] *)
Definition isDigit (c : ascii) : bool :=
  let n := nat_of_ascii c in (48 <=? n)%nat && (n <=? 57)%nat.

Fixpoint allDigits (s : string) : bool :=
  match s with
  | "" => true
  | String c s' => isDigit c && allDigits s'
  end.

(** [\d{n}$]: exactly [n] digits up to the end of the input. *)
Definition digits (n : nat) (s : string) : bool :=
  (String.length s =? n)%nat && allDigits s.

(** The class [[\s\-\.\(\)]] *)
Definition isPhoneSeparator (c : ascii) : bool :=
  is_ws c ||
  match c with
  | "-"%char | "."%char | "("%char | ")"%char => true
  | _ => false
  end.

(** [/^0\d{9}$/] *)
Definition isLocalFormat (s : string) : bool :=
  match s with
  | String "0" r => digits 9 r
  | _ => false
  end.

(** [/^84\d{9}$/] *)
Definition isCountryFormat (s : string) : bool :=
  match s with
  | String "8" (String "4" r) => digits 9 r
  | _ => false
  end.

(** [/^\+84\d{9}$/] *)
Definition isPlusFormat (s : string) : bool :=
  match s with
  | String "+" (String "8" (String "4" r)) => digits 9 r
  | _ => false
  end.

(** [/^[3-9]\d{8}$/] *)
Definition isBareFormat (s : string) : bool :=
  match s with
  | String c r =>
      let n := nat_of_ascii c in
      (51 <=? n)%nat && (n <=? 57)%nat && digits 8 r
  | "" => false
  end.

(** [validateAndNormalizePhoneNumber]; [None] is [null]. *)
Definition validateAndNormalizePhoneNumber (text : jsval) : option string :=
  match text with
  | VStr t =>
      if negb (Js.truthy text) then None
      else
        let cleaned := removeChars isPhoneSeparator (trim t) in
        if isLocalFormat cleaned then Some cleaned
        else if isCountryFormat cleaned then Some ("0" +:+ skip 2 cleaned)
        else if isPlusFormat cleaned then Some ("0" +:+ skip 3 cleaned)
        else if isBareFormat cleaned then Some ("0" +:+ cleaned)
        else None
  | _ => None
  end.

(** [validateAndNormalizeText]; [TEXT_SIZE_MAX] is the field of [appConfig],
    a number or missing, and a comparison with a missing bound is false. *)
Definition validateAndNormalizeText (TEXT_SIZE_MAX : option Z) (text : jsval)
  : option string :=
  match text with
  | VStr t =>
      if negb (Js.truthy text) then None
      else
        let cleaned := trim t in
        match TEXT_SIZE_MAX with
        | Some bound =>
            if bound <? Z.of_nat (String.length cleaned) then None
            else Some cleaned
        | None => Some cleaned
        end
  | _ => None
  end.

(** [sendClipboardToServer]; [CLIPBOARD_API] is the field of [appConfig]. *)
Definition sendClipboardToServer (cfg : appConfig) (CLIPBOARD_API : jsval)
    (net : network) (text : string) : bool :=
  if bool_decide (text = "") || (String.length (trim text) =? 0)%nat then false
  else
    match Api.callApi net (API_URL cfg) CLIPBOARD_API "POST"
            (VObj [("content", VStr text)])
            [("x-api-token", SALE_TOKEN cfg)] 10000 with
    | Ret responseData => Js.truthy (Js.optProp responseData "success")
    | Throw _ => false
    end.

(** The listener of the clipboard's [change] event: the new value of
    [lastClipboardText] and the text handed to [sendClipboardToServer], if
    any. [currentText] is [clipboard.readText() || '']. *)
Definition onClipboardChange (TEXT_SIZE_MAX : option Z) (currentText : string)
    (lastClipboardText : string) : string * option string :=
  if bool_decide (currentText = lastClipboardText)
     || (String.length (trim currentText) =? 0)%nat
  then (lastClipboardText, None)
  else
    match validateAndNormalizeText TEXT_SIZE_MAX (VStr currentText) with
    | Some text =>
        if negb (Js.truthy (VStr text)) then (currentText, None)
        else (currentText, Some text)
    | None => (currentText, None)
    end.

End Clipboard.

(** ** RecordingCoordinator (the monitoring loop of [src/main.js]) *)

Module Monitor.
Import JsString.

(** [isZaloRunning], applied to the result of [tasklist]. *)
Definition isZaloRunning (r : exec_result) : bool :=
  match r with
  | ExecError _ _ => false
  | ExecOk stdout => includes "zalo.exe" (toLowerCase stdout)
  end.

(** [checkZaloCallStatusCPU]: in call above three percent. *)
Definition checkZaloCallStatusCPU `{Runtime} (r : exec_result) : bool * Q :=
  let cpu := Sampler.checkZaloCPU r in
  (negb (Qle_bool cpu 3), cpu).

Inductive signal : Type :=
| StartRecording
| StopRecording.

(** What a tick does that others can see; the lines it logs are kept by
    their tags. *)
Inductive effect : Type :=
| EHeartbeat (loopCount : Z)
| ESend (s : signal)
| ELogInfo (tag : string)
| ELogError (message : string).

(** The variables [isRecording] and [loopCount]. *)
Record state : Type := {
  isRecording : bool;
  loopCount : Z;
}.

Definition initial : state := {| isRecording := false; loopCount := 0 |}.

(** What one tick meets: the two queries of the process table, whether the
    hidden window still takes messages ([webContents.send] throws on a
    destroyed window), the time the tick took, and the threshold in force. *)
Record world : Type := {
  tasklist : exec_result;
  zaloCallQuery : exec_result;
  windowAlive : bool;
  loopDuration : Z;
  threshold : Z;
}.

(** The [try] block of a tick: the new [isRecording], the effects, and
    whether the block threw. *)
Definition tickBody (W : world) (st : state) (n : Z)
  : bool * list effect * bool :=
  if negb (isZaloRunning (tasklist W)) then
    if isRecording st then
      if windowAlive W then (false, [ESend StopRecording], false)
      else (isRecording st, [], true)
    else (isRecording st, [], false)
  else
    let callStatus :=
      Sampler.checkZaloCallStatusMemory (threshold W) (zaloCallQuery W) in
    let inCall := Sampler.isInCall callStatus in
    if inCall && negb (isRecording st) then
      if windowAlive W then
        (true,
         ([ELogInfo "[START]"; ESend StartRecording]
            ++ (if Z.rem n 100 =? 0 then [ELogInfo "[RECORDING]"] else []))%list,
         false)
      else (isRecording st, [ELogInfo "[START]"], true)
    else if negb inCall && isRecording st then
      if windowAlive W then
        (false, [ELogInfo "[STOP]"; ESend StopRecording], false)
      else (isRecording st, [ELogInfo "[STOP]"], true)
    else
      (isRecording st,
       if isRecording st && (Z.rem n 100 =? 0)
       then [ELogInfo "[RECORDING]"] else [],
       false).

(** One run of the callback of [setInterval] in [startMonitoring]. *)
Definition tick (W : world) (st : state) : state * list effect :=
  let n := loopCount st + 1 in
  let '(recording', effects, threw) := tickBody W st n in
  ({| isRecording := recording'; loopCount := n |},
   [EHeartbeat n] ++ effects
     ++ (if threw then [ELogError "Monitoring loop error:"] else [])
     ++ (if (100 <? loopDuration W) && (Z.rem n 1200 =? 0)
         then [ELogError "Warning: Loop took too long"] else []))%list.

(** The ticks of the loop, one after the other. *)
Fixpoint run (Ws : list world) (st : state) : state * list effect :=
  match Ws with
  | [] => (st, [])
  | W :: Ws' =>
      let '(st1, effects1) := tick W st in
      let '(st2, effects2) := run Ws' st1 in
      (st2, (effects1 ++ effects2)%list)
  end.

Definition sent (effects : list effect) : list signal :=
  omap (fun e => match e with ESend s => Some s | _ => None end) effects.

End Monitor.

(** ** Remote code and its cache ([src/main.js]) *)

Module Updater.
Import JsString.

(** The fields of [appConfig] that the update checks read. *)
Record codeConfig : Type := {
  REMOTE_CODE_ENABLED : jsval;
  GITLAB_REPO_URL : jsval;
}.

(** [getVersionFromGitHub] and [downloadFileFromGitHub] of
    [./utils/github-downloader], which the controller only calls: the
    version is a string or [null], a download answers whether it succeeded.
    Both may reject, and what they do to the file system is theirs. *)
Record github : Type := {
  getVersionFromGitHub : M (option string);
  downloadFileFromGitHub : string -> string -> M bool;
}.

(** What else the update checks are given: the faults of the file system,
    [__dirname], the cache directory, whether the hidden window is there and
    not destroyed, and the replacement of the script tag of [index.html] by
    the inlined code ([String.prototype.replace] with a regular expression
    and a replacement pattern). *)
Record codeHost : Type := {
  codeFaults : fsFaults;
  dirname : string;
  CODE_CACHE_DIR : string;
  mainWindowOpen : bool;
  inlineScript : string -> string -> string;
}.

(** What a check does besides its answer. *)
Inductive action : Type :=
| LoadFile (path : string)
| Relaunch.

(** [!remoteVersion] *)
Definition noVersion (remoteVersion : option string) : bool :=
  match remoteVersion with
  | None => true
  | Some v => negb (Js.truthy (VStr v))
  end.

(** [let localVersion = null; if (fs.existsSync(versionFile)) localVersion =
    fs.readFileSync(versionFile, 'utf8').trim()] *)
Definition readLocalVersion (U : codeHost) (versionFile : string)
  : M (option string) :=
  let* present := Fs.existsSync versionFile in
  if present then
    let* text := Fs.readFileSync (codeFaults U) versionFile in
    Fs.ret (Some (trim text))
  else Fs.ret None.

(** [remoteVersion !== localVersion], for a remote version that is a
    string. *)
Definition differs (remoteVersion : string) (localVersion : option string)
  : bool :=
  negb (bool_decide (localVersion = Some remoteVersion)).

(** [console.error('...', error.message)] of a [catch] clause: reading the
    message of [undefined] or [null] throws. *)
Definition logMessage (error : jsval) : M unit :=
  let* _ := Fs.lift (Js.getProp error "message") in Fs.ret tt.

Definition loadRendererJs `{Runtime} (C : codeConfig) (U : codeHost)
    (G : github) : M string :=
  let localRendererJs := path_join (dirname U) "renderer.js" in
  let cacheRendererJs := path_join (CODE_CACHE_DIR U) "renderer.js" in
  let versionFile := path_join (CODE_CACHE_DIR U) "app.version" in
  if negb (Js.truthy (REMOTE_CODE_ENABLED C)) then
    let* hasLocal := Fs.existsSync localRendererJs in
    if hasLocal then Fs.ret localRendererJs
    else Fs.throw (Js.newError
           "Local renderer.js not found and remote code is disabled")
  else
    Fs.tryCatch
      (let* remoteVersion := getVersionFromGitHub G in
       match remoteVersion with
       | Some v =>
           if noVersion remoteVersion then
             let* hasCache := Fs.existsSync cacheRendererJs in
             if hasCache then Fs.ret cacheRendererJs
             else
               let* hasLocal := Fs.existsSync localRendererJs in
               if hasLocal then Fs.ret localRendererJs
               else Fs.throw (Js.newError "Cannot get version from GitLab")
           else
             let* localVersion := readLocalVersion U versionFile in
             let* downloaded :=
               if differs v localVersion then
                 let* downloadSuccess :=
                   downloadFileFromGitHub G "renderer.js" cacheRendererJs in
                 if downloadSuccess then
                   do* Fs.writeFileSync (codeFaults U) versionFile v in
                   Fs.ret true
                 else Fs.ret false
               else Fs.ret false in
             if downloaded then Fs.ret cacheRendererJs
             else
               let* hasCache := Fs.existsSync cacheRendererJs in
               if hasCache then Fs.ret cacheRendererJs
               else
                 let* hasLocal := Fs.existsSync localRendererJs in
                 if hasLocal then Fs.ret localRendererJs
                 else Fs.throw (Js.newError "No renderer.js available")
       | None =>
           let* hasCache := Fs.existsSync cacheRendererJs in
           if hasCache then Fs.ret cacheRendererJs
           else
             let* hasLocal := Fs.existsSync localRendererJs in
             if hasLocal then Fs.ret localRendererJs
             else Fs.throw (Js.newError "Cannot get version from GitLab")
       end)
      (fun error =>
         do* logMessage error in
         let* hasLocal := Fs.existsSync localRendererJs in
         if hasLocal then Fs.ret localRendererJs
         else
           let* hasCache := Fs.existsSync cacheRendererJs in
           if hasCache then Fs.ret cacheRendererJs
           else Fs.throw error).

(** The reload of the hidden window with the new code inlined. *)
Definition reloadWindow `{Runtime} (U : codeHost) (cacheRendererJs : string)
  : M (list action) :=
  if mainWindowOpen U then
    let* rendererJsContent :=
      Fs.readFileSync (codeFaults U) cacheRendererJs in
    let htmlPath := path_join (dirname U) "index.html" in
    let* htmlContent := Fs.readFileSync (codeFaults U) htmlPath in
    let tempHtmlPath := path_join (CODE_CACHE_DIR U) "index.html" in
    do* Fs.writeFileSync (codeFaults U) tempHtmlPath
          (inlineScript U htmlContent rendererJsContent) in
    Fs.ret [LoadFile tempHtmlPath]
  else Fs.ret [].

Definition checkAndUpdateRendererJs `{Runtime} (C : codeConfig)
    (U : codeHost) (G : github) : M (bool * list action) :=
  if negb (Js.truthy (GITLAB_REPO_URL C))
     || negb (Js.truthy (REMOTE_CODE_ENABLED C))
  then Fs.ret (false, [])
  else
    let cacheRendererJs := path_join (CODE_CACHE_DIR U) "renderer.js" in
    let versionFile := path_join (CODE_CACHE_DIR U) "app.version" in
    Fs.tryCatch
      (let* remoteVersion := getVersionFromGitHub G in
       match remoteVersion with
       | Some v =>
           if noVersion remoteVersion then Fs.ret (false, [])
           else
             let* localVersion := readLocalVersion U versionFile in
             if differs v localVersion then
               let* downloadSuccess :=
                 downloadFileFromGitHub G "renderer.js" cacheRendererJs in
               if downloadSuccess then
                 do* Fs.writeFileSync (codeFaults U) versionFile v in
                 let* actions := reloadWindow U cacheRendererJs in
                 Fs.ret (true, actions)
               else Fs.ret (false, [])
             else Fs.ret (false, [])
       | None => Fs.ret (false, [])
       end)
      (fun error => do* logMessage error in Fs.ret (false, [])).

(** [CACHE_DIR] of [checkAndUpdateMainJs] is computed by the expression
    that gave [CODE_CACHE_DIR]. *)
Definition checkAndUpdateMainJs `{Runtime} (C : codeConfig) (U : codeHost)
    (G : github) : M (bool * list action) :=
  if negb (Js.truthy (GITLAB_REPO_URL C))
     || negb (Js.truthy (REMOTE_CODE_ENABLED C))
  then Fs.ret (false, [])
  else
    let CACHE_DIR := CODE_CACHE_DIR U in
    let cacheMainJs := path_join CACHE_DIR "main.js" in
    let cacheRendererJs := path_join (CODE_CACHE_DIR U) "renderer.js" in
    let versionFile := path_join CACHE_DIR "app.version" in
    Fs.tryCatch
      (let* remoteVersion := getVersionFromGitHub G in
       match remoteVersion with
       | Some v =>
           if noVersion remoteVersion then Fs.ret (false, [])
           else
             let* localVersion := readLocalVersion U versionFile in
             if differs v localVersion then
               let* mainJsSuccess :=
                 downloadFileFromGitHub G "main.js" cacheMainJs in
               let* rendererJsSuccess :=
                 downloadFileFromGitHub G "renderer.js" cacheRendererJs in
               if mainJsSuccess && rendererJsSuccess then
                 do* Fs.writeFileSync (codeFaults U) versionFile v in
                 do* Fs.writeFileSync (codeFaults U)
                       (path_join (CODE_CACHE_DIR U) "app.version") v in
                 Fs.ret (true, [Relaunch])
               else Fs.ret (false, [])
             else Fs.ret (false, [])
       | None => Fs.ret (false, [])
       end)
      (fun error => do* logMessage error in Fs.ret (false, [])).

(** The body of the interval of [startVersionCheck]; the helpers may answer
    differently to the first and to the second check. *)
Definition versionCheck `{Runtime} (C : codeConfig) (U : codeHost)
    (G1 G2 : github) : M (list action) :=
  Fs.tryCatch
    (let* main := checkAndUpdateMainJs C U G1 in
     if main.1 then Fs.ret main.2
     else
       let* renderer := checkAndUpdateRendererJs C U G2 in
       Fs.ret (main.2 ++ renderer.2)%list)
    (fun error => do* logMessage error in Fs.ret []).

End Updater.

(** ** The vocabulary of the properties *)

Section Vocabulary.
Import JsString Config App.

(** The decimal numeral of a natural number, as a file or a tool prints it. *)
Definition decimal (n : N) : string :=
  NilEmpty.string_of_uint (N.to_uint n).

Definition isDecimalDigit (c : ascii) : bool :=
  match digitValue c with
  | Some d => d <? 10
  | None => false
  end.

(** The value of a numeral read after the digits that gave [acc]. *)
Fixpoint uintValue (d : Decimal.uint) (acc : Z) : Z :=
  match d with
  | Decimal.Nil => acc
  | Decimal.D0 l => uintValue l (acc * 10 + 0)
  | Decimal.D1 l => uintValue l (acc * 10 + 1)
  | Decimal.D2 l => uintValue l (acc * 10 + 2)
  | Decimal.D3 l => uintValue l (acc * 10 + 3)
  | Decimal.D4 l => uintValue l (acc * 10 + 4)
  | Decimal.D5 l => uintValue l (acc * 10 + 5)
  | Decimal.D6 l => uintValue l (acc * 10 + 6)
  | Decimal.D7 l => uintValue l (acc * 10 + 7)
  | Decimal.D8 l => uintValue l (acc * 10 + 8)
  | Decimal.D9 l => uintValue l (acc * 10 + 9)
  end.

Definition stopsDigits (rest : string) : bool :=
  match rest with
  | "" => true
  | String c _ => negb (isDecimalDigit c)
  end.

Definition noHexMark (rest : string) : bool :=
  match rest with
  | String "x" _ | String "X" _ => false
  | _ => true
  end.

Fixpoint strAll (P : ascii -> bool) (s : string) : bool :=
  match s with
  | "" => true
  | String c s' => P c && strAll P s'
  end.

(** The one line that sets the threshold to [v] in [config.txt]. *)
Definition thresholdLine (v : N) : string :=
  "MEMORY_CALL_THRESHOLD_KB=" +:+ decimal v.

(** A line of [config.txt] that leaves the threshold read so far alone: a
    comment, a blank line, another key. *)
Definition keepsThreshold (line : string) : Prop :=
  forall st, installThreshold (processLine st line) = installThreshold st.

(** A character other than the equals sign. *)
Definition notEquals (c : ascii) : bool := negb (Ascii.eqb c "=").

(** A line of [config.txt] that sets the threshold to [v]: trimmed, it is
    [key=value] with no [=] in [key]; [key], trimmed, is the name of the
    threshold; and [parseInt] reads [value], trimmed, as [v]. So blanks
    around the line, the key and the value, a sign, and text after the
    digits are all taken. *)
Definition setsThreshold (v : Z) (line : string) : Prop :=
  exists key value,
    trim line = key +:+ String "=" value /\
    strAll notEquals key = true /\
    trim key = "MEMORY_CALL_THRESHOLD_KB" /\
    parseInt (trim value) 10 = Some v.

(** The text of [config.txt] sets the threshold to [v]: one of its lines
    sets it to [v], and no later line sets the threshold again. *)
Definition holdsThreshold (v : Z) (text : string) : Prop :=
  exists before line after,
    splitLines text = (before ++ line :: after)%list /\
    setsThreshold v line /\
    Forall keepsThreshold after.

Definition notWs (c : ascii) : bool := negb (is_ws c).

Definition notNewline (c : ascii) : bool :=
  negb (Ascii.eqb c "010") && negb (Ascii.eqb c "013").

Definition callbackOf (r : registration) : callback :=
  match r with
  | SetTimeout _ cb | SetInterval _ cb | WatchFile _ cb | WatchDir _ cb => cb
  end.

(** Whether an event runs [loadConfigFiles] under the registrations. *)
Definition loads (ev : event) (regs : list registration) : bool :=
  existsb (fun r => match triggered ev r with
                    | Some LoadConfigFiles => true
                    | _ => false
                    end) regs.

(** No registration can reload the configuration any more. *)
Definition noLoader (regs : list registration) : Prop :=
  Forall (fun r => callbackOf r <> LoadConfigFiles) regs.

(** The one-shot load of [whenReady] is still pending, and nothing else
    can reload. *)
Definition armed (regs : list registration) : Prop :=
  exists rest, regs = SetTimeout 5000 LoadConfigFiles :: rest /\ noLoader rest.

(** The query of the process table failed: the tool reported an error, no
    row names the target process, or the memory column of the row that the
    sampler reads is not a number. *)
Inductive LookupFailure : exec_result -> Prop :=
| tool_error code stderr :
    LookupFailure (ExecError code stderr)
| no_matching_row stdout :
    Forall (fun l => Sampler.isZaloCallRow l = false)
      (JsString.split "010" stdout) ->
    LookupFailure (ExecOk stdout)
| memory_not_a_number stdout line :
    find Sampler.isZaloCallRow (JsString.split "010" stdout) = Some line ->
    JsString.parseInt
      (JsString.removeChars Sampler.isCommaOrK (Sampler.memUsageStr line)) 0
    = None ->
    LookupFailure (ExecOk stdout).

(** The same for the processor-time query: the tool reported an error, the
    output has fewer than three lines, or the value column is missing or is
    not a number. *)
Inductive CpuLookupFailure `{Runtime} : exec_result -> Prop :=
| cpu_tool_error code stderr :
    CpuLookupFailure (ExecError code stderr)
| cpu_too_short stdout :
    (length (JsString.split "010" (JsString.trim stdout)) < 3)%nat ->
    CpuLookupFailure (ExecOk stdout)
| cpu_not_a_number stdout :
    from_option parseFloat None
      (JsString.split ","
         (JsString.removeChars Sampler.isQuote
            (nth 1 (JsString.split "010" (JsString.trim stdout)) ""))
       !! 1%nat) = None ->
    CpuLookupFailure (ExecOk stdout).

(** The output of the process table tool with one row for the target
    process, holding [memKB] in its memory column. *)
Definition tasklistRow (memKB : string) : exec_result :=
  ExecOk ("ZaloCall.exe 1234 Console 1 " +:+ memKB +:+ " K").

Definition startsNonWs (s : string) : bool :=
  match s with
  | "" => false
  | String c _ => notWs c
  end.

Definition notLineFeed (c : ascii) : bool := negb (Ascii.eqb c "010").

Definition keptByMemoryFilter (c : ascii) : bool :=
  negb (Sampler.isCommaOrK c).

(** Whether at least one of the two sources gets connected at a start. *)
Definition sourcesConnected (E : Renderer.media) : bool :=
  (Renderer.connectMicrophone E).1 || (Renderer.connectSystemAudio E).1.

(** Whether a start gets as far as a running recorder. *)
Definition captureProceeds (E : Renderer.media) : bool :=
  Renderer.contextCreated E && sourcesConnected E
  && bool_decide (is_Some (find (Renderer.isTypeSupported E) Renderer.mimeTypes))
  && Renderer.recorderConstructed E && Renderer.recorderStarts E.

(** A path holds a file of non-zero size. *)
Definition nonEmptyAt (fs : filesystem) (p : string) : Prop :=
  exists n, fs !! p = Some n /\ Fs.size n <> 0.

End Vocabulary.

(** ** Sample inputs *)

(** The line ending of Windows. *)
Definition crlf : string := String "013" (String "010" "").

(** A [config.txt] written by hand: a comment, the threshold with blanks, a
    sign and a unit, and the name code. *)
Definition looseThresholdFile : string :=
  "# written by the installer" +:+ crlf
  +:+ "  MEMORY_CALL_THRESHOLD_KB = +5 KB  " +:+ crlf
  +:+ "NAME_CODE=A17".

(** A runtime for the examples: its [parseFloat] knows no number. *)
Definition exampleRuntime : Runtime :=
  {| parseFloat := fun _ => None;
     path_join := fun dir name => dir +:+ "/" +:+ name;
     path_basename := fun p => p;
     path_extname := fun p => JsString.skip (String.length p - 4) p;
     base64_decode := fun s => s;
     sizeKB_toFixed2 := fun _ => "0.00";
     toISOString := fun t =>
       match t with
       | VNum _ => Ret "1970-01-01T00:00:00.000Z"
       | _ => Throw (VObj [("message", VStr "Invalid time value")])
       end |}.

(** Devices that all connect, under a runtime that supports none of the
    candidate encodings. *)
Definition quietMedia : Renderer.media :=
  {| Renderer.now := 1700000000000;
     Renderer.contextCreated := true;
     Renderer.microphone := true;
     Renderer.sources :=
       Some [{| Renderer.id := "window:42:0"; Renderer.name := "Zalo" |};
             {| Renderer.id := "screen:0:0"; Renderer.name := "Entire screen" |}];
     Renderer.desktopAudioTracks := fun _ => Some 1%nat;
     Renderer.isTypeSupported := fun _ => false;
     Renderer.recorderConstructed := true;
     Renderer.recorderStarts := true |}.

(** The same devices under a runtime that records opus in webm. *)
Definition readyMedia : Renderer.media :=
  {| Renderer.now := Renderer.now quietMedia;
     Renderer.contextCreated := true;
     Renderer.microphone := false;
     Renderer.sources := Renderer.sources quietMedia;
     Renderer.desktopAudioTracks := fun _ => Some 1%nat;
     Renderer.isTypeSupported := fun m => bool_decide (m = "audio/webm");
     Renderer.recorderConstructed := true;
     Renderer.recorderStarts := true |}.

Definition promptStop : Renderer.stopping :=
  {| Renderer.stopThrows := false;
     Renderer.stopAcknowledged := true;
     Renderer.lateData := [0];
     Renderer.stoppedAt := 1700000060000;
     Renderer.filename := "zalo_call_2023_11_14_22_14_20.mp3";
     Renderer.dataUrl := fun _ => Ret (VStr "data:audio/webm;base64,GkXfow==");
     Renderer.saveFileAnswer := fun _ => Ret (VObj [("path", VStr "a.mp3")]);
     Renderer.uploadFileAnswer := fun _ => Ret (VBool true) |}.

Definition capturing : Renderer.state :=
  {| Renderer.recording := true;
     Renderer.audioChunks := [];
     Renderer.startTime := Some 1700000000000;
     Renderer.combinedRecorder :=
       Some {| Renderer.recorderState_ := Renderer.RecorderRecording;
               Renderer.mimeType := "audio/webm" |};
     Renderer.audioContext := Some Renderer.ContextRunning;
     Renderer.destination := true |}.

Definition noFaults : fsFaults :=
  {| statFails := fun _ => false; readFails := fun _ => false;
     writeFails := fun _ => false; unlinkFails := fun _ => false;
     mkdirFails := fun _ => false |}.

Definition workingHost : host :=
  {| faults := noFaults;
     ffmpeg := fun _ _ => (None, Some "ID3-mp3-bytes");
     dateFolder := "14_11_2023";
     OUTPUT_DIR := "C:/Users/me/Documents/recordings";
     FFMPEG_PATH := "C:/app/tools/ffmpeg.exe" |}.

Definition sampleConfig : appConfig :=
  {| API_URL := VStr "https://api.example.com";
     API_UPLOAD_URL := VStr "https://upload.example.com";
     UPLOAD_API := VStr "functions/v1/upload";
     SAVE_HISTORY_API := VStr "functions/v1/save-history";
     SALE_TOKEN := VStr "token" |}.

Definition sampleTimes : jsval :=
  VObj [("beginTime", VNum 1700000000000); ("endTime", VNum 1700000060000)].

(** A network whose control plane works and whose transfer of the bytes
    fails or not. *)
Definition sampleNetwork (transferWorks : bool) : network :=
  fun c =>
    if bool_decide (method c = "PUT") then
      if transferWorks then Ret (VStr "")
      else Throw (VObj [("code", VStr "ECONNABORTED");
                        ("message", VStr "timeout of 60000ms exceeded")])
    else if bool_decide (url c = "https://upload.example.com/functions/v1/upload")
    then Ret (VObj [("code", VNum 200);
                    ("data", VObj [("presignUrl", VStr "https://bucket.example.com/put?sig=1");
                                   ("url", VStr "https://cdn.example.com/call.mp3")])])
    else Ret (VObj [("success", VBool true)]).


Definition mp3Path : string :=
  "C:/Users/me/Documents/recordings/14_11_2023/call.mp3".

Definition diskWithMp3 : filesystem := {[ mp3Path := File "ID3-mp3-bytes" ]}.

Definition webmPath : string :=
  "C:/Users/me/Documents/recordings/14_11_2023/call.webm".

Definition diskWithWebm : filesystem :=
  {[ webmPath := File "webm-bytes";
     "C:/app/tools/ffmpeg.exe" := File "MZ" ]}.

Definition diskWithTool : filesystem :=
  {[ "C:/app/tools/ffmpeg.exe" := File "MZ" ]}.

Definition sampleDataUrl : jsval := VStr "data:audio/webm;base64,GkXfow==".

(** A host on which the temporary file cannot be deleted, as when another
    process still holds it open. *)
Definition lockedHost : host :=
  {| faults :=
       {| statFails := fun _ => false; readFails := fun _ => false;
          writeFails := fun _ => false; unlinkFails := fun _ => true;
          mkdirFails := fun _ => false |};
     ffmpeg := ffmpeg workingHost;
     dateFolder := dateFolder workingHost;
     OUTPUT_DIR := OUTPUT_DIR workingHost;
     FFMPEG_PATH := FFMPEG_PATH workingHost |}.

(** ** Further vocabulary and sample inputs *)

(** The recording flag after the capture surface has been sent the signals
    in turn, starting from the flag [b]; [None] when a start is sent while
    recording or a stop while not. *)
Fixpoint replay (b : bool) (signals : list Monitor.signal) : option bool :=
  match signals with
  | [] => Some b
  | Monitor.StartRecording :: rest => if b then None else replay true rest
  | Monitor.StopRecording :: rest => if b then replay false rest else None
  end.

(** A tick during a call: the target runs with 150000 KB in use. *)
Definition callWorld : Monitor.world :=
  {| Monitor.tasklist := ExecOk "Zalo.exe 4321 Console 1 250,000 K";
     Monitor.zaloCallQuery := tasklistRow "150000";
     Monitor.windowAlive := true;
     Monitor.loopDuration := 20;
     Monitor.threshold := 100000 |}.

(** The same tick with the hidden window gone. *)
Definition deafWorld : Monitor.world :=
  {| Monitor.tasklist := Monitor.tasklist callWorld;
     Monitor.zaloCallQuery := Monitor.zaloCallQuery callWorld;
     Monitor.windowAlive := false;
     Monitor.loopDuration := 20;
     Monitor.threshold := 100000 |}.

(** A state of the configuration globals with nothing installed. *)
Definition blankGlobals : Config.state :=
  {| Config.MEMORY_CALL_THRESHOLD_KB := 0;
     Config.installThreshold := None;
     Config.installNameCode := None |}.

(** The threshold and the name code that a line of [config.txt] installs,
    if any. *)
Definition lineThreshold (line : string) : option Z :=
  Config.installThreshold (Config.processLine blankGlobals line).

Definition lineNameCode (line : string) : option string :=
  Config.installNameCode (Config.processLine blankGlobals line).

(** The globals after the loop of [loadConfigFiles] over the lines of the
    file, before the threshold is put in force. *)
Definition afterLines (file : Config.config_file) (st : Config.state)
  : Config.state :=
  match file with
  | Config.Content text =>
      fold_left Config.processLine (JsString.splitLines text) st
  | Config.Missing | Config.Unreadable => st
  end.

(** The file gives no threshold: it is missing, cannot be read, or none of
    its lines sets one. *)
Definition givesNoThreshold (file : Config.config_file) : Prop :=
  match file with
  | Config.Missing | Config.Unreadable => True
  | Config.Content text =>
      Forall keepsThreshold (JsString.splitLines text)
  end.

(** The endpoint is a full URL, as a presigned destination is. *)
Definition isFullUrl (endpoint : jsval) : bool :=
  match endpoint with
  | VStr e => JsString.startsWith "http://" e || JsString.startsWith "https://" e
  | _ => false
  end.

(** The endpoint is a path below the API's base URL, or is missing. *)
Definition isRelativeEndpoint (endpoint : jsval) : bool :=
  negb (Js.truthy endpoint)
  || match endpoint with
     | VStr e => negb (isFullUrl endpoint)
     | _ => false
     end.

(** The base URL is missing, is empty, or was built from a missing part. *)
Definition apiUrlNotSet (apiUrl : jsval) : bool :=
  negb (Js.truthy apiUrl)
  || match apiUrl with
     | VStr a => JsString.includes "undefined" a
     | _ => false
     end.



(** A network that answers every request with the request's own URL. *)
Definition echoNetwork : network := fun c => Ret (VStr (url c)).


(** The payload is no data URL: it is no string, or does not start with
    [data:]. *)
Definition notDataUrl (dataUrl : jsval) : Prop :=
  match dataUrl with
  | VStr u => JsString.startsWith "data:" u = false
  | _ => True
  end.

(** What reaches the capture surface: the two signals of the controller and
    the data events of a recorder. *)
Inductive pipelineInput : Type :=
| PStart (E : Renderer.media)
| PData (size : Z)
| PStop (stop : Renderer.stopping).

Definition pipelineStep (st : Renderer.state) (i : pipelineInput)
  : Renderer.state * list Renderer.event :=
  match i with
  | PStart E => Renderer.startRecording E st
  | PData size => (Renderer.ondataavailable size st, [])
  | PStop stop => Renderer.stopRecording stop st
  end.

Fixpoint pipelineRun (inputs : list pipelineInput) (st : Renderer.state)
  : Renderer.state * list Renderer.event :=
  match inputs with
  | [] => (st, [])
  | i :: rest =>
      let '(st1, events1) := pipelineStep st i in
      let '(st2, events2) := pipelineRun rest st1 in
      (st2, (events1 ++ events2)%list)
  end.

(** The requests to the controller among the events, in order. *)
Definition requests (events : list Renderer.event) : list (string * jsval) :=
  omap (fun e => match e with
                 | Renderer.EInvoke channel payload => Some (channel, payload)
                 | _ => None
                 end) events.

(** Chunks that all hold data. *)
Definition allPositive (chunks : list Z) : Prop :=
  Forall (fun c => 0 < c) chunks.

(** A call of a helper leaves the file at [p] in place. *)
Definition keepsFile {A} (m : M A) (p : string) : Prop :=
  forall fs, is_Some (fs !! p) -> is_Some ((m fs).2 !! p).

(** A value whose [message] can be read: neither [undefined] nor [null]. *)
Definition isThrowable (e : jsval) : Prop := e <> VUndefined /\ e <> VNull.

Definition rejectsWithError {A} (m : M A) : Prop :=
  forall fs e, (m fs).1 = Throw e -> isThrowable e.

(** [m] leaves the file at [p] in place, answers within [Q] and throws
    within [E]. *)
Definition keeping {A} (p : string) (m : M A) (Q : A -> Prop)
    (E : jsval -> Prop) : Prop :=
  forall fs, is_Some (fs !! p) ->
    is_Some ((m fs).2 !! p) /\
    match (m fs).1 with
    | Ret a => Q a
    | Throw e => E e
    end.

Definition sampleCode : Updater.codeConfig :=
  {| Updater.REMOTE_CODE_ENABLED := VBool true;
     Updater.GITLAB_REPO_URL := VStr "https://github.com/owner/recorder" |}.

Definition sampleCodeHost : Updater.codeHost :=
  {| Updater.codeFaults := noFaults;
     Updater.dirname := "C:/app/src";
     Updater.CODE_CACHE_DIR := "C:/app/code-cache";
     Updater.mainWindowOpen := true;
     Updater.inlineScript := fun html code =>
       html +:+ "<script>" +:+ code +:+ "</script>" |}.

(** A remote that offers [version] and serves every file. *)
Definition mirror (version : string) : Updater.github :=
  {| Updater.getVersionFromGitHub := Fs.ret (Some version);
     Updater.downloadFileFromGitHub := fun _ outputPath fs =>
       (Ret true, <[outputPath := File "remote code"]> fs) |}.

(** A remote that cannot be reached. *)
Definition offline : Updater.github :=
  {| Updater.getVersionFromGitHub :=
       Fs.throw (Js.newError "getaddrinfo ENOTFOUND github.com");
     Updater.downloadFileFromGitHub := fun _ _ => Fs.ret false |}.

Definition diskWithLocalCode : filesystem :=
  {[ "C:/app/src/renderer.js" := File "local code";
     "C:/app/src/index.html" := File "<html></html>" ]}.

Definition diskUpToDate : filesystem :=
  {[ "C:/app/src/renderer.js" := File "local code";
     "C:/app/code-cache/renderer.js" := File "remote code";
     "C:/app/code-cache/app.version" := File ("1.2.0" +:+ String "010" "") ]}.

(* ===================================================================== *)
(** * Part II: properties *)
(* ===================================================================== *)

(** Case analysis on every scrutinee of the goal, innermost first. *)
Ltac split_cases :=
  repeat match goal with
         | |- context [match ?x with _ => _ end] =>
             lazymatch x with
             | context [match _ with _ => _ end] => fail
             | _ => destruct x eqn:?
             end
         | |- context [if ?x then _ else _] =>
             lazymatch x with
             | context [if _ then _ else _] => fail
             | _ => destruct x eqn:?
             end
         end.

(** ** The string primitives on known inputs *)

Example parseInt_known :
  JsString.parseInt "  -42abc" 0 = Some (-42) /\
  JsString.parseInt "0x1F" 0 = Some 31 /\
  JsString.parseInt "0x1F" 10 = Some 0 /\
  JsString.parseInt "150000 " 0 = Some 150000 /\
  JsString.parseInt "abc" 10 = None /\
  JsString.parseInt "" 0 = None /\
  JsString.parseInt "12" 1 = None.
Proof. vm_compute. repeat split. Qed.

Example split_known :
  JsString.split "," "a,b,,c" = ["a"; "b"; ""; "c"] /\
  JsString.split "," "" = [""] /\
  JsString.splitWs "a  b c " = ["a"; "b"; "c"; ""] /\
  JsString.splitWs "" = [""] /\
  JsString.splitLines ("a" +:+ String "013" (String "010" "b")) = ["a"; "b"] /\
  JsString.join " " ["150,000"; "K"] = "150,000 K".
Proof. vm_compute. repeat split. Qed.

Example trim_known :
  JsString.trim "  a b  " = "a b" /\
  JsString.trim "   " = "" /\
  JsString.toLowerCase "ZaloCall.EXE" = "zalocall.exe" /\
  JsString.replaceFirst ".mp3" ".webm" "call.mp3.mp3" = "call.webm.mp3" /\
  JsString.replaceFirst ".mp3" ".webm" "call.wav" = "call.wav".
Proof. vm_compute. repeat split. Qed.

Example loadConfigFiles_known :
  Config.loadConfigFiles None
    (Config.Content
       ("# installer settings" +:+ crlf +:+ "NAME_CODE=abc" +:+ crlf
        +:+ "MEMORY_CALL_THRESHOLD_KB = 120000" +:+ crlf))
    (Config.initial None)
  = {| Config.MEMORY_CALL_THRESHOLD_KB := 120000;
       Config.installThreshold := Some 120000;
       Config.installNameCode := Some "abc" |}.
Proof. vm_compute. reflexivity. Qed.

Example startRecording_known :
  Renderer.startRecording readyMedia Renderer.initial
  = ({| Renderer.recording := true;
        Renderer.audioChunks := [];
        Renderer.startTime := Some 1700000000000;
        Renderer.combinedRecorder :=
          Some {| Renderer.recorderState_ := Renderer.RecorderRecording;
                  Renderer.mimeType := "audio/webm" |};
        Renderer.audioContext := Some Renderer.ContextRunning;
        Renderer.destination := true |},
     [Renderer.ELog "Microphone error:";
      Renderer.EInvoke "get-sources" VUndefined;
      Renderer.ESystemAudioAcquired "screen:0:0";
      Renderer.ERecorderStarted "audio/webm"]).
Proof. vm_compute. reflexivity. Qed.

Example stopRecording_known :
  (Renderer.stopRecording promptStop
     (Renderer.ondataavailable 3000 (Renderer.ondataavailable 0
        (Renderer.ondataavailable 6000 capturing)))).2
  = [Renderer.ERecorderStopped;
     Renderer.EInvoke "save-file"
       (VObj [("filename", VStr "zalo_call_2023_11_14_22_14_20.mp3");
              ("dataUrl", VStr "data:audio/webm;base64,GkXfow==")]);
     Renderer.EInvoke "upload-file"
       (VObj [("timeParams",
               VObj [("beginTime", VNum 1700000000000);
                     ("endTime", VNum 1700000060000)]);
              ("filePath", VStr "a.mp3")])].
Proof. vm_compute. reflexivity. Qed.

(** ** Decimal numerals and [parseInt] *)

Module ParseFacts.
Import JsString.

Lemma parseDigits_stop rest acc :
  stopsDigits rest = true -> parseDigits 10 rest acc = acc.
Proof.
  destruct rest as [|c rest]; [reflexivity|].
  unfold stopsDigits, isDecimalDigit. simpl.
  destruct (digitValue c) as [d|]; [|reflexivity].
  destruct (d <? 10); [discriminate|reflexivity].
Qed.

Lemma parseDigits_digit c d s o :
  digitValue c = Some d ->
  (d <? 10) = true ->
  parseDigits 10 (String c s) o
  = parseDigits 10 s (Some (default 0 o * 10 + d)).
Proof. intros Hc Hd. cbn [parseDigits]. now rewrite Hc, Hd. Qed.

Lemma parseDigits_uint d : forall acc o rest,
  stopsDigits rest = true ->
  default 0 o = acc ->
  d <> Decimal.Nil ->
  parseDigits 10 (NilEmpty.string_of_uint d +:+ rest) o
  = Some (uintValue d acc).
Proof.
  induction d; intros acc o rest Hrest Hacc Hnil; try congruence;
    cbn [NilEmpty.string_of_uint uintValue];
    change (String ?c ?s +:+ rest) with (String c (s +:+ rest));
    (erewrite parseDigits_digit by (vm_compute; reflexivity));
    rewrite Hacc;
    (destruct d;
     [ cbn [NilEmpty.string_of_uint uintValue];
       change ("" +:+ rest) with rest;
       now rewrite parseDigits_stop
     | now apply IHd .. ]).
Qed.

Lemma uintValue_pos d : forall p,
  uintValue d (Z.pos p) = Z.pos (Pos.of_uint_acc d p).
Proof.
  induction d; intros p; cbn [uintValue Pos.of_uint_acc];
    try reflexivity; (etransitivity; [|apply IHd]); f_equal; lia.
Qed.

Lemma uintValue_zero d : uintValue d 0 = Z.of_N (Pos.of_uint d).
Proof.
  induction d; cbn [uintValue Pos.of_uint]; try reflexivity;
    try (exact IHd);
    (etransitivity; [|apply uintValue_pos]); reflexivity.
Qed.

Lemma to_uint_not_nil n : N.to_uint n <> Decimal.Nil.
Proof.
  destruct n; [discriminate|]. apply DecimalPos.Unsigned.to_uint_nonnil.
Qed.

Lemma parseDigits_decimal n rest :
  stopsDigits rest = true ->
  parseDigits 10 (decimal n +:+ rest) None = Some (Z.of_N n).
Proof.
  intros Hrest. unfold decimal.
  rewrite (parseDigits_uint _ 0 None rest Hrest eq_refl (to_uint_not_nil n)).
  rewrite uintValue_zero.
  change (Pos.of_uint (N.to_uint n)) with (N.of_uint (N.to_uint n)).
  now rewrite DecimalN.Unsigned.of_to.
Qed.

Lemma string_of_uint_head d :
  d <> Decimal.Nil ->
  exists c s, NilEmpty.string_of_uint d = String c s /\ isDecimalDigit c = true.
Proof.
  destruct d; [congruence| ..]; intros _; cbn [NilEmpty.string_of_uint];
    eexists _, _; (split; [reflexivity| vm_compute; reflexivity]).
Qed.

Lemma decimal_head n :
  exists c s, decimal n = String c s /\ isDecimalDigit c = true.
Proof. apply string_of_uint_head, to_uint_not_nil. Qed.

Lemma fmap_sign_one (o : option Z) : (λ v : Z, 1 * v) <$> o = o.
Proof. destruct o as [v|]; [|reflexivity]. cbn. f_equal. now destruct v. Qed.

(** On a string that starts with a decimal digit, [parseInt] in radix 10
    reads the digits. *)
Lemma parseInt_10_digits c s :
  isDecimalDigit c = true ->
  parseInt (String c s) 10 = parseDigits 10 (String c s) None.
Proof.
  intros Hc. unfold parseInt.
  destruct c as [[] [] [] [] [] [] [] []]; try discriminate Hc;
    cbn [trimStart is_ws];
    change (10 =? 0) with false; change (10 =? 16) with false;
    change (10 <? 2) with false; change (36 <? 10) with false;
    cbn [negb andb orb]; apply fmap_sign_one.
Qed.

Lemma noHexMark_prefix s :
  noHexMark s = true ->
  String.prefix "x" s = false /\ String.prefix "X" s = false.
Proof.
  destruct s as [|c s]; [now split|].
  destruct c as [[] [] [] [] [] [] [] []]; intros H;
    first [discriminate H | split; reflexivity].
Qed.

(** Without a radix, the same holds unless the string starts with the
    hexadecimal mark. *)
Lemma parseInt_0_digits c s :
  isDecimalDigit c = true ->
  noHexMark s = true ->
  parseInt (String c s) 0 = parseDigits 10 (String c s) None.
Proof.
  intros Hc Hs. unfold parseInt.
  destruct (noHexMark_prefix s Hs) as [Hx HX].
  destruct c as [[] [] [] [] [] [] [] []]; try discriminate Hc;
    cbn [trimStart is_ws];
    change (0 =? 0) with true;
    cbn [negb andb orb startsWith String.prefix];
    try rewrite Hx, HX;
    destruct (ascii_dec _ _); cbn [orb]; apply fmap_sign_one.
Qed.

Lemma isDecimalDigit_not_ws c : isDecimalDigit c = true -> is_ws c = false.
Proof.
  destruct c as [[] [] [] [] [] [] [] []]; intros H;
    first [discriminate H | reflexivity].
Qed.

Lemma parseInt_decimal n rest (radix : Z) :
  stopsDigits rest = true ->
  radix = 10 \/ (radix = 0 /\ noHexMark rest = true) ->
  parseInt (decimal n +:+ rest) radix = Some (Z.of_N n).
Proof.
  intros Hrest Hradix.
  rewrite <- (parseDigits_decimal n rest Hrest).
  unfold decimal.
  destruct (N.to_uint n) as [|d|d|d|d|d|d|d|d|d|d] eqn:E;
    [exfalso; now apply (to_uint_not_nil n)| ..];
    cbn [NilEmpty.string_of_uint];
    change (String ?c ?s +:+ rest) with (String c (s +:+ rest));
    (destruct Hradix as [->|[-> Hhex]];
     [ now apply parseInt_10_digits
     | apply parseInt_0_digits; [reflexivity|] ]);
    (destruct d; [exact Hhex|reflexivity ..]).
Qed.

Lemma append_empty_r s : s +:+ "" = s.
Proof.
  induction s as [|c s IH]; [reflexivity|].
  change (String c s +:+ "") with (String c (s +:+ "")). now rewrite IH.
Qed.

Lemma parseInt_decimal_10 n : parseInt (decimal n) 10 = Some (Z.of_N n).
Proof.
  rewrite <- (append_empty_r (decimal n)).
  apply parseInt_decimal; [reflexivity|now left].
Qed.

End ParseFacts.

(** ** Strings without white space *)

Module StringFacts.
Import JsString ParseFacts.

Lemma strAll_app P s t : strAll P (s +:+ t) = strAll P s && strAll P t.
Proof.
  induction s as [|c s IH]; [reflexivity|].
  change (String c s +:+ t) with (String c (s +:+ t)).
  cbn [strAll]. now rewrite IH, andb_assoc.
Qed.

Lemma strAll_impl (P Q : ascii -> bool) s :
  (forall c, P c = true -> Q c = true) ->
  strAll P s = true -> strAll Q s = true.
Proof.
  intros HPQ. induction s as [|c s IH]; [reflexivity|].
  cbn [strAll]. intros [Hc Hs]%andb_true_iff.
  now rewrite (HPQ c Hc), IH.
Qed.

Lemma strAll_uint d : strAll isDecimalDigit (NilEmpty.string_of_uint d) = true.
Proof. induction d; cbn [NilEmpty.string_of_uint strAll]; auto. Qed.

Lemma strAll_decimal n : strAll isDecimalDigit (decimal n) = true.
Proof. apply strAll_uint. Qed.

Lemma digit_notWs c : isDecimalDigit c = true -> notWs c = true.
Proof.
  intros H. unfold notWs. now rewrite isDecimalDigit_not_ws.
Qed.

Lemma trimStart_notWs s : strAll notWs s = true -> trimStart s = s.
Proof.
  destruct s as [|c s]; [reflexivity|]. cbn [strAll trimStart].
  unfold notWs. intros [Hc _]%andb_true_iff.
  now destruct (is_ws c).
Qed.

Lemma trimEnd_notWs s : strAll notWs s = true -> trimEnd s = s.
Proof.
  induction s as [|c s IH]; [reflexivity|].
  cbn [strAll trimEnd]. unfold notWs at 1.
  intros [Hc Hs]%andb_true_iff. rewrite (IH Hs).
  destruct s; [|reflexivity]. now destruct (is_ws c).
Qed.

Lemma trim_notWs s : strAll notWs s = true -> trim s = s.
Proof.
  intros H. unfold trim. now rewrite trimStart_notWs, trimEnd_notWs.
Qed.

Lemma trim_decimal n : trim (decimal n) = decimal n.
Proof.
  apply trim_notWs, (strAll_impl isDecimalDigit); [apply digit_notWs|].
  apply strAll_decimal.
Qed.

Lemma thresholdLine_notWs v : strAll notWs (thresholdLine v) = true.
Proof.
  unfold thresholdLine. rewrite strAll_app. apply andb_true_iff. split.
  - reflexivity.
  - apply (strAll_impl isDecimalDigit); [apply digit_notWs|].
    apply strAll_decimal.
Qed.

Lemma notWs_notNewline c : notWs c = true -> notNewline c = true.
Proof.
  destruct c as [[] [] [] [] [] [] [] []]; intros H;
    first [discriminate H | reflexivity].
Qed.

Lemma splitLines_one s : strAll notNewline s = true -> splitLines s = [s].
Proof.
  induction s as [|c s IH]; [reflexivity|].
  cbn [strAll splitLines]. unfold notNewline at 1.
  intros [[Hn Hr]%andb_true_iff Hs]%andb_true_iff.
  apply negb_true_iff in Hn, Hr. rewrite Hn, Hr, (IH Hs). reflexivity.
Qed.

End StringFacts.

(** ** The threshold file *)

Module ConfigFacts.
Import JsString ParseFacts StringFacts Config.

Lemma processLine_threshold st v :
  processLine st (thresholdLine v)
  = {| MEMORY_CALL_THRESHOLD_KB := MEMORY_CALL_THRESHOLD_KB st;
       installThreshold := Some (Z.of_N v);
       installNameCode := installNameCode st |}.
Proof.
  unfold processLine.
  rewrite (trim_notWs _ (thresholdLine_notWs v)).
  change (bool_decide (thresholdLine v = "")) with false.
  change (startsWith "#" (thresholdLine v)) with false.
  change (indexOf "=" (thresholdLine v)) with (Some 24%nat).
  cbv beta iota zeta.
  change (take 24 (thresholdLine v)) with "MEMORY_CALL_THRESHOLD_KB".
  change (skip 25 (thresholdLine v)) with (decimal v).
  rewrite trim_decimal.
  change (trim "MEMORY_CALL_THRESHOLD_KB") with "MEMORY_CALL_THRESHOLD_KB".
  change (bool_decide ("MEMORY_CALL_THRESHOLD_KB" = "MEMORY_CALL_THRESHOLD_KB"))
    with true.
  change (bool_decide ("MEMORY_CALL_THRESHOLD_KB" = "NAME_CODE")) with false.
  cbv beta iota.
  now rewrite parseInt_decimal_10.
Qed.

Lemma thresholdLine_one_line v :
  splitLines (thresholdLine v) = [thresholdLine v].
Proof.
  apply splitLines_one, (strAll_impl notWs); [apply notWs_notNewline|].
  apply thresholdLine_notWs.
Qed.

Lemma fold_keepsThreshold ls : forall st,
  Forall keepsThreshold ls ->
  installThreshold (fold_left processLine ls st) = installThreshold st.
Proof.
  induction ls as [|l ls IH]; intros st Hls; [reflexivity|].
  inversion Hls as [|? ? Hl Hls']; subst. cbn [fold_left].
  now rewrite IH, Hl.
Qed.

Lemma indexOf_equals key value :
  strAll notEquals key = true ->
  indexOf "=" (key +:+ String "=" value) = Some (String.length key).
Proof.
  induction key as [|c key IH]; [reflexivity|].
  cbn [strAll]. unfold notEquals at 1.
  intros [Hc Hkey]%andb_true_iff. apply negb_true_iff in Hc.
  change (String c key +:+ ?u) with (String c (key +:+ u)).
  cbn [indexOf String.length]. now rewrite Hc, (IH Hkey).
Qed.

Lemma take_prefix key rest : take (String.length key) (key +:+ rest) = key.
Proof.
  induction key as [|c key IH]; [now destruct rest|].
  change (String c key +:+ ?u) with (String c (key +:+ u)).
  cbn [take String.length]. now rewrite IH.
Qed.

Lemma skip_prefix key c value :
  skip (S (String.length key)) (key +:+ String c value) = value.
Proof.
  induction key as [|d key IH]; [reflexivity|].
  change (String d key +:+ ?u) with (String d (key +:+ u)).
  cbn [String.length]. exact IH.
Qed.

Lemma trimEnd_head c s :
  is_ws c = false -> exists t, trimEnd (String c s) = String c t.
Proof.
  intros Hc. cbn [trimEnd]. rewrite Hc. destruct (trimEnd s); eauto.
Qed.

(** A key that trims to the name of the threshold does not start a
    comment. *)
Lemma key_not_comment key rest :
  trim key = "MEMORY_CALL_THRESHOLD_KB" ->
  startsWith "#" (key +:+ rest) = false.
Proof.
  destruct key as [|c key]; [discriminate|].
  intros Hkey. change (String c key +:+ rest) with (String c (key +:+ rest)).
  unfold startsWith. cbn [String.prefix].
  destruct (ascii_dec "#" c) as [<-|Hne]; [|reflexivity].
  unfold trim in Hkey. cbn [trimStart is_ws] in Hkey.
  destruct (trimEnd_head "#" key eq_refl) as [t Ht].
  rewrite Ht in Hkey. discriminate.
Qed.

(** A line that sets the threshold to [v] leaves [v] as the threshold read,
    and the other globals as they were. *)
Lemma processLine_sets st v line :
  setsThreshold v line ->
  processLine st line
  = {| MEMORY_CALL_THRESHOLD_KB := MEMORY_CALL_THRESHOLD_KB st;
       installThreshold := Some v;
       installNameCode := installNameCode st |}.
Proof.
  intros (key & value & Hline & Hkey & Hname & Hvalue).
  unfold processLine. rewrite Hline.
  rewrite bool_decide_eq_false_2 by (now destruct key).
  rewrite (key_not_comment key _ Hname).
  rewrite (indexOf_equals key value Hkey).
  cbv beta iota zeta. cbn [orb].
  rewrite take_prefix, skip_prefix, Hname, Hvalue.
  reflexivity.
Qed.

(** The line that the installer writes sets the threshold. *)
Lemma setsThreshold_line v : setsThreshold (Z.of_N v) (thresholdLine v).
Proof.
  exists "MEMORY_CALL_THRESHOLD_KB", (decimal v). repeat split.
  - apply (trim_notWs _ (thresholdLine_notWs v)).
  - rewrite trim_decimal. apply parseInt_decimal_10.
Qed.

(** Reading a file that sets the threshold to [v] makes [v] the threshold,
    whatever the globals were. *)
Lemma loadConfigFiles_threshold cfg st v text :
  holdsThreshold v text ->
  MEMORY_CALL_THRESHOLD_KB (loadConfigFiles cfg (Content text) st) = v.
Proof.
  intros (before & line & after & Hlines & Hline & Hafter).
  unfold loadConfigFiles. rewrite Hlines, fold_left_app. cbn [fold_left].
  rewrite fold_keepsThreshold, (processLine_sets _ v line Hline)
    by assumption.
  reflexivity.
Qed.

Lemma splitLines_line_then a b :
  strAll notNewline a = true ->
  splitLines (a +:+ String "010" b) = a :: splitLines b.
Proof.
  induction a as [|c a IH]; [reflexivity|].
  change (String c a +:+ ?u) with (String c (a +:+ u)).
  cbn [strAll splitLines]. unfold notNewline at 1.
  intros [[Hn Hr]%andb_true_iff Ha]%andb_true_iff.
  apply negb_true_iff in Hn, Hr. now rewrite Hn, Hr, (IH Ha).
Qed.

Lemma splitLines_then a b :
  exists l ls,
    splitLines (a +:+ String "010" b) = ((l :: ls) ++ splitLines b)%list.
Proof.
  induction a as [|c a (l & ls & IH)].
  - now exists "", [].
  - change (String c a +:+ ?u) with (String c (a +:+ u)).
    cbn [splitLines]. rewrite IH.
    destruct (Ascii.eqb c "010"); [now exists "", (l :: ls)|].
    destruct (_ && _); [now exists l, ls|now exists (String c l), ls].
Qed.

Lemma keepsThreshold_blank : keepsThreshold "".
Proof. intros st. reflexivity. Qed.

(** The file that is the line alone, the file that ends with the line, and
    the latter with a final line break, all set the threshold. *)
Lemma holdsThreshold_line v : holdsThreshold (Z.of_N v) (thresholdLine v).
Proof.
  exists [], (thresholdLine v), [].
  split; [apply thresholdLine_one_line|].
  split; [apply setsThreshold_line|constructor].
Qed.

Lemma holdsThreshold_last_line v prelude :
  holdsThreshold (Z.of_N v) (prelude +:+ String "010" (thresholdLine v)).
Proof.
  destruct (splitLines_then prelude (thresholdLine v)) as (l & ls & Hsplit).
  exists (l :: ls), (thresholdLine v), [].
  split; [now rewrite Hsplit, thresholdLine_one_line|].
  split; [apply setsThreshold_line|constructor].
Qed.

Lemma holdsThreshold_last_line_break v prelude :
  holdsThreshold (Z.of_N v)
    (prelude +:+ String "010" (thresholdLine v +:+ String "010" "")).
Proof.
  destruct (splitLines_then prelude (thresholdLine v +:+ String "010" ""))
    as (l & ls & Hsplit).
  exists (l :: ls), (thresholdLine v), [""]. split; [|split].
  - rewrite Hsplit, splitLines_line_then; [reflexivity|].
    apply (strAll_impl notWs); [apply notWs_notNewline|].
    apply thresholdLine_notWs.
  - apply setsThreshold_line.
  - constructor; [apply keepsThreshold_blank|constructor].
Qed.

(** Without a threshold in the file, now or earlier, the load falls back
    to the static configuration. *)
Lemma loadConfigFiles_fallback cfg file st :
  installThreshold (loadConfigFiles cfg file st) = None ->
  MEMORY_CALL_THRESHOLD_KB (loadConfigFiles cfg file st)
  = fallbackThreshold cfg.
Proof.
  unfold loadConfigFiles.
  set (st1 := match file with Content c => _ | _ => st end).
  destruct (installThreshold st1) eqn:E; [cbn; congruence|].
  destruct (MEMORY_CALL_THRESHOLD_KB st1 =? fallbackThreshold cfg) eqn:Q;
    cbn [negb MEMORY_CALL_THRESHOLD_KB]; intros _; [|reflexivity].
  now apply Z.eqb_eq.
Qed.

End ConfigFacts.

(** ** The event loop and the threshold *)

Module AppFacts.
Import Config App ConfigFacts.

Lemma fire_other cfg w cb : cb <> LoadConfigFiles -> fire cfg w cb = w.
Proof. destruct cb; [congruence|reflexivity ..]. Qed.

Lemma fold_fire_keeps cfg cbs : forall w,
  Forall (fun cb => cb <> LoadConfigFiles) cbs ->
  fold_left (fire cfg) cbs w = w.
Proof.
  induction cbs as [|cb cbs IH]; intros w Hall; [reflexivity|].
  inversion Hall; subst. cbn [fold_left]. rewrite fire_other by assumption.
  now apply IH.
Qed.

Lemma triggered_not_loader ev regs :
  loads ev regs = false ->
  Forall (fun cb => cb <> LoadConfigFiles) (omap (triggered ev) regs).
Proof.
  unfold loads. induction regs as [|r regs IH]; [constructor|].
  cbn [existsb]. intros [Hr Hregs]%orb_false_iff. specialize (IH Hregs).
  cbn. destruct (triggered ev r) as [cb|]; [|exact IH].
  constructor; [|exact IH]. destruct cb; congruence.
Qed.

(** An event that does not run [loadConfigFiles] leaves the globals as
    they are. *)
Lemma step_globals cfg w ev :
  loads ev (registered w) = false ->
  globals (step cfg w ev) = globals w.
Proof.
  intros H. destruct ev; [reflexivity| ..]; cbn [step globals];
    now rewrite (fold_fire_keeps cfg _ w (triggered_not_loader _ _ H)).
Qed.

Lemma step_registered cfg w ev r :
  r ∈ registered (step cfg w ev) -> r ∈ registered w.
Proof.
  assert (Hfold : forall cbs w0,
    registered (fold_left (fire cfg) cbs w0) = registered w0).
  { induction cbs as [|cb cbs IH]; intros w0; [reflexivity|].
    cbn [fold_left]. rewrite IH. now destruct cb. }
  destruct ev; [trivial| ..]; cbn [step registered];
    rewrite Hfold; now intros [_ ?]%list_elem_of_filter.
Qed.

Lemma noLoader_loads ev regs : noLoader regs -> loads ev regs = false.
Proof.
  unfold noLoader, loads. induction 1 as [|r regs Hr _ IH]; [reflexivity|].
  cbn [existsb]. rewrite IH, orb_false_r.
  destruct ev, r; cbn in *; try reflexivity;
    repeat match goal with |- context [if ?b then _ else _] => destruct b end;
    try reflexivity; destruct cb; congruence.
Qed.

Lemma noLoader_step cfg w ev :
  noLoader (registered w) -> noLoader (registered (step cfg w ev)).
Proof.
  unfold noLoader. rewrite !Forall_forall. intros Hw r Hr.
  now apply Hw, (step_registered cfg w ev).
Qed.

(** Once no registration can reload, no sequence of events changes the
    globals. *)
Lemma run_globals_frozen cfg evs : forall w,
  noLoader (registered w) ->
  globals (run cfg w evs) = globals w.
Proof.
  unfold run. induction evs as [|ev evs IH]; intros w Hw; [reflexivity|].
  cbn [fold_left]. rewrite IH by now apply noLoader_step.
  apply step_globals. now apply noLoader_loads.
Qed.

Lemma whenReady_armed : armed whenReady.
Proof.
  eexists. split; [reflexivity|]. repeat constructor; discriminate.
Qed.

Lemma fold_fire_registered cfg cbs : forall w,
  registered (fold_left (fire cfg) cbs w) = registered w.
Proof.
  induction cbs as [|cb cbs IH]; intros w; [reflexivity|].
  cbn [fold_left]. rewrite IH. now destruct cb.
Qed.

Lemma fold_fire_configFile cfg cbs : forall w,
  configFile (fold_left (fire cfg) cbs w) = configFile w.
Proof.
  induction cbs as [|cb cbs IH]; intros w; [reflexivity|].
  cbn [fold_left]. rewrite IH. now destruct cb.
Qed.

Lemma noLoader_filter (P : registration -> Prop) `{forall r, Decision (P r)}
    regs :
  noLoader regs -> noLoader (filter P regs).
Proof.
  unfold noLoader. rewrite !Forall_forall.
  intros Hregs r [_ Hr]%list_elem_of_filter. now apply Hregs.
Qed.

(** Before the five seconds have passed, an event changes neither the
    globals nor the pending load. *)
Lemma step_armed cfg w ev :
  ev <> TimeoutElapsed 5000 ->
  armed (registered w) ->
  globals (step cfg w ev) = globals w /\ armed (registered (step cfg w ev)).
Proof.
  intros Hev (rest & Hregs & Hrest). split.
  - apply step_globals. rewrite Hregs. unfold loads. cbn [existsb].
    fold (loads ev rest). rewrite (noLoader_loads ev rest Hrest), orb_false_r.
    destruct ev as [| |t|]; try reflexivity. cbn [triggered].
    destruct (t =? 5000) eqn:E; [|reflexivity].
    apply Z.eqb_eq in E. congruence.
  - destruct ev as [text| |t|]; cbn [step registered];
      [now exists rest| ..]; rewrite fold_fire_registered, Hregs;
      rewrite filter_cons; cbn [survives].
    + rewrite decide_True by reflexivity.
      eexists; split; [reflexivity|now apply noLoader_filter].
    + destruct (t =? 5000) eqn:E; [apply Z.eqb_eq in E; congruence|].
      rewrite decide_True by reflexivity.
      eexists; split; [reflexivity|now apply noLoader_filter].
    + rewrite decide_True by reflexivity.
      eexists; split; [reflexivity|now apply noLoader_filter].
Qed.

Lemma run_armed cfg evs : forall w,
  Forall (fun ev => ev <> TimeoutElapsed 5000) evs ->
  armed (registered w) ->
  globals (run cfg w evs) = globals w /\ armed (registered (run cfg w evs)).
Proof.
  unfold run. induction evs as [|ev evs IH]; intros w Hevs Hw; [now split|].
  inversion Hevs as [|? ? Hev Hevs']; subst. cbn [fold_left].
  destruct (step_armed cfg w ev Hev Hw) as [Hg Ha].
  destruct (IH _ Hevs' Ha) as [Hg' Ha']. split; [congruence|assumption].
Qed.

(** When the five seconds have passed the file is read once, and the load
    is not pending any more. *)
Lemma step_fires_load cfg w :
  armed (registered w) ->
  let w1 := step cfg w (TimeoutElapsed 5000) in
  globals w1 = loadConfigFiles cfg (configFile w) (globals w) /\
  configFile w1 = configFile w /\
  noLoader (registered w1).
Proof.
  intros (rest & Hregs & Hrest). cbn zeta. cbn [step globals configFile registered].
  rewrite fold_fire_registered, fold_fire_configFile, Hregs. cbn.
  rewrite fold_fire_keeps
    by (apply triggered_not_loader; now apply noLoader_loads).
  repeat split.
  rewrite decide_False by discriminate. now apply noLoader_filter.
Qed.

End AppFacts.

(** ** The sampler on a row of the process table *)

Module SamplerFacts.
Import JsString ParseFacts StringFacts Sampler.

Lemma split_one s : strAll notLineFeed s = true -> split "010" s = [s].
Proof.
  induction s as [|c s IH]; [reflexivity|].
  cbn [strAll split]. unfold notLineFeed at 1.
  intros [Hc Hs]%andb_true_iff. apply negb_true_iff in Hc.
  now rewrite Hc, (IH Hs).
Qed.

Lemma trimEnd_app_keep s t :
  trimEnd t <> "" -> trimEnd (s +:+ t) = s +:+ trimEnd t.
Proof.
  intros Ht. induction s as [|c s IH]; [reflexivity|].
  change (String c s +:+ ?u) with (String c (s +:+ u)).
  cbn [trimEnd]. rewrite IH.
  destruct (s +:+ trimEnd t) eqn:E; [|reflexivity].
  destruct s; [|discriminate E]. now elim Ht.
Qed.

Lemma splitWs_word w X :
  strAll notWs w = true -> w <> "" -> startsNonWs X = true ->
  splitWs (w +:+ String " " X) = w :: splitWs X.
Proof.
  intros Hw Hne HX. induction w as [|c w IH]; [congruence|].
  cbn [strAll] in Hw. apply andb_true_iff in Hw as [Hc Hw].
  unfold notWs in Hc. apply negb_true_iff in Hc.
  change (String c w +:+ ?u) with (String c (w +:+ u)).
  cbn [splitWs]. rewrite Hc.
  destruct w as [|c' w].
  - change ("" +:+ ?u) with u.
    destruct X as [|x X]; [discriminate HX|].
    cbn [startsNonWs] in HX. unfold notWs in HX. apply negb_true_iff in HX.
    cbn [splitWs is_ws]. now rewrite HX.
  - now rewrite (IH Hw).
Qed.

Lemma splitWs_last w :
  strAll notWs w = true -> splitWs (w +:+ " K") = [w; "K"].
Proof.
  induction w as [|c w IH]; [reflexivity|].
  cbn [strAll]. intros [Hc Hw]%andb_true_iff.
  unfold notWs in Hc. apply negb_true_iff in Hc.
  change (String c w +:+ ?u) with (String c (w +:+ u)).
  cbn [splitWs]. now rewrite Hc, (IH Hw).
Qed.

Lemma removeChars_app P s t :
  removeChars P (s +:+ t) = removeChars P s +:+ removeChars P t.
Proof.
  induction s as [|c s IH]; [reflexivity|].
  change (String c s +:+ ?u) with (String c (s +:+ u)).
  cbn [removeChars]. rewrite IH. now destruct (P c).
Qed.

Lemma removeChars_kept P s :
  strAll (fun c => negb (P c)) s = true -> removeChars P s = s.
Proof.
  induction s as [|c s IH]; [reflexivity|].
  cbn [strAll removeChars]. intros [Hc Hs]%andb_true_iff.
  apply negb_true_iff in Hc. now rewrite Hc, (IH Hs).
Qed.

Lemma digit_kept c : isDecimalDigit c = true -> keptByMemoryFilter c = true.
Proof.
  destruct c as [[] [] [] [] [] [] [] []]; intros H;
    first [discriminate H | reflexivity].
Qed.

Lemma digit_notLineFeed c : isDecimalDigit c = true -> notLineFeed c = true.
Proof.
  destruct c as [[] [] [] [] [] [] [] []]; intros H;
    first [discriminate H | reflexivity].
Qed.

Lemma decimal_startsNonWs n rest : startsNonWs (decimal n +:+ rest) = true.
Proof.
  destruct (decimal_head n) as (c & ds & -> & Hc).
  change (String c ds +:+ rest) with (String c (ds +:+ rest)).
  cbn [startsNonWs]. now apply digit_notWs.
Qed.

Lemma decimal_notWs n : strAll notWs (decimal n) = true.
Proof.
  apply (strAll_impl isDecimalDigit); [apply digit_notWs|apply strAll_decimal].
Qed.

(** The memory column of a row, as the sampler cuts it out. *)
Lemma memUsageStr_row n :
  memUsageStr ("ZaloCall.exe 1234 Console 1 " +:+ decimal n +:+ " K")
  = decimal n +:+ " K".
Proof.
  unfold memUsageStr, trim.
  change (trimStart ("ZaloCall.exe 1234 Console 1 " +:+ decimal n +:+ " K"))
    with ("ZaloCall.exe 1234 Console 1 " +:+ (decimal n +:+ " K")).
  assert (Hend : trimEnd (decimal n +:+ " K") = decimal n +:+ " K").
  { now rewrite trimEnd_app_keep by discriminate. }
  rewrite trimEnd_app_keep; rewrite Hend;
    [|destruct (decimal_head n) as (c & ds & -> & _); discriminate].
  change ("ZaloCall.exe 1234 Console 1 " +:+ (decimal n +:+ " K"))
    with ("ZaloCall.exe" +:+ String " " ("1234" +:+ String " "
            ("Console" +:+ String " " ("1" +:+ String " "
               (decimal n +:+ " K"))))).
  rewrite !splitWs_word
    by first [reflexivity | discriminate | apply decimal_startsNonWs].
  rewrite (splitWs_last _ (decimal_notWs n)).
  reflexivity.
Qed.

(** The sampler reads the memory column of the row of the target process,
    whatever number it holds. *)
Lemma checkZaloMemory_row_decimal n :
  checkZaloMemory (tasklistRow (decimal n)) = Z.of_N n.
Proof.
  unfold checkZaloMemory, tasklistRow.
  rewrite split_one.
  - cbn [length Nat.eqb find].
    change (isZaloCallRow ("ZaloCall.exe 1234 Console 1 " +:+ decimal n +:+ " K"))
      with true.
    cbv iota. rewrite memUsageStr_row, removeChars_app.
    rewrite (removeChars_kept isCommaOrK (decimal n))
      by (apply (strAll_impl isDecimalDigit);
          [apply digit_kept|apply strAll_decimal]).
    change (removeChars isCommaOrK " K") with " ".
    rewrite (parseInt_decimal n " " 0 eq_refl); [reflexivity|].
    right. now split.
  - rewrite !strAll_app. apply andb_true_iff. split; [reflexivity|].
    apply andb_true_iff. split; [|reflexivity].
    apply (strAll_impl isDecimalDigit);
      [apply digit_notLineFeed|apply strAll_decimal].
Qed.

End SamplerFacts.

Example checkZaloMemory_row :
  Sampler.checkZaloMemory (ExecOk
    ("Image Name                     PID Session Name        Session#    Mem Usage" +:+ String "010"
     ("========================= ======== ================ =========== ============" +:+ String "010"
     ("ZaloCall.exe                  1234 Console                    1    150,000 K" +:+ String "010" ""))))
  = 150000.
Proof. vm_compute. reflexivity. Qed.

(** ** Failed lookups of the sampler *)

Lemma find_none_of_Forall {A} (f : A -> bool) (l : list A) :
  Forall (fun x => f x = false) l -> find f l = None.
Proof.
  induction 1 as [|x l Hx _ IH]; [reflexivity|]. cbn [find]. now rewrite Hx.
Qed.

(** C6. When the lookup in the process table fails (the query tool errors,
    no row matches the target process, or the memory value does not parse),
    the sampler returns the zero sample, memoryKB = 0 and cpuPercent = 0,
    as an ordinary result. *)
Theorem sampler_zero_on_lookup_failure `{Runtime} (r q : exec_result) :
  LookupFailure r ->
  CpuLookupFailure q ->
  Sampler.checkZaloMemory r = 0 /\ Sampler.checkZaloCPU q = 0%Q.
Proof.
  intros Hr Hq. split.
  - destruct Hr as [code stderr|stdout Hrows|stdout line Hfind Hparse];
      cbn [Sampler.checkZaloMemory]; [reflexivity| |].
    + rewrite (find_none_of_Forall _ _ Hrows). now destruct (_ =? _)%nat.
    + rewrite Hfind, Hparse. now destruct (_ =? _)%nat.
  - destruct Hq as [code stderr|stdout Hshort|stdout Hnan];
      cbn [Sampler.checkZaloCPU]; [reflexivity| |].
    + apply Nat.leb_gt in Hshort. now rewrite Hshort.
    + destruct (3 <=? _)%nat; [|reflexivity].
      destruct (_ !! 1%nat) as [p|]; [|reflexivity].
      cbn [from_option] in Hnan. now rewrite Hnan.
Qed.

Lemma sampler_zero_on_lookup_failure_witness :
  Sampler.checkZaloMemory
    (ExecOk "INFO: No tasks are running which match the specified criteria.")
  = 0 /\
  @Sampler.checkZaloCPU exampleRuntime (ExecError 1 "") = 0%Q.
Proof.
  apply (@sampler_zero_on_lookup_failure exampleRuntime).
  - apply no_matching_row. repeat constructor.
  - apply cpu_tool_error.
Defined.

(** C2. The detector answers "in call" exactly when the sampled memory is
    strictly greater than the threshold; a sample equal to the threshold is
    not in call. The sample is the one the sampler returns, and every
    number of kilobytes is the sample of some row of the process table. *)
Theorem classify_strictly_above_threshold (threshold : Z) (r : exec_result)
    (n : N) :
  let status := Sampler.checkZaloCallStatusMemory threshold r in
  let ofRow :=
    Sampler.checkZaloCallStatusMemory threshold (tasklistRow (decimal n)) in
  Sampler.memory status = Sampler.checkZaloMemory r /\
  (Sampler.isInCall status = true <-> Sampler.memory status > threshold) /\
  (Sampler.memory status = threshold -> Sampler.isInCall status = false) /\
  Sampler.memory ofRow = Z.of_N n /\
  (Sampler.isInCall ofRow = true <-> Z.of_N n > threshold).
Proof.
  unfold Sampler.checkZaloCallStatusMemory.
  cbn [Sampler.memory Sampler.isInCall].
  rewrite SamplerFacts.checkZaloMemory_row_decimal.
  rewrite !Z.gtb_ltb, !Z.ltb_lt.
  split; [reflexivity|]. split; [lia|]. split; [|split; [reflexivity|lia]].
  intros ->. apply Z.ltb_irrefl.
Qed.

Lemma classify_strictly_above_threshold_witness :
  let r := ExecOk "ZaloCall.exe 1234 Console 1 100,000 K" in
  Sampler.memory (Sampler.checkZaloCallStatusMemory 100000 r) = 100000 /\
  Sampler.isInCall (Sampler.checkZaloCallStatusMemory 100000 r) = false.
Proof.
  cbv zeta.
  pose proof (classify_strictly_above_threshold 100000
                (ExecOk "ZaloCall.exe 1234 Console 1 100,000 K") 0)
    as (Hm & _ & Hb & _).
  split; [rewrite Hm; vm_compute; reflexivity|].
  apply Hb. vm_compute. reflexivity.
Defined.

(** C7, as the program has it. The threshold of [config.txt] is read once,
    five seconds after the application is ready, and never again: the file
    watcher is not installed. Until that load the detector uses the
    threshold of the static configuration, whatever is written to the file;
    a valid threshold that the file holds at the load (in a line whose key,
    trimmed, is the name of the threshold and whose value [parseInt] reads
    as an integer, with blanks, a sign or trailing text) is the one the
    detector uses from then on; and no later event, a write of the file and
    a notification of watchers included, changes it. *)
Theorem threshold_is_read_once (cfg : option Z) (file : Config.config_file)
    (before after : list App.event) (v : Z) (text : string)
    (r : exec_result) :
  Forall (fun ev => ev <> App.TimeoutElapsed 5000) before ->
  let w0 := App.run cfg (App.boot cfg file) before in
  let w1 := App.step cfg w0 (App.TimeoutElapsed 5000) in
  App.configFile w0 = Config.Content text ->
  holdsThreshold v text ->
  App.classify w0 r
    = Sampler.checkZaloCallStatusMemory (Config.fallbackThreshold cfg) r /\
  App.classify w1 r = Sampler.checkZaloCallStatusMemory v r /\
  App.classify (App.run cfg w1 after) r
    = Sampler.checkZaloCallStatusMemory v r.
Proof.
  intros Hbefore w0 w1 Hfile Htext.
  destruct (AppFacts.run_armed cfg before (App.boot cfg file) Hbefore
              AppFacts.whenReady_armed) as [Hg0 Ha0].
  fold w0 in Hg0, Ha0.
  destruct (AppFacts.step_fires_load cfg w0 Ha0) as (Hg1 & _ & Hn1).
  fold w1 in Hg1, Hn1.
  assert (Hv : Config.MEMORY_CALL_THRESHOLD_KB (App.globals w1) = v).
  { rewrite Hg1, Hfile. now apply ConfigFacts.loadConfigFiles_threshold. }
  unfold App.classify. repeat split.
  - now rewrite Hg0.
  - now rewrite Hv.
  - now rewrite (AppFacts.run_globals_frozen cfg after w1 Hn1), Hv.
Qed.

Lemma threshold_is_read_once_witness :
  let w1 := App.step None
              (App.run None (App.boot None Config.Missing)
                 [App.IntervalElapsed;
                  App.FileWritten looseThresholdFile])
              (App.TimeoutElapsed 5000) in
  Sampler.isInCall
    (App.classify
       (App.run None w1 [App.FileWritten (thresholdLine 7); App.WatchersNotified])
       (tasklistRow "6"))
  = true.
Proof.
  cbv zeta.
  destruct (threshold_is_read_once None Config.Missing
              [App.IntervalElapsed; App.FileWritten looseThresholdFile]
              [App.FileWritten (thresholdLine 7); App.WatchersNotified]
              5 looseThresholdFile (tasklistRow "6")) as (_ & _ & H).
  - repeat constructor; discriminate.
  - reflexivity.
  - exists ["# written by the installer"],
      "  MEMORY_CALL_THRESHOLD_KB = +5 KB  ", ["NAME_CODE=A17"].
    split; [vm_compute; reflexivity|]. split.
    + exists "MEMORY_CALL_THRESHOLD_KB ", " +5 KB".
      repeat split; vm_compute; reflexivity.
    + repeat constructor.
  - rewrite H. vm_compute. reflexivity.
Defined.

(** C7 fails as stated: a valid threshold written after the one load is not
    seen by the detector, however often the watchers would have been
    notified. With 5 in the file and 50 KB in use, the detector still
    compares against 100000. *)
Lemma threshold_write_not_observed :
  let w := App.run None (App.boot None Config.Missing)
             [App.TimeoutElapsed 5000;
              App.FileWritten (thresholdLine 5);
              App.WatchersNotified;
              App.IntervalElapsed;
              App.WatchersNotified] in
  App.configFile w = Config.Content "MEMORY_CALL_THRESHOLD_KB=5" /\
  Config.MEMORY_CALL_THRESHOLD_KB (App.globals w) = 100000 /\
  Sampler.memory (App.classify w (tasklistRow "50")) = 50 /\
  Sampler.isInCall (App.classify w (tasklistRow "50")) = false.
Proof. vm_compute. repeat split. Qed.

(** With the watcher of [setupConfigFileWatcher] registered, the same write
    would reach the detector at the next notification. *)
Lemma watcher_would_reload (cfg : option Z) (w : App.world) (v : N) :
  App.registered w = (App.whenReady ++ App.setupConfigFileWatcher)%list ->
  Config.MEMORY_CALL_THRESHOLD_KB
    (App.globals
       (App.run cfg w [App.FileWritten (thresholdLine v); App.WatchersNotified]))
  = Z.of_N v.
Proof.
  intros Hregs. unfold App.run. cbn [fold_left App.step App.globals
    App.configFile App.registered]. rewrite Hregs. cbn.
  apply (ConfigFacts.loadConfigFiles_threshold cfg _ (Z.of_N v)),
    ConfigFacts.holdsThreshold_line.
Qed.

(** ** The capture surface *)

Module RendererFacts.
Import Renderer.

Lemma finalizeEvents_no_invoke S st channel payload :
  ~ In (EInvoke channel payload) (finalizeEvents S st).
Proof.
  unfold finalizeEvents.
  destruct (recorderLive st), (stopThrows S), (stopAcknowledged S);
    cbn; intros H; intuition discriminate.
Qed.

Lemma connectSystemAudio_no_start E :
  existsb isRecorderStarted (connectSystemAudio E).2 = false.
Proof.
  unfold connectSystemAudio.
  destruct (sources E) as [found|]; [|reflexivity].
  destruct (find isEntireScreen found) as [scr|]; [|reflexivity].
  destruct (desktopAudioTracks E (id scr)) as [n|]; [|reflexivity].
  now destruct (0 <? n)%nat.
Qed.

Lemma connectMicrophone_no_start E :
  existsb isRecorderStarted (connectMicrophone E).2 = false.
Proof. unfold connectMicrophone. now destruct (microphone E). Qed.

End RendererFacts.

(** C8. A start signal while the pipeline is capturing, and a stop signal
    while it is not, leave every variable of the pipeline as it is and do
    nothing that can be observed: no source is acquired, no recorder is
    made, no chunk is lost, no error is logged. *)
Theorem start_and_stop_are_idempotent (E : Renderer.media)
    (S : Renderer.stopping) (st : Renderer.state) :
  (Renderer.recording st = true -> Renderer.startRecording E st = (st, [])) /\
  (Renderer.recording st = false -> Renderer.stopRecording S st = (st, [])).
Proof.
  split; intros Hrec.
  - unfold Renderer.startRecording. now rewrite Hrec.
  - unfold Renderer.stopRecording. now rewrite Hrec.
Qed.

(** C3. A stop of the capturing pipeline that finds no chunk accumulated
    logs the failure and sends no request to the controller: neither
    [save-file] nor [upload-file] (nor any other). *)
Theorem stop_without_chunks_fails_quietly (S : Renderer.stopping)
    (st : Renderer.state) :
  Renderer.recording st = true ->
  Renderer.accumulated S st = [] ->
  let evs := (Renderer.stopRecording S st).2 in
  In (Renderer.ELog "stopRecording: No audio data available!") evs /\
  (forall channel payload, ~ In (Renderer.EInvoke channel payload) evs) /\
  Renderer.recording (Renderer.stopRecording S st).1 = false.
Proof.
  intros Hrec Hacc. unfold Renderer.stopRecording.
  rewrite Hrec, Hacc. cbn [negb length Nat.ltb Nat.leb fst snd].
  repeat split.
  - apply in_or_app. right. now left.
  - intros channel payload [H|H]%in_app_or.
    + now apply RendererFacts.finalizeEvents_no_invoke in H.
    + cbn in H. intuition discriminate.
Qed.

(** C5, as the program has it. A start of the idle pipeline ends capturing,
    with a recorder started, exactly when the audio context could be made,
    at least one of the two sources got connected, the runtime supports one
    of the candidate encodings, and the recorder could be made and started.
    In particular the session is aborted whenever both sources fail. *)
Theorem start_proceeds_iff (E : Renderer.media) (st : Renderer.state) :
  Renderer.recording st = false ->
  let st' := (Renderer.startRecording E st).1 in
  let evs := (Renderer.startRecording E st).2 in
  Renderer.recording st' = captureProceeds E /\
  existsb Renderer.isRecorderStarted evs = captureProceeds E /\
  (sourcesConnected E = false ->
   Renderer.recording st' = false /\
   existsb Renderer.isRecorderStarted evs = false).
Proof.
  intros Hrec.
  assert (Hmain :
    Renderer.recording (Renderer.startRecording E st).1 = captureProceeds E /\
    existsb Renderer.isRecorderStarted (Renderer.startRecording E st).2
    = captureProceeds E).
  { unfold Renderer.startRecording, captureProceeds, sourcesConnected.
    rewrite Hrec.
    pose proof (RendererFacts.connectMicrophone_no_start E) as Hm.
    pose proof (RendererFacts.connectSystemAudio_no_start E) as Hs.
    destruct (Renderer.contextCreated E); [|now split].
    destruct (Renderer.connectMicrophone E) as [mic micEvents].
    destruct (Renderer.connectSystemAudio E) as [sys sysEvents].
    cbn [fst snd] in *.
    assert (Hevs : forall tail,
      existsb Renderer.isRecorderStarted ((micEvents ++ sysEvents) ++ tail)
      = existsb Renderer.isRecorderStarted tail).
    { intros tail. now rewrite !existsb_app, Hm, Hs. }
    destruct (find (Renderer.isTypeSupported E) Renderer.mimeTypes) as [m|];
      [ rewrite bool_decide_eq_true_2 by eauto
      | rewrite bool_decide_eq_false_2 by (intros [? ?]; discriminate) ];
      destruct mic, sys, (Renderer.recorderConstructed E),
        (Renderer.recorderStarts E);
      cbn [fst snd negb andb orb Renderer.recording Renderer.withRecording];
      rewrite Hevs; split; reflexivity. }
  destruct Hmain as [H1 H2]. cbv zeta. repeat split; try assumption.
  - rewrite H1. unfold captureProceeds. rewrite H.
    now rewrite andb_false_r.
  - rewrite H2. unfold captureProceeds. rewrite H.
    now rewrite andb_false_r.
Qed.

Lemma start_and_stop_are_idempotent_witness :
  Renderer.startRecording quietMedia capturing = (capturing, []) /\
  Renderer.stopRecording promptStop Renderer.initial = (Renderer.initial, []).
Proof.
  split.
  - apply (start_and_stop_are_idempotent quietMedia promptStop capturing).
    reflexivity.
  - apply (start_and_stop_are_idempotent quietMedia promptStop Renderer.initial).
    reflexivity.
Defined.

Lemma stop_without_chunks_fails_quietly_witness :
  In (Renderer.ELog "stopRecording: No audio data available!")
    (Renderer.stopRecording promptStop capturing).2 /\
  (forall channel payload,
     ~ In (Renderer.EInvoke channel payload)
         (Renderer.stopRecording promptStop capturing).2) /\
  Renderer.recording (Renderer.stopRecording promptStop capturing).1 = false.
Proof.
  apply (stop_without_chunks_fails_quietly promptStop capturing);
    reflexivity.
Defined.

Lemma start_proceeds_iff_witness :
  Renderer.recording (Renderer.startRecording quietMedia Renderer.initial).1
  = captureProceeds quietMedia /\
  existsb Renderer.isRecorderStarted
    (Renderer.startRecording quietMedia Renderer.initial).2
  = captureProceeds quietMedia /\
  (sourcesConnected quietMedia = false ->
   Renderer.recording (Renderer.startRecording quietMedia Renderer.initial).1
   = false /\
   existsb Renderer.isRecorderStarted
     (Renderer.startRecording quietMedia Renderer.initial).2 = false).
Proof.
  apply (start_proceeds_iff quietMedia Renderer.initial). reflexivity.
Defined.

(** C5 fails as stated: with the microphone and the system audio both
    connected but no candidate encoding supported by the runtime, the start
    is aborted all the same. *)
Lemma start_aborts_with_sources_connected :
  (Renderer.connectMicrophone quietMedia).1 = true /\
  (Renderer.connectSystemAudio quietMedia).1 = true /\
  Renderer.recording (Renderer.startRecording quietMedia Renderer.initial).1
  = false /\
  existsb Renderer.isRecorderStarted
    (Renderer.startRecording quietMedia Renderer.initial).2 = false.
Proof. vm_compute. repeat split. Qed.

(** ** The API client and the upload *)

Module UploadFacts.
Import Js Api Upload.










End UploadFacts.




(** C1, where the program departs from it. The transfer of the bytes to the
    presigned destination fails, the history record is committed, and the
    handler deletes the local file and reports success. *)
Theorem upload_deletes_after_failed_transfer :
  Api.callApi (sampleNetwork false) (VStr "")
    (VStr "https://bucket.example.com/put?sig=1") "PUT"
    (VBuffer "ID3-mp3-bytes") [("Content-Type", VStr "audio/mpeg")] 60000
  = Ret (VObj [("code", VStr "ECONNABORTED");
               ("message", VStr "timeout of 60000ms exceeded")]) /\
  diskWithMp3 !! mp3Path = Some (File "ID3-mp3-bytes") /\
  let result := @Upload.uploadFile exampleRuntime workingHost sampleConfig
                  (sampleNetwork false) sampleTimes mp3Path diskWithMp3 in
  result.1 = Ret true /\ result.2 !! mp3Path = None.
Proof. vm_compute. repeat split. Qed.

(** X17. The upload handler reports success only after the history commit
    (a POST to the history endpoint with the token header and a timeout of
    ten seconds) answered with a truthy [success]. *)
Lemma uploadFile_success_needs_commit `{Runtime} (H0 : host) (cfg : appConfig)
    (net : network) (timeParams : jsval) (filePath : string)
    (fs fs' : filesystem) :
  Upload.uploadFile H0 cfg net timeParams filePath fs = (Ret true, fs') ->
  exists record saveHistoryResponse,
    Api.callApi net (API_URL cfg) (SAVE_HISTORY_API cfg) "POST" record
      [("x-api-token", SALE_TOKEN cfg)] 10000 = Ret saveHistoryResponse /\
    Js.truthy (Js.optProp saveHistoryResponse "success") = true.
Proof.
  unfold Upload.uploadFile, Fs.tryCatch, Fs.bind, Fs.lift, Fs.existsSync,
    Fs.readFileSync, Fs.unlinkSync, Fs.ret, Fs.throw.
  split_cases; intros [= <-];
    repeat match goal with
           | H : (_, _) = (_, _) |- _ => injection H as ? ?; subst
           | H : negb _ = false |- _ => apply negb_false_iff in H
           end;
    eauto.
Qed.

(** ** Conversion *)

Module ConversionFacts.
Import Conversion.

(** The conversion changes the file system at most by the tool's writing
    its output file. *)
Lemma convertToMP3_frame (H : host) (inputPath outputPath : string)
    (fs fs' : filesystem) (r : outcome string) :
  convertToMP3 H inputPath outputPath fs = (r, fs') ->
  fs' = fs \/ exists content, fs' = <[outputPath := File content]> fs.
Proof.
  unfold convertToMP3, exec, Fs.bind, Fs.existsSync, Fs.statSize, Fs.ret,
    Fs.throw.
  split_cases; intros [= <- <-]; eauto.
Qed.

Lemma convertToMP3_keeps_files (H : host) (inputPath outputPath : string)
    (fs fs' : filesystem) (r : outcome string) (p : string) (c : string) :
  convertToMP3 H inputPath outputPath fs = (r, fs') ->
  fs !! p = Some (File c) ->
  exists c', fs' !! p = Some (File c').
Proof.
  intros Hconv Hp.
  destruct (convertToMP3_frame _ _ _ _ _ _ Hconv) as [->|[content ->]];
    [eauto|].
  destruct (decide (outputPath = p)) as [->|Hne].
  - rewrite lookup_insert_eq. eauto.
  - rewrite lookup_insert_ne by exact Hne. eauto.
Qed.

End ConversionFacts.

(** X26. Conversely, with the checks passed and no fault of [fs.statSync],
    the conversion resolves with the output path. *)
Lemma convertToMP3_succeeds (H : host) (inputPath outputPath : string)
    (fs : filesystem) (written : option string) :
  let fs' := match written with
             | Some content => <[outputPath := File content]> fs
             | None => fs
             end in
  nonEmptyAt fs inputPath ->
  is_Some (fs !! FFMPEG_PATH H) ->
  ffmpeg H (Conversion.command H inputPath outputPath) fs = (None, written) ->
  nonEmptyAt fs' outputPath ->
  statFails (faults H) inputPath = false ->
  statFails (faults H) outputPath = false ->
  Conversion.convertToMP3 H inputPath outputPath fs = (Ret outputPath, fs').
Proof.
  intros fs' (n & Hin & Hsize) Htool Hrun (n' & Hout & Hsize') Hsin Hsout.
  unfold Conversion.convertToMP3, Conversion.exec, Fs.bind, Fs.existsSync,
    Fs.statSize, Fs.ret, Fs.throw.
  subst fs'. apply Z.eqb_neq in Hsize, Hsize'.
  repeat (cbv beta iota; cbn [negb];
          first [ rewrite Hin | rewrite Hsin | rewrite Hrun | rewrite Hout
                | rewrite Hsout | rewrite Hsize | rewrite Hsize'
                | rewrite bool_decide_eq_true_2 by eauto ]).
  reflexivity.
Qed.

(** C4. The conversion resolves, and then with the output path, only when
    the input file existed with a non-zero size, the tool's binary was
    present, the tool reported no error, and the output file is there with a
    non-zero size afterwards; in every other case it is rejected with an
    error. *)
Theorem convertToMP3_success_only_when (H : host)
    (inputPath outputPath : string) (fs fs' : filesystem) (p : string) :
  Conversion.convertToMP3 H inputPath outputPath fs = (Ret p, fs') ->
  p = outputPath /\
  nonEmptyAt fs inputPath /\
  is_Some (fs !! FFMPEG_PATH H) /\
  (ffmpeg H (Conversion.command H inputPath outputPath) fs).1 = None /\
  nonEmptyAt fs' outputPath.
Proof.
  unfold Conversion.convertToMP3, Conversion.exec, Fs.bind, Fs.existsSync,
    Fs.statSize, Fs.ret, Fs.throw, nonEmptyAt.
  split_cases; intros [= <- <-].
  all: repeat match goal with
         | H : bool_decide _ = true |- _ => apply bool_decide_eq_true_1 in H
         | H : (_ =? _) = false |- _ => apply Z.eqb_neq in H
         | H : negb _ = false |- _ => apply negb_false_iff in H
         | H : (_, _) = (_, _) |- _ => injection H as ? ?; subst
         | H : Ret _ = Ret _ |- _ => injection H as ?; subst
         end.
  all: repeat split; eauto.
Qed.

Module SaveFacts.
Import Conversion.

(** When the handler reaches the conversion step, the temporary file is a
    regular file. *)
Lemma saveTemp_writes_file `{Runtime} (H0 : host) (filename : string)
    (dataUrl : jsval) (fs fs1 : filesystem) (dateDir tempFilePath : string) :
  saveTemp H0 filename dataUrl fs = (Ret (dateDir, tempFilePath), fs1) ->
  exists content, fs1 !! tempFilePath = Some (File content).
Proof.
  unfold saveTemp, Fs.bind, Fs.existsSync, Fs.statSize, Fs.writeFileSync,
    Fs.mkdirSync, Fs.ret, Fs.throw.
  split_cases; intros [= <- <- <-];
    repeat match goal with
           | H : (_, _) = (_, _) |- _ => injection H as ? ?; subst
           end;
    rewrite lookup_insert_eq; eauto.
Qed.

(** What the conversion step and the clean-up leave of a temporary file
    that can be deleted. *)
Lemma convertAndClean_removes_temp `{Runtime} (H0 : host)
    (filename dateDir tempFilePath : string) (fs1 : filesystem)
    (content : string) :
  fs1 !! tempFilePath = Some (File content) ->
  unlinkFails (faults H0) tempFilePath = false ->
  (convertAndClean H0 filename dateDir tempFilePath fs1).2 !! tempFilePath
  = None.
Proof.
  intros Hfile Hunlink. unfold convertAndClean.
  set (mp3FilePath := path_join dateDir filename).
  unfold Fs.bind at 1. unfold Fs.tryCatch at 1. unfold Fs.bind at 1.
  destruct (convertToMP3 H0 tempFilePath mp3FilePath fs1) as [r fs2] eqn:Hconv.
  destruct (ConversionFacts.convertToMP3_keeps_files _ _ _ _ _ _ _ _
              Hconv Hfile) as [content' Hfile'].
  destruct r as [p|err].
  - unfold Fs.ret at 1. unfold Fs.bind, Fs.tryCatch, Fs.unlinkSync, Fs.statSize,
      Fs.ret.
    rewrite Hfile', Hunlink.
    split_cases; cbn [snd]; apply lookup_delete_eq.
  - unfold Fs.bind, Fs.tryCatch, Fs.existsSync, Fs.unlinkSync, Fs.ret,
      Fs.throw.
    rewrite bool_decide_eq_true_2 by (rewrite Hfile'; eauto).
    rewrite Hfile', Hunlink. cbn [snd]. apply lookup_delete_eq.
Qed.

(** What they leave of a temporary file that cannot be deleted: the
    failure is swallowed and the file stays. *)
Lemma convertAndClean_keeps_temp `{Runtime} (H0 : host)
    (filename dateDir tempFilePath : string) (fs1 : filesystem)
    (content : string) :
  fs1 !! tempFilePath = Some (File content) ->
  unlinkFails (faults H0) tempFilePath = true ->
  exists content',
    (convertAndClean H0 filename dateDir tempFilePath fs1).2 !! tempFilePath
    = Some (File content').
Proof.
  intros Hfile Hunlink. unfold convertAndClean.
  set (mp3FilePath := path_join dateDir filename).
  unfold Fs.bind at 1. unfold Fs.tryCatch at 1. unfold Fs.bind at 1.
  destruct (convertToMP3 H0 tempFilePath mp3FilePath fs1) as [r fs2] eqn:Hconv.
  destruct (ConversionFacts.convertToMP3_keeps_files _ _ _ _ _ _ _ _
              Hconv Hfile) as [content' Hfile'].
  exists content'. destruct r as [p|err].
  - unfold Fs.ret at 1. unfold Fs.bind, Fs.tryCatch, Fs.unlinkSync, Fs.statSize,
      Fs.ret.
    rewrite Hfile', Hunlink.
    split_cases; cbn [snd]; exact Hfile'.
  - unfold Fs.bind, Fs.tryCatch, Fs.existsSync, Fs.unlinkSync, Fs.ret,
      Fs.throw.
    rewrite bool_decide_eq_true_2 by (rewrite Hfile'; eauto).
    rewrite Hfile', Hunlink. cbn [snd]. exact Hfile'.
Qed.

End SaveFacts.

(** C9, as the program has it. Once the [save-file] handler has reached the
    conversion step, it deletes the temporary file whether the conversion
    succeeds or fails. When that deletion does not fail, the temporary file
    no longer exists afterwards; when it fails, the failure is swallowed
    and the temporary file stays in place. When the handler reports
    success, the converted file is there. *)
Theorem saveFile_removes_temp `{Runtime} (H0 : host) (filename : string)
    (dataUrl : jsval) (fs fs1 : filesystem) (dateDir tempFilePath : string) :
  Conversion.saveTemp H0 filename dataUrl fs
  = (Ret (dateDir, tempFilePath), fs1) ->
  let result := Conversion.saveFile H0 filename dataUrl fs in
  (unlinkFails (faults H0) tempFilePath = false ->
   result.2 !! tempFilePath = None) /\
  (unlinkFails (faults H0) tempFilePath = true ->
   exists content, result.2 !! tempFilePath = Some (File content)) /\
  (forall v, result.1 = Ret v ->
     Js.getProp v "path" = Ret (VStr (path_join dateDir filename)) /\
     is_Some (result.2 !! path_join dateDir filename)).
Proof.
  intros Htemp.
  destruct (SaveFacts.saveTemp_writes_file _ _ _ _ _ _ _ Htemp)
    as [content Hfile].
  pose proof (SaveFacts.convertAndClean_removes_temp H0 filename dateDir
                tempFilePath fs1 content Hfile) as Hgone.
  pose proof (SaveFacts.convertAndClean_keeps_temp H0 filename dateDir
                tempFilePath fs1 content Hfile) as Hstays.
  assert (Hrun : Conversion.saveFile H0 filename dataUrl fs
    = match Conversion.convertAndClean H0 filename dateDir tempFilePath fs1 with
      | (Ret v, fs2) => (Ret v, fs2)
      | (Throw e, fs2) => (Throw e, fs2)
      end).
  { unfold Conversion.saveFile, Fs.tryCatch, Fs.bind, Fs.throw.
    rewrite Htemp. cbn [fst snd].
    now destruct (Conversion.convertAndClean _ _ _ _ _) as [[v|e] fs2]. }
  cbv zeta. rewrite Hrun. clear Hrun.
  destruct (Conversion.convertAndClean H0 filename dateDir tempFilePath fs1)
    as [[v|e] fs2] eqn:Hcc; cbn [fst snd] in *;
    (split; [exact Hgone|]); (split; [exact Hstays|]); [|discriminate].
  intros v' [= <-]. revert Hcc.
  unfold Conversion.convertAndClean, Fs.bind, Fs.tryCatch, Fs.statSize, Fs.ret,
    Fs.throw.
  split_cases; intros [= <- <-]; cbn; split; eauto.
Qed.

Lemma pair_from_fst {A B} (x : A * B) (a : A) : x.1 = a -> x = (a, x.2).
Proof. destruct x. cbn. now intros ->. Defined.

Lemma convertToMP3_success_only_when_witness :
  nonEmptyAt diskWithWebm webmPath /\
  nonEmptyAt
    (Conversion.convertToMP3 workingHost webmPath mp3Path diskWithWebm).2
    mp3Path.
Proof.
  destruct (convertToMP3_success_only_when workingHost webmPath mp3Path
              diskWithWebm
              (Conversion.convertToMP3 workingHost webmPath mp3Path
                 diskWithWebm).2
              mp3Path)
    as (_ & Hin & _ & _ & Hout).
  - apply pair_from_fst. vm_compute. reflexivity.
  - split; assumption.
Defined.

Lemma saveFile_removes_temp_witness :
  let result := @Conversion.saveFile exampleRuntime workingHost "call.mp3"
                  sampleDataUrl diskWithTool in
  let locked := @Conversion.saveFile exampleRuntime lockedHost "call.mp3"
                  sampleDataUrl diskWithTool in
  result.2 !! webmPath = None /\
  (forall v, result.1 = Ret v ->
     Js.getProp v "path" = Ret (VStr mp3Path) /\
     is_Some (result.2 !! mp3Path)) /\
  (exists content, locked.2 !! webmPath = Some (File content)).
Proof.
  cbv zeta.
  destruct (@saveFile_removes_temp exampleRuntime workingHost "call.mp3"
              sampleDataUrl diskWithTool
              (@Conversion.saveTemp exampleRuntime workingHost "call.mp3"
                 sampleDataUrl diskWithTool).2
              "C:/Users/me/Documents/recordings/14_11_2023" webmPath)
    as (Hgone & _ & Hsuccess);
    [apply pair_from_fst; vm_compute; reflexivity|].
  destruct (@saveFile_removes_temp exampleRuntime lockedHost "call.mp3"
              sampleDataUrl diskWithTool
              (@Conversion.saveTemp exampleRuntime lockedHost "call.mp3"
                 sampleDataUrl diskWithTool).2
              "C:/Users/me/Documents/recordings/14_11_2023" webmPath)
    as (_ & Hstays & _);
    [apply pair_from_fst; vm_compute; reflexivity|].
  split; [exact (Hgone eq_refl)|].
  split; [exact Hsuccess|exact (Hstays eq_refl)].
Defined.

(** C9 fails as stated: the handler reaches the conversion step, the
    conversion succeeds, the deletion of the temporary file fails and the
    failure is swallowed, and the handler reports success, with the path of
    the converted file, while the temporary file is still in place beside
    the converted one. *)
Lemma saveFile_leaves_temp_when_unlink_fails :
  let result := @Conversion.saveFile exampleRuntime lockedHost "call.mp3"
                  sampleDataUrl diskWithTool in
  (@Conversion.saveTemp exampleRuntime lockedHost "call.mp3" sampleDataUrl
     diskWithTool).1
  = Ret ("C:/Users/me/Documents/recordings/14_11_2023", webmPath) /\
  (exists v, result.1 = Ret v /\
             Js.getProp v "path" = Ret (VStr mp3Path)) /\
  is_Some (result.2 !! webmPath) /\
  is_Some (result.2 !! mp3Path).
Proof.
  vm_compute. repeat split; eauto.
Qed.

(* ===================================================================== *)
(** * Part III: further properties of the program *)
(* ===================================================================== *)

(** ** Phone numbers and clipboard texts *)

Module ClipboardFacts.
Import JsString StringFacts SamplerFacts Clipboard.

Lemma digits_spec n s :
  digits n s = true -> String.length s = n /\ allDigits s = true.
Proof.
  unfold digits. intros [Hn Hs]%andb_true_iff.
  apply Nat.eqb_eq in Hn. now split.
Qed.

Lemma allDigits_strAll s : allDigits s = strAll isDigit s.
Proof. induction s as [|c s IH]; [reflexivity|]. cbn. now rewrite IH. Qed.

Lemma isDigit_notWs c : isDigit c = true -> notWs c = true.
Proof.
  destruct c as [[] [] [] [] [] [] [] []]; intros H;
    first [discriminate H | reflexivity].
Qed.

Lemma isDigit_kept c : isDigit c = true -> negb (isPhoneSeparator c) = true.
Proof.
  destruct c as [[] [] [] [] [] [] [] []]; intros H;
    first [discriminate H | reflexivity].
Qed.

Lemma isLocalFormat_inv s :
  isLocalFormat s = true -> exists r, s = String "0" r /\ digits 9 r = true.
Proof.
  destruct s as [|c r]; [discriminate|].
  destruct c as [[] [] [] [] [] [] [] []]; cbn; intros H;
    first [discriminate H | eauto].
Qed.

Lemma isCountryFormat_inv s :
  isCountryFormat s = true ->
  exists r, s = String "8" (String "4" r) /\ digits 9 r = true.
Proof.
  destruct s as [|c [|c' r]]; try discriminate;
    destruct c as [[] [] [] [] [] [] [] []]; cbn; try discriminate;
    destruct c' as [[] [] [] [] [] [] [] []]; cbn; intros H;
    first [discriminate H | eauto].
Qed.

Lemma isPlusFormat_inv s :
  isPlusFormat s = true ->
  exists r, s = String "+" (String "8" (String "4" r)) /\ digits 9 r = true.
Proof.
  destruct s as [|c [|c' [|c'' r]]]; try discriminate;
    destruct c as [[] [] [] [] [] [] [] []]; cbn; try discriminate;
    destruct c' as [[] [] [] [] [] [] [] []]; cbn; try discriminate;
    destruct c'' as [[] [] [] [] [] [] [] []]; cbn; intros H;
    first [discriminate H | eauto].
Qed.

Lemma isBareFormat_inv s :
  isBareFormat s = true ->
  exists c r, s = String c r /\ isDigit c = true /\ digits 8 r = true.
Proof.
  destruct s as [|c r]; [discriminate|]. cbn [isBareFormat].
  intros [[Hlo Hhi]%andb_true_iff Hr]%andb_true_iff.
  exists c, r. repeat split; [|exact Hr].
  unfold isDigit. apply andb_true_iff. split; [|exact Hhi].
  apply Nat.leb_le in Hlo. apply Nat.leb_le. lia.
Qed.

Lemma local_of_digits r : digits 9 r = true -> isLocalFormat (String "0" r) = true.
Proof. trivial. Qed.

Lemma digits_succ n c r :
  isDigit c = true -> digits n r = true -> digits (S n) (String c r) = true.
Proof.
  unfold digits. intros Hc [Hn Hr]%andb_true_iff.
  cbn [String.length allDigits Nat.eqb]. now rewrite Hn, Hc, Hr.
Qed.

(** A result of the normalisation is in the local format. *)
Lemma validate_local text p :
  validateAndNormalizePhoneNumber text = Some p -> isLocalFormat p = true.
Proof.
  unfold validateAndNormalizePhoneNumber.
  destruct text as [| | | |t| |]; try discriminate.
  destruct (negb _); [discriminate|].
  set (cleaned := removeChars isPhoneSeparator (trim t)).
  destruct (isLocalFormat cleaned) eqn:E1; [now intros [= <-]|].
  destruct (isCountryFormat cleaned) eqn:E2.
  { destruct (isCountryFormat_inv _ E2) as (r & -> & Hr). now intros [= <-]. }
  destruct (isPlusFormat cleaned) eqn:E3.
  { destruct (isPlusFormat_inv _ E3) as (r & -> & Hr). now intros [= <-]. }
  destruct (isBareFormat cleaned) eqn:E4; [|discriminate].
  destruct (isBareFormat_inv _ E4) as (c & r & -> & Hc & Hr).
  intros [= <-]. apply local_of_digits. now apply digits_succ.
Qed.

Lemma digits_clean n s :
  digits n s = true ->
  trim s = s /\ removeChars isPhoneSeparator s = s.
Proof.
  intros [_ Hs]%digits_spec. rewrite allDigits_strAll in Hs. split.
  - apply trim_notWs, (strAll_impl isDigit); [apply isDigit_notWs|exact Hs].
  - apply removeChars_kept, (strAll_impl isDigit); [apply isDigit_kept|exact Hs].
Qed.

(** A number in the local format is its own normal form. *)
Lemma validate_of_local p :
  isLocalFormat p = true -> validateAndNormalizePhoneNumber (VStr p) = Some p.
Proof.
  intros Hp. destruct (isLocalFormat_inv _ Hp) as (r & -> & Hr).
  assert (Hd : digits 10 (String "0" r) = true) by now apply digits_succ.
  destruct (digits_clean _ _ Hd) as [Htrim Hclean].
  unfold validateAndNormalizePhoneNumber.
  change (negb (Js.truthy (VStr (String "0" r)))) with false. cbv iota.
  now rewrite Htrim, Hclean, Hp.
Qed.

Lemma removeChars_trimStart P s :
  (forall c, is_ws c = true -> P c = true) ->
  removeChars P (trimStart s) = removeChars P s.
Proof.
  intros HP. induction s as [|c s IH]; [reflexivity|]. cbn [trimStart].
  destruct (is_ws c) eqn:E; [|reflexivity].
  cbn [removeChars]. now rewrite (HP c E).
Qed.

Lemma removeChars_trimEnd P s :
  (forall c, is_ws c = true -> P c = true) ->
  removeChars P (trimEnd s) = removeChars P s.
Proof.
  intros HP. induction s as [|c s IH]; [reflexivity|]. cbn [trimEnd].
  destruct (trimEnd s) as [|c' t] eqn:E.
  - cbn [removeChars] in *. rewrite <- IH.
    destruct (is_ws c) eqn:Ec; [now rewrite (HP c Ec)|reflexivity].
  - cbn [removeChars] in *. now rewrite IH.
Qed.

Lemma cleaned_ignores_trim s :
  removeChars isPhoneSeparator (trim s) = removeChars isPhoneSeparator s.
Proof.
  assert (HP : forall c, is_ws c = true -> isPhoneSeparator c = true).
  { intros c Hc. unfold isPhoneSeparator. now rewrite Hc. }
  unfold trim. now rewrite removeChars_trimEnd, removeChars_trimStart.
Qed.

(** The normalisation sees a text only through its characters that are no
    separators. *)
Lemma validate_by_cleaned s t :
  removeChars isPhoneSeparator s = removeChars isPhoneSeparator t ->
  validateAndNormalizePhoneNumber (VStr s)
  = validateAndNormalizePhoneNumber (VStr t).
Proof.
  intros Hst.
  assert (Hempty : forall u,
    validateAndNormalizePhoneNumber (VStr u)
    = let cleaned := removeChars isPhoneSeparator u in
      if isLocalFormat cleaned then Some cleaned
      else if isCountryFormat cleaned then Some ("0" +:+ skip 2 cleaned)
      else if isPlusFormat cleaned then Some ("0" +:+ skip 3 cleaned)
      else if isBareFormat cleaned then Some ("0" +:+ cleaned)
      else None).
  { intros u. unfold validateAndNormalizePhoneNumber.
    rewrite cleaned_ignores_trim. destruct u; reflexivity. }
  now rewrite !Hempty, Hst.
Qed.

End ClipboardFacts.

(** X1. Whatever the phone normalisation accepts comes out as ten digits
    with a leading zero, and normalising the result again returns it. *)
Theorem phone_result_is_canonical (text : jsval) (p : string) :
  Clipboard.validateAndNormalizePhoneNumber text = Some p ->
  String.length p = 10%nat /\
  JsString.startsWith "0" p = true /\
  Clipboard.allDigits p = true /\
  Clipboard.validateAndNormalizePhoneNumber (VStr p) = Some p.
Proof.
  intros Hp. apply ClipboardFacts.validate_local in Hp.
  destruct (ClipboardFacts.isLocalFormat_inv _ Hp) as (r & -> & Hr).
  destruct (ClipboardFacts.digits_spec _ _ Hr) as [Hlen Hall].
  repeat split.
  - cbn. now rewrite Hlen.
  - cbn. now destruct r.
  - exact Hall.
  - now apply ClipboardFacts.validate_of_local.
Qed.

Lemma phone_result_is_canonical_witness :
  String.length "0912345678" = 10%nat /\
  JsString.startsWith "0" "0912345678" = true /\
  Clipboard.allDigits "0912345678" = true /\
  Clipboard.validateAndNormalizePhoneNumber (VStr "0912345678")
  = Some "0912345678".
Proof.
  apply (phone_result_is_canonical (VStr " +84 912-345.678 ")).
  vm_compute. reflexivity.
Defined.

(** X2. The four accepted spellings of a subscriber number (with a leading
    0, with 84, with +84, and bare when it starts with 3 to 9) normalise to
    the same local number; a bare number that starts with 0, 1 or 2 is
    refused. *)
Theorem phone_formats_agree (d : string) :
  Clipboard.digits 9 d = true ->
  Clipboard.validateAndNormalizePhoneNumber (VStr ("0" +:+ d))
  = Some ("0" +:+ d) /\
  Clipboard.validateAndNormalizePhoneNumber (VStr ("84" +:+ d))
  = Some ("0" +:+ d) /\
  Clipboard.validateAndNormalizePhoneNumber (VStr ("+84" +:+ d))
  = Some ("0" +:+ d) /\
  Clipboard.validateAndNormalizePhoneNumber (VStr d)
  = if Clipboard.isBareFormat d then Some ("0" +:+ d) else None.
Proof.
  intros Hd.
  destruct (ClipboardFacts.digits_spec _ _ Hd) as [Hlen Hall].
  destruct (ClipboardFacts.digits_clean _ _ Hd) as [_ Hclean].
  assert (Hraw : forall s,
    JsString.removeChars Clipboard.isPhoneSeparator s = s ->
    Clipboard.validateAndNormalizePhoneNumber (VStr s)
    = if Clipboard.isLocalFormat s then Some s
      else if Clipboard.isCountryFormat s then Some ("0" +:+ JsString.skip 2 s)
      else if Clipboard.isPlusFormat s then Some ("0" +:+ JsString.skip 3 s)
      else if Clipboard.isBareFormat s then Some ("0" +:+ s)
      else None).
  { intros s Hs. unfold Clipboard.validateAndNormalizePhoneNumber.
    rewrite ClipboardFacts.cleaned_ignores_trim, Hs.
    destruct s; reflexivity. }
  repeat split.
  - apply ClipboardFacts.validate_of_local. exact Hd.
  - rewrite Hraw by (now rewrite SamplerFacts.removeChars_app, Hclean).
    change (Clipboard.isLocalFormat ("84" +:+ d)) with false.
    change (Clipboard.isCountryFormat ("84" +:+ d)) with (Clipboard.digits 9 d).
    now rewrite Hd.
  - rewrite Hraw by (now rewrite SamplerFacts.removeChars_app, Hclean).
    change (Clipboard.isLocalFormat ("+84" +:+ d)) with false.
    change (Clipboard.isCountryFormat ("+84" +:+ d)) with false.
    change (Clipboard.isPlusFormat ("+84" +:+ d)) with (Clipboard.digits 9 d).
    now rewrite Hd.
  - rewrite Hraw by exact Hclean.
    assert (Hshort : forall r n, String.length r = n ->
              Clipboard.digits (S n) r = false).
    { intros r n Hr. unfold Clipboard.digits. rewrite Hr.
      now rewrite (proj2 (Nat.eqb_neq n (S n))) by lia. }
    destruct d as [|c r]; [discriminate Hlen|].
    cbn [String.length] in Hlen. injection Hlen as Hlen.
    assert (H1 : Clipboard.isLocalFormat (String c r) = false).
    { destruct c as [[] [] [] [] [] [] [] []]; try reflexivity.
      cbn. now apply Hshort. }
    assert (H2 : Clipboard.isCountryFormat (String c r) = false).
    { destruct r as [|c' r]; [discriminate Hlen|].
      cbn [String.length] in Hlen. injection Hlen as Hlen.
      destruct c as [[] [] [] [] [] [] [] []]; try reflexivity.
      destruct c' as [[] [] [] [] [] [] [] []]; try reflexivity.
      cbn. unfold Clipboard.digits. now rewrite Hlen. }
    assert (H3 : Clipboard.isPlusFormat (String c r) = false).
    { cbn [Clipboard.allDigits] in Hall. apply andb_true_iff in Hall as [Hc _].
      destruct c as [[] [] [] [] [] [] [] []]; try reflexivity.
      discriminate Hc. }
    now rewrite H1, H2, H3.
Qed.

Lemma phone_formats_agree_witness :
  Clipboard.validateAndNormalizePhoneNumber (VStr "0912345678")
  = Some "0912345678" /\
  Clipboard.validateAndNormalizePhoneNumber (VStr "84912345678")
  = Some "0912345678" /\
  Clipboard.validateAndNormalizePhoneNumber (VStr "+84912345678")
  = Some "0912345678" /\
  Clipboard.validateAndNormalizePhoneNumber (VStr "912345678")
  = Some "0912345678".
Proof.
  apply (phone_formats_agree "912345678"). reflexivity.
Defined.

(** X3. Separators do not matter to the phone normalisation: a text with a
    blank, a hyphen, a dot or a parenthesis put in anywhere is treated like
    the text without it. *)
Theorem phone_separators_ignored (a b : string) (sep : ascii) :
  Clipboard.isPhoneSeparator sep = true ->
  Clipboard.validateAndNormalizePhoneNumber (VStr (a +:+ String sep b))
  = Clipboard.validateAndNormalizePhoneNumber (VStr (a +:+ b)).
Proof.
  intros Hsep. apply ClipboardFacts.validate_by_cleaned.
  rewrite !SamplerFacts.removeChars_app. cbn [JsString.removeChars].
  now rewrite Hsep.
Qed.

Lemma phone_separators_ignored_witness :
  Clipboard.validateAndNormalizePhoneNumber (VStr "0912-345678")
  = Clipboard.validateAndNormalizePhoneNumber (VStr "0912345678").
Proof.
  apply (phone_separators_ignored "0912" "345678" "-"). reflexivity.
Defined.

(** X4. The clipboard listener never hands the same clipboard content to
    the server twice in a row: a second change event with the content of the
    first sends nothing and leaves the remembered text as it is. *)
Theorem clipboard_repeat_not_resent (TEXT_SIZE_MAX : option Z)
    (currentText lastClipboardText : string) :
  let remembered :=
    (Clipboard.onClipboardChange TEXT_SIZE_MAX currentText
       lastClipboardText).1 in
  Clipboard.onClipboardChange TEXT_SIZE_MAX currentText remembered
  = (remembered, None).
Proof.
  cbv zeta.
  assert (Hcases :
    (bool_decide (currentText = lastClipboardText)
     || (String.length (JsString.trim currentText) =? 0)%nat = true /\
     (Clipboard.onClipboardChange TEXT_SIZE_MAX currentText
        lastClipboardText).1 = lastClipboardText) \/
    (Clipboard.onClipboardChange TEXT_SIZE_MAX currentText
       lastClipboardText).1 = currentText).
  { unfold Clipboard.onClipboardChange.
    destruct (_ || _); [now left|right].
    destruct (Clipboard.validateAndNormalizeText _ _) as [text|];
      [destruct (negb _)|]; reflexivity. }
  destruct Hcases as [[E ->]| ->]; unfold Clipboard.onClipboardChange.
  - now rewrite E.
  - now rewrite bool_decide_eq_true_2.
Qed.

(** X5. A text that the clipboard listener hands to the server is the
    trimmed clipboard content, is not empty, differs from the content seen
    before, and is no longer than the configured maximum. *)
Theorem clipboard_sent_text_is_valid (TEXT_SIZE_MAX : option Z)
    (currentText lastClipboardText sent : string) :
  (Clipboard.onClipboardChange TEXT_SIZE_MAX currentText
     lastClipboardText).2 = Some sent ->
  sent = JsString.trim currentText /\
  sent <> "" /\
  currentText <> lastClipboardText /\
  (forall bound, TEXT_SIZE_MAX = Some bound ->
     Z.of_nat (String.length sent) <= bound) /\
  (Clipboard.onClipboardChange TEXT_SIZE_MAX currentText
     lastClipboardText).1 = currentText.
Proof.
  unfold Clipboard.onClipboardChange, Clipboard.validateAndNormalizeText.
  destruct (bool_decide (currentText = lastClipboardText)) eqn:Hsame;
    [discriminate|]. apply bool_decide_eq_false_1 in Hsame.
  destruct (String.length (JsString.trim currentText) =? 0)%nat eqn:Hblank;
    [discriminate|]. apply Nat.eqb_neq in Hblank.
  cbn [orb]. destruct (negb (Js.truthy (VStr currentText))); [discriminate|].
  assert (Hne : JsString.trim currentText <> "").
  { intros E. now rewrite E in Hblank. }
  destruct TEXT_SIZE_MAX as [bound|].
  - destruct (bound <? _) eqn:Hlen; [discriminate|].
    apply Z.ltb_ge in Hlen.
    destruct (negb _); [discriminate|]. intros [= <-].
    repeat split; try assumption. now intros ? [= <-].
  - destruct (negb _); [discriminate|]. intros [= <-].
    repeat split; try assumption. discriminate.
Qed.

Lemma clipboard_sent_text_is_valid_witness :
  "0912 345 678" = JsString.trim "  0912 345 678 " /\
  "0912 345 678" <> "" /\
  "  0912 345 678 " <> "hello" /\
  (forall bound, Some 100 = Some bound ->
     Z.of_nat (String.length "0912 345 678") <= bound) /\
  (Clipboard.onClipboardChange (Some 100) "  0912 345 678 " "hello").1
  = "  0912 345 678 ".
Proof.
  apply (clipboard_sent_text_is_valid (Some 100) "  0912 345 678 " "hello").
  reflexivity.
Defined.

(** ** The monitoring loop *)

Module MonitorFacts.
Import Monitor.

Lemma sent_app l1 l2 : sent (l1 ++ l2) = (sent l1 ++ sent l2)%list.
Proof. apply omap_app. Qed.

Lemma replay_app b l1 l2 :
  replay b (l1 ++ l2)
  = match replay b l1 with Some b' => replay b' l2 | None => None end.
Proof.
  revert b. induction l1 as [|s l1 IH]; intros b; [reflexivity|].
  cbn [app replay]. destruct s, b; auto.
Qed.

(** The signals of the [try] block of a tick. *)
Lemma tickBody_sent W st n :
  let '(recording', effects, threw) := tickBody W st n in
  sent effects
  = if Bool.eqb recording' (isRecording st) then []
    else [if recording' then StartRecording else StopRecording].
Proof.
  unfold tickBody.
  destruct (isZaloRunning (tasklist W)), (isRecording st),
    (Sampler.isInCall _), (windowAlive W), (Z.rem n 100 =? 0);
    reflexivity.
Qed.

Lemma tick_sent W st :
  sent (tick W st).2
  = if Bool.eqb (isRecording (tick W st).1) (isRecording st) then []
    else [if isRecording (tick W st).1 then StartRecording
          else StopRecording].
Proof.
  unfold tick. pose proof (tickBody_sent W st (loopCount st + 1)) as Hbody.
  destruct (tickBody W st (loopCount st + 1)) as [[recording' effects] threw].
  cbn [fst snd isRecording]. rewrite !sent_app, Hbody.
  destruct threw, (_ && _); cbn; now rewrite app_nil_r.
Qed.

Lemma tick_replay W st :
  replay (isRecording st) (sent (tick W st).2)
  = Some (isRecording (tick W st).1).
Proof.
  rewrite tick_sent.
  now destruct (isRecording (tick W st).1), (isRecording st).
Qed.

End MonitorFacts.

(** X6. When the hidden window takes messages, a tick leaves the recording
    flag equal to "the target application runs and its call process uses
    more memory than the threshold", and it sends the one signal that this
    change of the flag needs, or none when nothing changes. In particular a
    recording is stopped when the application has gone. *)
Theorem tick_tracks_call_state (W : Monitor.world) (st : Monitor.state) :
  Monitor.windowAlive W = true ->
  let inCall :=
    Monitor.isZaloRunning (Monitor.tasklist W)
    && (Sampler.checkZaloMemory (Monitor.zaloCallQuery W)
        >? Monitor.threshold W) in
  Monitor.isRecording (Monitor.tick W st).1 = inCall /\
  Monitor.sent (Monitor.tick W st).2
  = if Bool.eqb inCall (Monitor.isRecording st) then []
    else [if inCall then Monitor.StartRecording else Monitor.StopRecording].
Proof.
  intros Halive. cbv zeta.
  assert (Hflag :
    Monitor.isRecording (Monitor.tick W st).1
    = Monitor.isZaloRunning (Monitor.tasklist W)
      && (Sampler.checkZaloMemory (Monitor.zaloCallQuery W)
          >? Monitor.threshold W)).
  { unfold Monitor.tick, Monitor.tickBody, Sampler.checkZaloCallStatusMemory.
    cbn [Sampler.isInCall]. rewrite Halive.
    destruct (Monitor.isZaloRunning _), (Monitor.isRecording st), (_ >? _);
      reflexivity. }
  split; [exact Hflag|]. now rewrite MonitorFacts.tick_sent, Hflag.
Qed.

Lemma tick_tracks_call_state_witness :
  Monitor.isRecording (Monitor.tick callWorld Monitor.initial).1 = true /\
  Monitor.sent (Monitor.tick callWorld Monitor.initial).2
  = [Monitor.StartRecording].
Proof.
  apply (tick_tracks_call_state callWorld Monitor.initial). reflexivity.
Defined.

(** X7. Over any number of ticks, whatever they meet, the signals sent to
    the capture surface alternate: a start is sent only while the flag says
    "not recording" and a stop only while it says "recording", and the flag
    at the end is the one the signals leave. No two starts follow each
    other without a stop between them. *)
Theorem signals_alternate (Ws : list Monitor.world) (st : Monitor.state) :
  replay (Monitor.isRecording st) (Monitor.sent (Monitor.run Ws st).2)
  = Some (Monitor.isRecording (Monitor.run Ws st).1).
Proof.
  revert st. induction Ws as [|W Ws IH]; intros st; [reflexivity|].
  cbn [Monitor.run].
  pose proof (MonitorFacts.tick_replay W st) as Htick.
  destruct (Monitor.tick W st) as [st1 effects1].
  specialize (IH st1).
  destruct (Monitor.run Ws st1) as [st2 effects2].
  cbn [fst snd] in *.
  now rewrite MonitorFacts.sent_app, MonitorFacts.replay_app, Htick.
Qed.

(** X8. Every tick, in a call or not, first emits one heartbeat that carries
    the incremented loop count, and sends at most one signal. When the
    hidden window does not take the signal, nothing is sent and the
    recording flag stays as it was, so that the next tick tries again. *)
Theorem tick_heartbeat_and_retry (W : Monitor.world) (st : Monitor.state) :
  Monitor.loopCount (Monitor.tick W st).1 = Monitor.loopCount st + 1 /\
  (exists rest,
     (Monitor.tick W st).2
     = Monitor.EHeartbeat (Monitor.loopCount st + 1) :: rest /\
     forall n, ~ In (Monitor.EHeartbeat n) rest) /\
  (length (Monitor.sent (Monitor.tick W st).2) <= 1)%nat /\
  (Monitor.windowAlive W = false ->
   Monitor.isRecording (Monitor.tick W st).1 = Monitor.isRecording st /\
   Monitor.sent (Monitor.tick W st).2 = []).
Proof.
  split; [|split; [|split]].
  - unfold Monitor.tick. now destruct (Monitor.tickBody _ _ _) as [[? ?] ?].
  - unfold Monitor.tick, Monitor.tickBody.
    destruct (Monitor.isZaloRunning _), (Monitor.isRecording st),
      (Sampler.isInCall _), (Monitor.windowAlive W), (Z.rem _ 100 =? 0),
      (_ && (Z.rem _ 1200 =? 0));
      cbn; eexists; (split; [reflexivity|]); cbn; intuition discriminate.
  - rewrite MonitorFacts.tick_sent. destruct (Bool.eqb _ _); cbn; lia.
  - intros Hdeaf.
    assert (Hflag : Monitor.isRecording (Monitor.tick W st).1
                    = Monitor.isRecording st).
    { unfold Monitor.tick, Monitor.tickBody. rewrite Hdeaf.
      destruct (Monitor.isZaloRunning _), (Monitor.isRecording st),
        (Sampler.isInCall _); reflexivity. }
    split; [exact Hflag|].
    rewrite MonitorFacts.tick_sent, Hflag. now rewrite eqb_reflx.
Qed.

Lemma tick_heartbeat_and_retry_witness :
  Monitor.isRecording (Monitor.tick deafWorld Monitor.initial).1 = false /\
  Monitor.sent (Monitor.tick deafWorld Monitor.initial).2 = [].
Proof.
  apply (tick_heartbeat_and_retry deafWorld Monitor.initial). reflexivity.
Defined.

(** ** Reloading the configuration *)

Module ReloadFacts.
Import JsString Config.

(** A line acts on the globals by what it installs, whatever they hold. *)
Lemma processLine_fields st line :
  MEMORY_CALL_THRESHOLD_KB (processLine st line) = MEMORY_CALL_THRESHOLD_KB st /\
  installThreshold (processLine st line)
  = match lineThreshold line with
    | Some v => Some v
    | None => installThreshold st
    end /\
  installNameCode (processLine st line)
  = match lineNameCode line with
    | Some c => Some c
    | None => installNameCode st
    end.
Proof.
  unfold lineThreshold, lineNameCode, processLine.
  destruct (_ || _); [now repeat split|].
  destruct (indexOf "=" (trim line)) as [i|]; [|now repeat split].
  cbv zeta.
  destruct (bool_decide (trim (take i (trim line)) = "MEMORY_CALL_THRESHOLD_KB"));
    [destruct (parseInt _ 10)|];
    destruct (bool_decide (trim (take i (trim line)) = "NAME_CODE"));
    now repeat split.
Qed.

Lemma fold_memory ls : forall st,
  MEMORY_CALL_THRESHOLD_KB (fold_left processLine ls st)
  = MEMORY_CALL_THRESHOLD_KB st.
Proof.
  induction ls as [|l ls IH]; intros st; [reflexivity|].
  cbn [fold_left]. rewrite IH. apply processLine_fields.
Qed.

(** The lines install the same threshold from two states that hold what
    the lines would install anyway; and the same name code. *)
Lemma fold_installThreshold ls : forall st st2,
  installThreshold st2 = installThreshold (fold_left processLine ls st) ->
  installThreshold (fold_left processLine ls st2)
  = installThreshold (fold_left processLine ls st).
Proof.
  induction ls as [|l ls IH] using rev_ind; intros st st2 H; [exact H|].
  rewrite !fold_left_app in *. cbn [fold_left] in *.
  destruct (processLine_fields (fold_left processLine ls st) l)
    as (_ & H1 & _).
  destruct (processLine_fields (fold_left processLine ls st2) l)
    as (_ & H2 & _).
  rewrite H1 in *. rewrite H2.
  destruct (lineThreshold l); [reflexivity|]. now rewrite (IH st st2).
Qed.

Lemma fold_installNameCode ls : forall st st2,
  installNameCode st2 = installNameCode (fold_left processLine ls st) ->
  installNameCode (fold_left processLine ls st2)
  = installNameCode (fold_left processLine ls st).
Proof.
  induction ls as [|l ls IH] using rev_ind; intros st st2 H; [exact H|].
  rewrite !fold_left_app in *. cbn [fold_left] in *.
  destruct (processLine_fields (fold_left processLine ls st) l)
    as (_ & _ & H1).
  destruct (processLine_fields (fold_left processLine ls st2) l)
    as (_ & _ & H2).
  rewrite H1 in *. rewrite H2.
  destruct (lineNameCode l); [reflexivity|]. now rewrite (IH st st2).
Qed.

Lemma loadConfigFiles_fields cfg file st :
  loadConfigFiles cfg file st
  = {| MEMORY_CALL_THRESHOLD_KB :=
         match installThreshold (afterLines file st) with
         | Some v => v
         | None => fallbackThreshold cfg
         end;
       installThreshold := installThreshold (afterLines file st);
       installNameCode := installNameCode (afterLines file st) |}.
Proof.
  unfold loadConfigFiles. fold (afterLines file st).
  destruct (afterLines file st) as [m t c]. cbn.
  destruct t as [v|]; [reflexivity|].
  destruct (m =? fallbackThreshold cfg) eqn:E; cbn; [|reflexivity].
  apply Z.eqb_eq in E. now rewrite E.
Qed.

End ReloadFacts.

(** X9. Reloading the configuration is idempotent: a second load of the
    same file, with nothing written in between, changes none of the
    globals, whatever the file holds and whatever the globals were. *)
Theorem loadConfigFiles_idempotent (cfg : option Z)
    (file : Config.config_file) (st : Config.state) :
  Config.loadConfigFiles cfg file (Config.loadConfigFiles cfg file st)
  = Config.loadConfigFiles cfg file st.
Proof.
  rewrite (ReloadFacts.loadConfigFiles_fields cfg file st).
  set (once := {| Config.MEMORY_CALL_THRESHOLD_KB := _ |}).
  rewrite (ReloadFacts.loadConfigFiles_fields cfg file once).
  assert (Ht : Config.installThreshold (afterLines file once)
               = Config.installThreshold (afterLines file st)).
  { destruct file; try reflexivity.
    now apply ReloadFacts.fold_installThreshold. }
  assert (Hn : Config.installNameCode (afterLines file once)
               = Config.installNameCode (afterLines file st)).
  { destruct file; try reflexivity.
    now apply ReloadFacts.fold_installNameCode. }
  now rewrite Ht, Hn.
Qed.

(** X10. A threshold that was read from the file once stays in force: a
    later load that finds the file missing, unreadable or without a valid
    threshold line keeps it, and does not go back to the threshold of the
    static configuration. *)
Theorem installed_threshold_is_kept (cfg : option Z)
    (file : Config.config_file) (st : Config.state) (v : Z) :
  Config.installThreshold st = Some v ->
  givesNoThreshold file ->
  Config.MEMORY_CALL_THRESHOLD_KB (Config.loadConfigFiles cfg file st) = v /\
  Config.installThreshold (Config.loadConfigFiles cfg file st) = Some v.
Proof.
  intros Hv Hfile.
  rewrite ReloadFacts.loadConfigFiles_fields. cbn.
  assert (Ht : Config.installThreshold (afterLines file st) = Some v).
  { destruct file; try exact Hv. cbn in *.
    now rewrite ConfigFacts.fold_keepsThreshold. }
  now rewrite Ht.
Qed.

Lemma installed_threshold_is_kept_witness :
  Config.MEMORY_CALL_THRESHOLD_KB
    (Config.loadConfigFiles None Config.Missing
       (Config.loadConfigFiles None (Config.Content (thresholdLine 5))
          (Config.initial None))) = 5 /\
  Config.installThreshold
    (Config.loadConfigFiles None Config.Missing
       (Config.loadConfigFiles None (Config.Content (thresholdLine 5))
          (Config.initial None))) = Some 5.
Proof.
  apply (installed_threshold_is_kept None Config.Missing
           (Config.loadConfigFiles None (Config.Content (thresholdLine 5))
              (Config.initial None)) 5).
  - vm_compute. reflexivity.
  - exact I.
Defined.

(** ** More on the API client *)

(** X11. With the API's base URL not set (missing, empty or containing
    "undefined") and an endpoint that is no full URL, [callApi] answers
    [false] without consulting the network: no request is made. *)
Theorem callApi_without_base_url (net : network) (apiUrl endpoint : jsval)
    (method0 : string) (data0 : jsval) (customHeaders : list (string * jsval))
    (timeout0 : Z) :
  isRelativeEndpoint endpoint = true ->
  apiUrlNotSet apiUrl = true ->
  Api.callApi net apiUrl endpoint method0 data0 customHeaders timeout0
  = Ret (VBool false).
Proof.
  intros Hrel Hunset.
  assert (Hpath : exists path, Js.ToString endpoint = Ret path).
  { destruct endpoint; try discriminate Hrel; cbn; eauto. }
  assert (Hbase : exists base, Js.ToString apiUrl = Ret base).
  { destruct apiUrl; try discriminate Hunset; cbn; eauto. }
  destruct Hpath as [path Hpath]. destruct Hbase as [base Hbase].
  unfold Api.callApi, Api.callApiBody, Js.bind, Js.tryCatch. cbv zeta.
  assert (Hfirst :
    (if Js.truthy endpoint
     then match endpoint with
          | VStr e => Ret (JsString.startsWith "http://" e
                           || JsString.startsWith "https://" e)
          | _ => Throw (Js.typeError "endpoint.startsWith is not a function")
          end
     else Ret false) = Ret false).
  { unfold isRelativeEndpoint, isFullUrl in Hrel.
    destruct (Js.truthy endpoint); [|reflexivity]. cbn [negb orb] in Hrel.
    destruct endpoint; try discriminate Hrel.
    apply negb_true_iff in Hrel. now rewrite Hrel. }
  rewrite Hfirst, Hbase, Hpath. unfold apiUrlNotSet in Hunset.
  destruct (Js.truthy apiUrl); [|reflexivity]. cbn [negb orb] in Hunset.
  destruct apiUrl; try discriminate Hunset. now rewrite Hunset.
Qed.

Lemma callApi_without_base_url_witness :
  Api.callApi echoNetwork VUndefined (VStr "functions/v1/report-status")
    "POST" (VObj [("is_online", VBool true)]) [] 10000
  = Ret (VBool false).
Proof.
  apply (callApi_without_base_url echoNetwork VUndefined
           (VStr "functions/v1/report-status")); reflexivity.
Defined.

(** X12. A request to a full URL does not depend on the API's base URL,
    not even on whether one is set; it goes to that URL as it is, with the
    method in upper case and the timeout given. A method other than POST,
    PUT and PATCH carries no body, and a buffer as body is sent with the
    caller's headers only (no JSON content type) and without a limit of
    size. *)
Theorem callApi_full_url_request (apiUrl apiUrl' : jsval) (u method0 : string)
    (data0 : jsval) (customHeaders : list (string * jsval)) (timeout0 : Z) :
  isFullUrl (VStr u) = true ->
  exists c,
    (forall net,
       Api.callApi net apiUrl (VStr u) method0 data0 customHeaders timeout0
       = Js.tryCatch (net c) (fun e => Ret e) /\
       Api.callApi net apiUrl' (VStr u) method0 data0 customHeaders timeout0
       = Js.tryCatch (net c) (fun e => Ret e)) /\
    url c = u /\
    method c = JsString.toUpperCase method0 /\
    timeout c = timeout0 /\
    (Api.sendsBody (JsString.toUpperCase method0) = false -> data c = None) /\
    (Api.isBuffer data0 = true ->
     headers c = customHeaders /\ unlimitedBody c = true).
Proof.
  intros Hfull. cbn [isFullUrl] in Hfull.
  assert (Hu : Js.truthy (VStr u) = true) by (now destruct u).
  eexists. split; [|split; [|split; [|split; [|split]]]].
  - intros net. unfold Api.callApi, Api.callApiBody, Js.bind.
    rewrite Hu, Hfull. split; reflexivity.
  - reflexivity.
  - reflexivity.
  - reflexivity.
  - cbn [data]. intros ->. now rewrite andb_false_r.
  - cbn [headers unlimitedBody]. intros Hbuffer.
    destruct data0; try discriminate Hbuffer.
    cbn [Api.isBuffer Api.dataOrNull negb].
    now rewrite andb_false_r, andb_false_l.
Qed.

Lemma callApi_full_url_request_witness :
  exists c,
    (forall net,
       Api.callApi net VUndefined (VStr "https://bucket.example.com/put") "put"
         (VBuffer "bytes") [("Content-Type", VStr "audio/mpeg")] 60000
       = Js.tryCatch (net c) (fun e => Ret e) /\
       Api.callApi net (VStr "https://api.example.com")
         (VStr "https://bucket.example.com/put") "put"
         (VBuffer "bytes") [("Content-Type", VStr "audio/mpeg")] 60000
       = Js.tryCatch (net c) (fun e => Ret e)) /\
    url c = "https://bucket.example.com/put" /\
    method c = JsString.toUpperCase "put" /\
    timeout c = 60000 /\
    (Api.sendsBody (JsString.toUpperCase "put") = false -> data c = None) /\
    (Api.isBuffer (VBuffer "bytes") = true ->
     headers c = [("Content-Type", VStr "audio/mpeg")] /\
     unlimitedBody c = true).
Proof.
  apply (callApi_full_url_request VUndefined (VStr "https://api.example.com")
           "https://bucket.example.com/put" "put").
  reflexivity.
Defined.

(** ** More on the upload *)

(** X13. An upload of a file that is not there is rejected at once: the
    handler throws "File not found" with the path, whatever the network
    would answer and whatever the configuration and the time parameters
    are. *)
Theorem uploadFile_missing_file `{Runtime} (H0 : host) (cfg : appConfig)
    (net : network) (timeParams : jsval) (filePath : string)
    (fs : filesystem) :
  fs !! filePath = None \/ filePath = "" ->
  (Upload.uploadFile H0 cfg net timeParams filePath fs).1
  = Throw (Js.newError ("File not found: " +:+ filePath)).
Proof.
  intros Hmissing.
  unfold Upload.uploadFile, Fs.tryCatch, Fs.bind, Fs.existsSync, Fs.throw.
  destruct Hmissing as [Hnone| ->].
  - rewrite Hnone.
    rewrite (bool_decide_eq_false_2 (is_Some None))
      by (intros [? ?]; discriminate).
    cbn [negb]. now rewrite orb_true_r.
  - reflexivity.
Qed.

Lemma uploadFile_missing_file_witness :
  (@Upload.uploadFile exampleRuntime workingHost sampleConfig
     (sampleNetwork true) sampleTimes mp3Path ∅).1
  = Throw (Js.newError ("File not found: " +:+ mp3Path)).
Proof.
  apply (@uploadFile_missing_file exampleRuntime). left. reflexivity.
Defined.




(** X15. When the upload handler reports success and the deletion of the
    local file does not fail, the local file is gone afterwards. *)
Theorem uploadFile_success_deletes `{Runtime} (H0 : host) (cfg : appConfig)
    (net : network) (timeParams : jsval) (filePath : string)
    (fs fs' : filesystem) :
  Upload.uploadFile H0 cfg net timeParams filePath fs = (Ret true, fs') ->
  unlinkFails (faults H0) filePath = false ->
  fs' !! filePath = None.
Proof.
  intros Hrun Hunlink. revert Hrun.
  unfold Upload.uploadFile, Fs.tryCatch, Fs.bind, Fs.lift, Fs.existsSync,
    Fs.readFileSync, Fs.unlinkSync, Fs.ret, Fs.throw.
  rewrite Hunlink.
  split_cases; intros [= <-];
    repeat match goal with
           | H : (_, _) = (_, _) |- _ => injection H as ? ?; subst
           end;
    try discriminate;
    try apply lookup_delete_eq.
  all: match goal with
       | H : bool_decide (is_Some ?x) = false, E : ?x = Some _ |- _ =>
           rewrite E in H;
           apply bool_decide_eq_false_1 in H; elim H; eauto
       end.
Qed.

Lemma uploadFile_success_deletes_witness :
  (@Upload.uploadFile exampleRuntime workingHost sampleConfig
     (sampleNetwork true) sampleTimes mp3Path diskWithMp3).2 !! mp3Path
  = None.
Proof.
  apply (@uploadFile_success_deletes exampleRuntime workingHost sampleConfig
           (sampleNetwork true) sampleTimes mp3Path diskWithMp3).
  - apply pair_from_fst. vm_compute. reflexivity.
  - reflexivity.
Defined.

Lemma uploadFile_success_needs_commit_witness :
  exists record saveHistoryResponse,
    Api.callApi (sampleNetwork true) (API_URL sampleConfig)
      (SAVE_HISTORY_API sampleConfig) "POST" record
      [("x-api-token", SALE_TOKEN sampleConfig)] 10000
    = Ret saveHistoryResponse /\
    Js.truthy (Js.optProp saveHistoryResponse "success") = true.
Proof.
  apply (@uploadFile_success_needs_commit exampleRuntime workingHost
           sampleConfig (sampleNetwork true) sampleTimes mp3Path diskWithMp3
           (@Upload.uploadFile exampleRuntime workingHost sampleConfig
              (sampleNetwork true) sampleTimes mp3Path diskWithMp3).2).
  apply pair_from_fst. vm_compute. reflexivity.
Defined.

(** ** More on the conversion and on saving *)

Lemma convertToMP3_succeeds_witness :
  Conversion.convertToMP3 workingHost webmPath mp3Path diskWithWebm
  = (Ret mp3Path, <[mp3Path := File "ID3-mp3-bytes"]> diskWithWebm).
Proof.
  apply (convertToMP3_succeeds workingHost webmPath mp3Path diskWithWebm
           (Some "ID3-mp3-bytes")).
  - exists (File "webm-bytes"). split; [vm_compute; reflexivity|discriminate].
  - exists (File "MZ"). vm_compute. reflexivity.
  - reflexivity.
  - exists (File "ID3-mp3-bytes"). split; [apply lookup_insert_eq|discriminate].
  - reflexivity.
  - reflexivity.
Defined.

(** X19. A payload that is no data URL is refused before the folder of the
    day is made: the [save-file] handler throws, and the path of that folder
    holds what it held before, nothing if the folder was not there. *)
Theorem saveFile_refuses_bad_payload `{Runtime} (H0 : host)
    (filename : string) (dataUrl : jsval) (fs : filesystem) :
  notDataUrl dataUrl ->
  let dateDir := path_join (OUTPUT_DIR H0) (dateFolder H0) in
  (exists e, (Conversion.saveFile H0 filename dataUrl fs).1 = Throw e) /\
  (Conversion.saveFile H0 filename dataUrl fs).2 !! dateDir = fs !! dateDir.
Proof.
  intros Hbad.
  unfold Conversion.saveFile, Conversion.saveTemp, Fs.tryCatch, Fs.bind,
    Fs.throw.
  destruct dataUrl as [| |b|n|u|bytes|fields]; cbn [notDataUrl] in Hbad;
    try (cbn; eauto; fail).
  - destruct b; cbn; eauto.
  - destruct n; cbn; eauto.
  - rewrite Hbad. cbn [negb]. rewrite orb_true_r. cbn. eauto.
Qed.

Lemma saveFile_refuses_bad_payload_witness :
  (exists e,
     (@Conversion.saveFile exampleRuntime workingHost "call.mp3"
        (VStr "GkXfow==") diskWithTool).1 = Throw e) /\
  (@Conversion.saveFile exampleRuntime workingHost "call.mp3"
     (VStr "GkXfow==") diskWithTool).2
  !! "C:/Users/me/Documents/recordings/14_11_2023"
  = None.
Proof.
  apply (@saveFile_refuses_bad_payload exampleRuntime workingHost "call.mp3"
           (VStr "GkXfow==") diskWithTool).
  reflexivity.
Defined.

Module SaveNameFacts.
Import JsString Conversion.

Lemma replaceFirst_absent pat rep s :
  includes pat s = false -> replaceFirst pat rep s = s.
Proof.
  induction s as [|c s IH]; cbn [includes replaceFirst];
    intros [Hprefix Htail]%orb_false_iff; rewrite Hprefix; [reflexivity|].
  now rewrite (IH Htail).
Qed.

Lemma saveTemp_paths `{Runtime} (H0 : host) (filename : string)
    (dataUrl : jsval) (fs fs1 : filesystem) (dateDir tempFilePath : string) :
  saveTemp H0 filename dataUrl fs = (Ret (dateDir, tempFilePath), fs1) ->
  dateDir = path_join (OUTPUT_DIR H0) (dateFolder H0) /\
  tempFilePath = path_join dateDir (replaceFirst ".mp3" ".webm" filename).
Proof.
  unfold saveTemp, Fs.bind, Fs.existsSync, Fs.statSize, Fs.writeFileSync,
    Fs.mkdirSync, Fs.ret, Fs.throw.
  split_cases; intros [= <- <- <-]; now split.
Qed.

(** When the temporary file and the output file are the same path, the
    clean-up deletes the output and the handler cannot report it. *)
Lemma convertAndClean_same_path `{Runtime} (H0 : host)
    (filename dateDir tempFilePath : string) (fs1 : filesystem)
    (content : string) :
  fs1 !! tempFilePath = Some (File content) ->
  unlinkFails (faults H0) tempFilePath = false ->
  path_join dateDir filename = tempFilePath ->
  exists e, (convertAndClean H0 filename dateDir tempFilePath fs1).1 = Throw e.
Proof.
  intros Hfile Hunlink Hsame. unfold convertAndClean. rewrite Hsame.
  unfold Fs.bind at 1. unfold Fs.tryCatch at 1. unfold Fs.bind at 1.
  destruct (convertToMP3 H0 tempFilePath tempFilePath fs1) as [r fs2] eqn:Hconv.
  destruct (ConversionFacts.convertToMP3_keeps_files _ _ _ _ _ _ _ _
              Hconv Hfile) as [content' Hfile'].
  destruct r as [p|err].
  - unfold Fs.ret at 1. unfold Fs.bind, Fs.tryCatch, Fs.unlinkSync, Fs.statSize,
      Fs.ret.
    rewrite Hfile', Hunlink, lookup_delete_eq. cbn. eauto.
  - unfold Fs.bind, Fs.tryCatch, Fs.existsSync, Fs.unlinkSync, Fs.ret,
      Fs.throw.
    rewrite bool_decide_eq_true_2 by (rewrite Hfile'; eauto).
    rewrite Hfile', Hunlink. cbn. eauto.
Qed.

End SaveNameFacts.

(** X20. The [save-file] handler cannot succeed for a file name without
    [.mp3] in it: the temporary file then has the path of the output file,
    and the clean-up deletes what the conversion wrote. Unless that deletion
    fails, every such call ends in an exception. *)
Theorem saveFile_needs_mp3_name `{Runtime} (H0 : host) (filename : string)
    (dataUrl : jsval) (fs : filesystem) :
  JsString.includes ".mp3" filename = false ->
  unlinkFails (faults H0)
    (path_join (path_join (OUTPUT_DIR H0) (dateFolder H0)) filename) = false ->
  exists e, (Conversion.saveFile H0 filename dataUrl fs).1 = Throw e.
Proof.
  intros Hname Hunlink.
  unfold Conversion.saveFile, Fs.tryCatch, Fs.bind, Fs.throw.
  destruct (Conversion.saveTemp H0 filename dataUrl fs)
    as [[[dateDir tempFilePath]|e] fs1] eqn:Htemp; [|cbn; eauto].
  destruct (SaveNameFacts.saveTemp_paths _ _ _ _ _ _ _ Htemp) as [Hdir Hpath].
  rewrite (SaveNameFacts.replaceFirst_absent _ _ _ Hname) in Hpath.
  destruct (SaveFacts.saveTemp_writes_file _ _ _ _ _ _ _ Htemp)
    as [content Hfile].
  cbn [fst snd].
  destruct (SaveNameFacts.convertAndClean_same_path H0 filename dateDir
              tempFilePath fs1 content Hfile) as [e He].
  - now rewrite Hpath, Hdir.
  - now rewrite Hpath.
  - destruct (Conversion.convertAndClean _ _ _ _ _) as [[v|e'] fs2];
      cbn in *; [discriminate|eauto].
Qed.

Lemma saveFile_needs_mp3_name_witness :
  exists e,
    (@Conversion.saveFile exampleRuntime workingHost "call.wav"
       sampleDataUrl diskWithTool).1 = Throw e.
Proof.
  apply (@saveFile_needs_mp3_name exampleRuntime workingHost "call.wav");
    reflexivity.
Defined.

(** ** More on the capture surface *)

Module PipelineFacts.
Import Renderer.

Lemma ondataavailable_positive size st :
  allPositive (audioChunks st) ->
  allPositive (audioChunks (ondataavailable size st)).
Proof.
  unfold ondataavailable, allPositive. intros Hst.
  destruct (0 <? size) eqn:E; [|exact Hst]. cbn [audioChunks].
  apply Forall_app. split; [exact Hst|]. repeat constructor.
  now apply Z.ltb_lt.
Qed.

Lemma lateData_positive sizes : forall st,
  allPositive (audioChunks st) ->
  allPositive (audioChunks
              (fold_left (fun s size => ondataavailable size s) sizes st)).
Proof.
  induction sizes as [|size sizes IH]; intros st Hst; [exact Hst|].
  cbn [fold_left]. now apply IH, ondataavailable_positive.
Qed.

Lemma accumulated_positive S st :
  allPositive (audioChunks st) -> allPositive (accumulated S st).
Proof.
  unfold accumulated. intros Hst.
  destruct (_ && _); [now apply lateData_positive|exact Hst].
Qed.

Lemma sum_positive chunks :
  allPositive chunks -> chunks <> [] -> 0 < sum chunks.
Proof.
  unfold allPositive, sum. induction 1 as [|c chunks Hc Hchunks IH];
    [congruence|]. intros _. cbn [fold_right].
  destruct chunks as [|c' chunks]; [cbn; lia|].
  assert (0 < fold_right Z.add 0 (c' :: chunks)) by now apply IH.
  lia.
Qed.

Lemma startRecording_chunks E st :
  allPositive (audioChunks st) ->
  allPositive (audioChunks (startRecording E st).1).
Proof.
  unfold startRecording, allPositive. intros Hst.
  destruct (recording st); [exact Hst|].
  destruct (negb (contextCreated E)); [constructor|].
  destruct (connectMicrophone E) as [mic micEvents].
  destruct (connectSystemAudio E) as [sys sysEvents].
  destruct (negb mic && negb sys); [constructor|].
  destruct (find _ _); [|constructor].
  destruct (negb (recorderConstructed E)); [constructor|].
  destruct (negb (recorderStarts E)); constructor.
Qed.

Lemma startRecording_no_blob_log E st :
  ~ In (ELog "Blob is empty!") (startRecording E st).2.
Proof.
  unfold startRecording, connectMicrophone, connectSystemAudio.
  split_cases; cbn; intuition discriminate.
Qed.

Lemma stopRecording_no_blob_log S st :
  allPositive (audioChunks st) ->
  ~ In (ELog "Blob is empty!") (stopRecording S st).2.
Proof.
  intros Hst. unfold stopRecording.
  destruct (negb (recording st)); [now cbn|]. cbn [snd].
  pose proof (accumulated_positive S st Hst) as Hacc.
  intros [Hin|Hin]%in_app_or.
  - unfold finalizeEvents in Hin.
    destruct (recorderLive st), (stopThrows S), (stopAcknowledged S);
      cbn in Hin; intuition discriminate.
  - destruct (0 <? length (accumulated S st))%nat eqn:Hlen;
      [|cbn in Hin; intuition discriminate].
    assert (Hne : accumulated S st <> []).
    { intros E. rewrite E in Hlen. discriminate. }
    pose proof (sum_positive _ Hacc Hne) as Hsum.
    unfold saveAndUpload in Hin.
    destruct (sum (accumulated S st) =? 0) eqn:Hzero;
      [apply Z.eqb_eq in Hzero; lia|].
    revert Hin. split_cases; cbn; intuition discriminate.
Qed.

End PipelineFacts.

(** X21. Whatever signals and data events reach the capture surface, in
    whatever order, every chunk it keeps has a positive size; so the blob
    made of the chunks at a stop is never empty, and the error "Blob is
    empty!" is never logged. *)
Theorem chunks_are_never_empty (inputs : list pipelineInput) :
  Forall (fun c => 0 < c)
    (Renderer.audioChunks (pipelineRun inputs Renderer.initial).1) /\
  ~ In (Renderer.ELog "Blob is empty!")
      (pipelineRun inputs Renderer.initial).2.
Proof.
  assert (Hgen : forall st,
    allPositive (Renderer.audioChunks st) ->
    allPositive (Renderer.audioChunks (pipelineRun inputs st).1) /\
    ~ In (Renderer.ELog "Blob is empty!") (pipelineRun inputs st).2).
  { induction inputs as [|i inputs IH]; intros st Hst;
      [split; [exact Hst|now cbn]|].
    cbn [pipelineRun].
    assert (Hstep :
      allPositive (Renderer.audioChunks (pipelineStep st i).1) /\
      ~ In (Renderer.ELog "Blob is empty!") (pipelineStep st i).2).
    { destruct i as [E|size|S]; cbn [pipelineStep fst snd].
      - split; [now apply PipelineFacts.startRecording_chunks
               |apply PipelineFacts.startRecording_no_blob_log].
      - split; [now apply PipelineFacts.ondataavailable_positive|now cbn].
      - split; [|now apply PipelineFacts.stopRecording_no_blob_log].
        unfold Renderer.stopRecording.
        destruct (negb (Renderer.recording st)); [exact Hst|constructor]. }
    destruct (pipelineStep st i) as [st1 events1]. cbn [fst snd] in Hstep.
    destruct Hstep as [Hst1 Hev1]. specialize (IH st1 Hst1).
    destruct (pipelineRun inputs st1) as [st2 events2]. cbn [fst snd] in *.
    destruct IH as [Hst2 Hev2]. split; [exact Hst2|].
    intros [Hin|Hin]%in_app_or; contradiction. }
  apply Hgen. constructor.
Qed.

(** X22. At a stop the capture surface asks the controller for nothing, for
    a save only, or for a save and then an upload, in this order and each at
    most once. It asks for the upload only after the save was answered, and
    with the path that the answer holds. *)
Theorem stop_requests_in_order (S : Renderer.stopping) (st : Renderer.state) :
  let asked := requests (Renderer.stopRecording S st).2 in
  asked = [] \/
  (exists saved, asked = [("save-file", saved)]) \/
  (exists saved uploaded answer,
     asked = [("save-file", saved); ("upload-file", uploaded)] /\
     Renderer.saveFileAnswer S saved = Ret answer /\
     Js.getProp answer "path" = Js.getProp uploaded "filePath").
Proof.
  cbv zeta. unfold Renderer.stopRecording.
  destruct (negb (Renderer.recording st)); [now left|]. cbn [snd].
  assert (Hfinal : requests (Renderer.finalizeEvents S st) = []).
  { unfold Renderer.finalizeEvents.
    now destruct (Renderer.recorderLive st), (Renderer.stopThrows S),
      (Renderer.stopAcknowledged S). }
  unfold requests in *. rewrite omap_app, Hfinal. cbn [app].
  destruct (0 <? length _)%nat; [|now left].
  unfold Renderer.saveAndUpload.
  destruct (Renderer.sum _ =? 0); [now left|].
  destruct (Renderer.dataUrl S _) as [audioData|e]; [|now left].
  destruct (Renderer.saveFileAnswer S _) as [answer|e] eqn:Hsave;
    [|right; left; cbn; eauto].
  destruct (Js.getProp answer "path") as [path|e] eqn:Hpath;
    [|right; left; cbn; eauto].
  right; right.
  destruct (Renderer.uploadFileAnswer S _);
    cbn; do 3 eexists; (split; [reflexivity|]); (split; [exact Hsave|]);
    rewrite Hpath; reflexivity.
Qed.

(** ** More on the memory sampler *)

Module TableFacts.
Import JsString ParseFacts StringFacts Sampler SamplerFacts.

Lemma split_cons pre rest :
  strAll notLineFeed pre = true ->
  split "010" (pre +:+ String "010" rest) = pre :: split "010" rest.
Proof.
  induction pre as [|c pre IH]; [reflexivity|].
  cbn [strAll]. unfold notLineFeed at 1.
  intros [Hc Hpre]%andb_true_iff. apply negb_true_iff in Hc.
  change (String c pre +:+ ?u) with (String c (pre +:+ u)).
  cbn [split]. now rewrite Hc, (IH Hpre).
Qed.

Lemma split_length sep s : (length (split sep s) =? 0)%nat = false.
Proof.
  destruct s as [|c s]; [reflexivity|]. cbn [split].
  destruct (Ascii.eqb c sep); [reflexivity|].
  now destruct (split sep s).
Qed.

Lemma notWs_notLineFeed c : notWs c = true -> notLineFeed c = true.
Proof.
  unfold notLineFeed. destruct (Ascii.eqb_spec c "010") as [->|]; [|reflexivity].
  discriminate.
Qed.

Lemma notWs_startsNonWs w rest :
  strAll notWs w = true -> w <> "" -> startsNonWs (w +:+ rest) = true.
Proof.
  destruct w as [|c w]; [congruence|]. cbn [strAll].
  now intros [Hc _]%andb_true_iff _.
Qed.

Lemma trimEnd_token w :
  strAll notWs w = true -> w <> "" -> trimEnd (w +:+ " K") = w +:+ " K".
Proof. intros _ _. now rewrite trimEnd_app_keep by discriminate. Qed.

Lemma memUsageStr_token w :
  strAll notWs w = true -> w <> "" ->
  memUsageStr ("ZaloCall.exe 1234 Console 1 " +:+ w +:+ " K") = w +:+ " K".
Proof.
  intros Hw Hne. unfold memUsageStr, trim.
  change (trimStart ("ZaloCall.exe 1234 Console 1 " +:+ w +:+ " K"))
    with ("ZaloCall.exe 1234 Console 1 " +:+ (w +:+ " K")).
  rewrite trimEnd_app_keep; rewrite (trimEnd_token w Hw Hne);
    [|destruct w; [congruence|discriminate]].
  change ("ZaloCall.exe 1234 Console 1 " +:+ (w +:+ " K"))
    with ("ZaloCall.exe" +:+ String " " ("1234" +:+ String " "
            ("Console" +:+ String " " ("1" +:+ String " " (w +:+ " K"))))).
  rewrite !splitWs_word
    by first [reflexivity | discriminate | now apply notWs_startsNonWs].
  rewrite (splitWs_last _ Hw). reflexivity.
Qed.

Lemma checkZaloMemory_token w :
  strAll notWs w = true -> w <> "" ->
  checkZaloMemory (tasklistRow w)
  = from_option id 0 (parseInt (removeChars isCommaOrK w +:+ " ") 0).
Proof.
  intros Hw Hne. unfold checkZaloMemory, tasklistRow.
  rewrite split_one.
  - cbn [length Nat.eqb find].
    change (isZaloCallRow ("ZaloCall.exe 1234 Console 1 " +:+ w +:+ " K"))
      with (includes "zalocall.exe"
              ("zalocall.exe 1234 console 1 " +:+ toLowerCase (w +:+ " K"))).
    change (includes "zalocall.exe"
              ("zalocall.exe 1234 console 1 " +:+ toLowerCase (w +:+ " K")))
      with true.
    cbv iota. rewrite (memUsageStr_token w Hw Hne), removeChars_app.
    change (removeChars isCommaOrK " K") with " ".
    now destruct (parseInt _ 0).
  - rewrite !strAll_app. apply andb_true_iff. split; [reflexivity|].
    apply andb_true_iff. split; [|reflexivity].
    apply (strAll_impl notWs); [apply notWs_notLineFeed|exact Hw].
Qed.

End TableFacts.

(** X23. Lines of the process table that do not name the target process are
    passed over: a line without "zalocall.exe" in front of the rest of the
    output does not change the memory that is read. *)
Theorem sampler_skips_other_lines (line rest : string) :
  strAll notLineFeed line = true ->
  Sampler.isZaloCallRow line = false ->
  Sampler.checkZaloMemory (ExecOk (line +:+ String "010" rest))
  = Sampler.checkZaloMemory (ExecOk rest).
Proof.
  intros Hline Hrow. unfold Sampler.checkZaloMemory.
  rewrite (TableFacts.split_cons line rest Hline).
  rewrite TableFacts.split_length. cbn [length Nat.eqb find].
  now rewrite Hrow.
Qed.

Lemma sampler_skips_other_lines_witness :
  Sampler.checkZaloMemory
    (ExecOk ("Image Name  PID  Session Name  Session#  Mem Usage"
             +:+ String "010" "ZaloCall.exe 1234 Console 1 123,456 K"))
  = 123456.
Proof.
  rewrite (sampler_skips_other_lines
             "Image Name  PID  Session Name  Session#  Mem Usage"
             "ZaloCall.exe 1234 Console 1 123,456 K");
    reflexivity.
Defined.

(** X24. Only the first line that names the target process is read: what
    follows it in the output of the process table, further rows of the same
    process included, does not change the memory that is read. *)
Theorem sampler_reads_first_row (row rest : string) :
  strAll notLineFeed row = true ->
  Sampler.isZaloCallRow row = true ->
  Sampler.checkZaloMemory (ExecOk (row +:+ String "010" rest))
  = Sampler.checkZaloMemory (ExecOk row).
Proof.
  intros Hline Hrow. unfold Sampler.checkZaloMemory.
  rewrite (TableFacts.split_cons row rest Hline).
  rewrite (SamplerFacts.split_one row Hline).
  cbn [length Nat.eqb find]. now rewrite Hrow.
Qed.

Lemma sampler_reads_first_row_witness :
  Sampler.checkZaloMemory
    (ExecOk ("ZaloCall.exe 1234 Console 1 50,000 K"
             +:+ String "010" "ZaloCall.exe 5678 Console 1 900,000 K"))
  = 50000.
Proof.
  rewrite (sampler_reads_first_row
             "ZaloCall.exe 1234 Console 1 50,000 K"
             "ZaloCall.exe 5678 Console 1 900,000 K");
    reflexivity.
Defined.

(** X25. Commas in the memory column are dropped before the number is read:
    a row whose memory column holds a thousands separator gives the same
    memory as the row without it. *)
Theorem sampler_ignores_thousands_separator (a b : string) :
  strAll notWs a = true -> strAll notWs b = true -> a <> "" ->
  Sampler.checkZaloMemory (tasklistRow (a +:+ "," +:+ b))
  = Sampler.checkZaloMemory (tasklistRow (a +:+ b)).
Proof.
  intros Ha Hb Hne.
  assert (Hne1 : a +:+ "," +:+ b <> "") by (destruct a; [congruence|discriminate]).
  assert (Hne2 : a +:+ b <> "") by (destruct a; [congruence|discriminate]).
  rewrite !TableFacts.checkZaloMemory_token; try assumption.
  - rewrite !SamplerFacts.removeChars_app. reflexivity.
  - rewrite StringFacts.strAll_app. now rewrite Ha, Hb.
  - rewrite !StringFacts.strAll_app. now rewrite Ha, Hb.
Qed.

Lemma sampler_ignores_thousands_separator_witness :
  Sampler.checkZaloMemory (tasklistRow "123,456") = 123456.
Proof.
  change (Sampler.checkZaloMemory (tasklistRow ("123" +:+ "," +:+ "456"))
          = 123456).
  rewrite (sampler_ignores_thousands_separator "123" "456");
    reflexivity || discriminate.
Defined.

(** ** Remote code and its cache *)

Module UpdaterFacts.
Import Updater.

Lemma keeping_ret {A} p (a : A) (Q : A -> Prop) E :
  Q a -> keeping p (Fs.ret a) Q E.
Proof. intros Ha fs Hfs. now split. Qed.

Lemma keeping_throw {A} p e (Q : A -> Prop) (E : jsval -> Prop) :
  E e -> keeping p (Fs.throw e) Q E.
Proof. intros He fs Hfs. now split. Qed.

Lemma keeping_bind {A B} p (m : M A) (k : A -> M B) Q R E :
  keeping p m Q E -> (forall a, Q a -> keeping p (k a) R E) ->
  keeping p (Fs.bind m k) R E.
Proof.
  intros Hm Hk fs Hfs. unfold Fs.bind.
  destruct (Hm fs Hfs) as [Hkept Hanswer].
  destruct (m fs) as [[a|e] fs1]; cbn [fst snd] in *.
  - now apply Hk.
  - now split.
Qed.

Lemma keeping_tryCatch {A} p (m : M A) (h : jsval -> M A) Q E E' :
  keeping p m Q E -> (forall e, E e -> keeping p (h e) Q E') ->
  keeping p (Fs.tryCatch m h) Q E'.
Proof.
  intros Hm Hh fs Hfs. unfold Fs.tryCatch.
  destruct (Hm fs Hfs) as [Hkept Hanswer].
  destruct (m fs) as [[a|e] fs1]; cbn [fst snd] in *.
  - now split.
  - now apply Hh.
Qed.

Lemma keeping_existsSync p q E :
  keeping p (Fs.existsSync q) (fun b => q = p -> b = true) E.
Proof.
  intros fs Hfs. cbn. split; [exact Hfs|].
  intros ->. now apply bool_decide_eq_true_2.
Qed.

Lemma isThrowable_newError message : isThrowable (Js.newError message).
Proof. now split. Qed.

Lemma keeping_readFileSync p F q :
  keeping p (Fs.readFileSync F q) (fun _ => True) isThrowable.
Proof.
  intros fs Hfs. unfold Fs.readFileSync.
  destruct (fs !! q) as [[|content]|]; [| destruct (readFails F q) |];
    cbn [fst snd]; split; auto using isThrowable_newError.
Qed.

Lemma keeping_writeFileSync p F q content :
  keeping p (Fs.writeFileSync F q content) (fun _ => True) isThrowable.
Proof.
  intros fs Hfs. unfold Fs.writeFileSync.
  assert (Hput : is_Some (<[q := File content]> fs !! p)).
  { destruct (decide (q = p)) as [->|Hne].
    - rewrite lookup_insert_eq. eauto.
    - now rewrite lookup_insert_ne. }
  destruct (fs !! q) as [[|old]|]; [| destruct (writeFails F q) ..];
    cbn [fst snd]; split; auto using isThrowable_newError.
Qed.

Lemma keeping_helper {A} p (m : M A) :
  keepsFile m p -> rejectsWithError m ->
  keeping p m (fun _ => True) isThrowable.
Proof.
  intros Hkeeps Hrejects fs Hfs. split; [now apply Hkeeps|].
  destruct (m fs).1 eqn:E; [exact I|]. exact (Hrejects fs e E).
Qed.

Lemma keeping_readLocalVersion p U versionFile :
  keeping p (readLocalVersion U versionFile) (fun _ => True) isThrowable.
Proof.
  unfold readLocalVersion.
  eapply keeping_bind with (Q := fun _ => True).
  - intros fs Hfs. now split.
  - intros [] _; [|now apply keeping_ret].
    eapply keeping_bind; [apply keeping_readFileSync|].
    intros text _. now apply keeping_ret.
Qed.

Lemma keeping_fallback localRendererJs cacheRendererJs message :
  keeping localRendererJs
    (Fs.bind (Fs.existsSync cacheRendererJs) (fun hasCache =>
       if hasCache then Fs.ret cacheRendererJs
       else Fs.bind (Fs.existsSync localRendererJs) (fun hasLocal =>
              if hasLocal then Fs.ret localRendererJs
              else Fs.throw (Js.newError message))))
    (fun p => p = localRendererJs \/ p = cacheRendererJs) isThrowable.
Proof.
  eapply keeping_bind with (Q := fun _ => True).
  - intros fs Hfs. now split.
  - intros [] _; [apply keeping_ret; now right|].
    eapply keeping_bind; [apply keeping_existsSync|].
    intros hasLocal Hhas. rewrite (Hhas eq_refl).
    apply keeping_ret. now left.
Qed.

Lemma keeping_logMessage p e :
  isThrowable e -> keeping p (logMessage e) (fun _ => True) (fun _ => False).
Proof.
  intros [Hundefined Hnull] fs Hfs. unfold logMessage, Fs.bind, Fs.lift.
  destruct e; cbn; try (split; [assumption|exact I]); congruence.
Qed.

Lemma readLocalVersion_recorded U versionFile text fs :
  fs !! versionFile = Some (File text) ->
  readFails (codeFaults U) versionFile = false ->
  readLocalVersion U versionFile fs = (Ret (Some (JsString.trim text)), fs).
Proof.
  intros Hfile Hread.
  unfold readLocalVersion, Fs.bind, Fs.existsSync, Fs.readFileSync, Fs.ret.
  rewrite bool_decide_eq_true_2 by (rewrite Hfile; eauto).
  now rewrite Hfile, Hread.
Qed.

Lemma differs_same v : differs v (Some v) = false.
Proof. unfold differs. now rewrite bool_decide_eq_true_2. Qed.

Lemma main_idle `{Runtime} C U G v text fs :
  getVersionFromGitHub G fs = (Ret (Some v), fs) ->
  fs !! path_join (CODE_CACHE_DIR U) "app.version" = Some (File text) ->
  JsString.trim text = v ->
  readFails (codeFaults U) (path_join (CODE_CACHE_DIR U) "app.version")
  = false ->
  checkAndUpdateMainJs C U G fs = (Ret (false, []), fs).
Proof.
  intros Hversion Hfile Htrim Hread. unfold checkAndUpdateMainJs.
  destruct (_ || _); [reflexivity|].
  unfold Fs.tryCatch, Fs.bind at 1. rewrite Hversion.
  destruct (noVersion (Some v)); [reflexivity|].
  unfold Fs.bind at 1.
  rewrite (readLocalVersion_recorded U _ text fs Hfile Hread), Htrim.
  now rewrite differs_same.
Qed.

Lemma renderer_idle `{Runtime} C U G v text fs :
  getVersionFromGitHub G fs = (Ret (Some v), fs) ->
  fs !! path_join (CODE_CACHE_DIR U) "app.version" = Some (File text) ->
  JsString.trim text = v ->
  readFails (codeFaults U) (path_join (CODE_CACHE_DIR U) "app.version")
  = false ->
  checkAndUpdateRendererJs C U G fs = (Ret (false, []), fs).
Proof.
  intros Hversion Hfile Htrim Hread. unfold checkAndUpdateRendererJs.
  destruct (_ || _); [reflexivity|].
  unfold Fs.tryCatch, Fs.bind at 1. rewrite Hversion.
  destruct (noVersion (Some v)); [reflexivity|].
  unfold Fs.bind at 1.
  rewrite (readLocalVersion_recorded U _ text fs Hfile Hread), Htrim.
  now rewrite differs_same.
Qed.

End UpdaterFacts.

(** X27. With a local renderer.js in place, [loadRendererJs] always comes
    back with a path, the local one or the cached one, whatever the remote
    does: a version that cannot be fetched, a failed download or a failed
    write of the cache make it fall back. The helpers are taken to leave the
    local file in place and to reject with error objects. *)
Theorem loadRendererJs_falls_back_to_local `{Runtime}
    (C : Updater.codeConfig) (U : Updater.codeHost) (G : Updater.github)
    (fs : filesystem) :
  let localRendererJs := path_join (Updater.dirname U) "renderer.js" in
  let cacheRendererJs := path_join (Updater.CODE_CACHE_DIR U) "renderer.js" in
  is_Some (fs !! localRendererJs) ->
  keepsFile (Updater.getVersionFromGitHub G) localRendererJs ->
  (forall file outputPath,
     keepsFile (Updater.downloadFileFromGitHub G file outputPath)
       localRendererJs) ->
  rejectsWithError (Updater.getVersionFromGitHub G) ->
  (forall file outputPath,
     rejectsWithError (Updater.downloadFileFromGitHub G file outputPath)) ->
  exists p,
    (Updater.loadRendererJs C U G fs).1 = Ret p /\
    (p = localRendererJs \/ p = cacheRendererJs).
Proof.
  intros localRendererJs cacheRendererJs Hlocal HkeepV HkeepD HrejV HrejD.
  unfold Updater.loadRendererJs.
  fold localRendererJs cacheRendererJs.
  destruct (negb (Js.truthy (Updater.REMOTE_CODE_ENABLED C))).
  - unfold Fs.bind, Fs.existsSync.
    rewrite bool_decide_eq_true_2 by exact Hlocal.
    eexists. split; [reflexivity|now left].
  - match goal with
    | |- exists p, (Fs.tryCatch ?body ?handler fs).1 = Ret p /\ _ =>
        assert (K : keeping localRendererJs (Fs.tryCatch body handler)
                      (fun p => p = localRendererJs \/ p = cacheRendererJs)
                      (fun _ => False))
    end.
    { apply UpdaterFacts.keeping_tryCatch with (E := isThrowable).
      - eapply UpdaterFacts.keeping_bind;
          [apply UpdaterFacts.keeping_helper; auto|].
        intros [v|] _; [|apply UpdaterFacts.keeping_fallback].
        destruct (Updater.noVersion (Some v));
          [apply UpdaterFacts.keeping_fallback|].
        eapply UpdaterFacts.keeping_bind;
          [apply UpdaterFacts.keeping_readLocalVersion|].
        intros localVersion _.
        eapply UpdaterFacts.keeping_bind with (Q := fun _ => True).
        + destruct (Updater.differs v localVersion);
            [|now apply UpdaterFacts.keeping_ret].
          eapply UpdaterFacts.keeping_bind;
            [apply UpdaterFacts.keeping_helper; auto|].
          intros [] _; [|now apply UpdaterFacts.keeping_ret].
          eapply UpdaterFacts.keeping_bind;
            [apply UpdaterFacts.keeping_writeFileSync|].
          intros _ _. now apply UpdaterFacts.keeping_ret.
        + intros [] _; [apply UpdaterFacts.keeping_ret; now right|].
          apply UpdaterFacts.keeping_fallback.
      - intros e He.
        eapply UpdaterFacts.keeping_bind;
          [apply UpdaterFacts.keeping_logMessage, He|].
        intros _ _.
        eapply UpdaterFacts.keeping_bind;
          [apply UpdaterFacts.keeping_existsSync|].
        intros hasLocal Hhas. rewrite (Hhas eq_refl).
        apply UpdaterFacts.keeping_ret. now left. }
    destruct (K fs Hlocal) as [_ Hanswer]. revert Hanswer.
    destruct (Fs.tryCatch _ _ fs) as [[p|e] fs']; cbn [fst];
      [eauto|contradiction].
Qed.

Lemma loadRendererJs_falls_back_to_local_witness :
  exists p,
    (@Updater.loadRendererJs exampleRuntime sampleCode sampleCodeHost offline
       diskWithLocalCode).1 = Ret p /\
    (p = "C:/app/src/renderer.js" \/ p = "C:/app/code-cache/renderer.js").
Proof.
  apply (@loadRendererJs_falls_back_to_local exampleRuntime sampleCode
           sampleCodeHost offline diskWithLocalCode).
  - vm_compute. eauto.
  - intros fs Hfs. exact Hfs.
  - intros file outputPath fs Hfs. exact Hfs.
  - intros fs e [= <-]. apply UpdaterFacts.isThrowable_newError.
  - intros file outputPath fs e [=].
Defined.

(** X28. When the version recorded in the cache is the remote version, a
    version check does nothing: neither check downloads a file, writes to
    the cache, reloads the window or schedules a restart, whatever a
    download would have answered. *)
Theorem version_check_idle_when_up_to_date `{Runtime}
    (C : Updater.codeConfig) (U : Updater.codeHost) (G : Updater.github)
    (v text : string) (fs : filesystem) :
  let versionFile := path_join (Updater.CODE_CACHE_DIR U) "app.version" in
  Updater.getVersionFromGitHub G fs = (Ret (Some v), fs) ->
  fs !! versionFile = Some (File text) ->
  JsString.trim text = v ->
  readFails (Updater.codeFaults U) versionFile = false ->
  Updater.checkAndUpdateMainJs C U G fs = (Ret (false, []), fs) /\
  Updater.checkAndUpdateRendererJs C U G fs = (Ret (false, []), fs) /\
  Updater.versionCheck C U G G fs = (Ret [], fs).
Proof.
  intros versionFile Hversion Hfile Htrim Hread.
  pose proof (UpdaterFacts.main_idle C U G v text fs Hversion Hfile Htrim
                Hread) as Hmain.
  pose proof (UpdaterFacts.renderer_idle C U G v text fs Hversion Hfile Htrim
                Hread) as Hrenderer.
  repeat split; [exact Hmain|exact Hrenderer|].
  unfold Updater.versionCheck, Fs.tryCatch, Fs.bind.
  rewrite Hmain. cbn [fst snd]. now rewrite Hrenderer.
Qed.

Lemma version_check_idle_when_up_to_date_witness :
  @Updater.checkAndUpdateMainJs exampleRuntime sampleCode sampleCodeHost
    (mirror "1.2.0") diskUpToDate = (Ret (false, []), diskUpToDate) /\
  @Updater.checkAndUpdateRendererJs exampleRuntime sampleCode sampleCodeHost
    (mirror "1.2.0") diskUpToDate = (Ret (false, []), diskUpToDate) /\
  @Updater.versionCheck exampleRuntime sampleCode sampleCodeHost
    (mirror "1.2.0") (mirror "1.2.0") diskUpToDate = (Ret [], diskUpToDate).
Proof.
  apply (@version_check_idle_when_up_to_date exampleRuntime sampleCode
           sampleCodeHost (mirror "1.2.0") "1.2.0"
           ("1.2.0" +:+ String "010" "") diskUpToDate).
  - reflexivity.
  - vm_compute. reflexivity.
  - vm_compute. reflexivity.
  - reflexivity.
Defined.

(** X29. [checkAndUpdateMainJs] schedules the restart exactly when it
    reports an update, and it reports one only with the remote version, a
    string that is not empty, written to the version file of the cache. *)
Theorem main_update_only_when_recorded `{Runtime}
    (C : Updater.codeConfig) (U : Updater.codeHost) (G : Updater.github)
    (fs fs' : filesystem) (updated : bool) (actions : list Updater.action) :
  let versionFile := path_join (Updater.CODE_CACHE_DIR U) "app.version" in
  Updater.checkAndUpdateMainJs C U G fs = (Ret (updated, actions), fs') ->
  actions = (if updated then [Updater.Relaunch] else []) /\
  (updated = true ->
   exists v,
     (Updater.getVersionFromGitHub G fs).1 = Ret (Some v) /\
     v <> "" /\
     fs' !! versionFile = Some (File v)).
Proof.
  intros versionFile. subst versionFile.
  unfold Updater.checkAndUpdateMainJs, Updater.readLocalVersion,
    Updater.logMessage, Fs.tryCatch, Fs.bind, Fs.lift, Fs.existsSync,
    Fs.readFileSync, Fs.writeFileSync, Fs.ret, Fs.throw.
  split_cases; intros [=]; subst; (split; [reflexivity|]);
    try (intros [=]; fail); intros _;
    repeat match goal with
           | E : (_, _) = (_, _) |- _ => injection E as ? ?; subst
           end.
  all: (eexists; split; [reflexivity|]).
  all: (split; [|apply lookup_insert_eq]).
  all: match goal with
       | E : Updater.noVersion _ = false |- _ =>
           unfold Updater.noVersion, Js.truthy in E;
           rewrite negb_involutive in E;
           exact (bool_decide_eq_false_1 _ E)
       end.
Qed.

Lemma main_update_only_when_recorded_witness :
  [Updater.Relaunch] = (if true then [Updater.Relaunch] else []) /\
  (true = true ->
   exists v,
     (Updater.getVersionFromGitHub (mirror "1.2.0") diskWithLocalCode).1
     = Ret (Some v) /\
     v <> "" /\
     (@Updater.checkAndUpdateMainJs exampleRuntime sampleCode sampleCodeHost
        (mirror "1.2.0") diskWithLocalCode).2
     !! @path_join exampleRuntime (Updater.CODE_CACHE_DIR sampleCodeHost)
          "app.version"
     = Some (File v)).
Proof.
  apply (@main_update_only_when_recorded exampleRuntime sampleCode
           sampleCodeHost (mirror "1.2.0") diskWithLocalCode).
  apply pair_from_fst. vm_compute. reflexivity.
Defined.

(** X30. Once [checkAndUpdateRendererJs] has reported an update, the version
    file of the cache holds the remote version; a later
    [checkAndUpdateMainJs] that meets the same remote version takes the
    code for up to date: it downloads nothing and schedules no restart. *)
Theorem renderer_update_holds_back_main `{Runtime}
    (C : Updater.codeConfig) (U : Updater.codeHost) (G : Updater.github)
    (fs fs1 : filesystem) (actions : list Updater.action) :
  let versionFile := path_join (Updater.CODE_CACHE_DIR U) "app.version" in
  Updater.checkAndUpdateRendererJs C U G fs = (Ret (true, actions), fs1) ->
  path_join (Updater.CODE_CACHE_DIR U) "index.html" <> versionFile ->
  exists v,
    (Updater.getVersionFromGitHub G fs).1 = Ret (Some v) /\
    fs1 !! versionFile = Some (File v) /\
    forall G',
      Updater.getVersionFromGitHub G' fs1 = (Ret (Some v), fs1) ->
      JsString.trim v = v ->
      readFails (Updater.codeFaults U) versionFile = false ->
      Updater.checkAndUpdateMainJs C U G' fs1 = (Ret (false, []), fs1).
Proof.
  intros versionFile Hcheck Hpaths.
  assert (Hrecorded : exists v,
            (Updater.getVersionFromGitHub G fs).1 = Ret (Some v) /\
            fs1 !! versionFile = Some (File v)).
  { revert Hcheck. subst versionFile.
    unfold Updater.checkAndUpdateRendererJs, Updater.reloadWindow,
      Updater.readLocalVersion, Updater.logMessage, Fs.tryCatch, Fs.bind,
      Fs.lift, Fs.existsSync, Fs.readFileSync, Fs.writeFileSync, Fs.ret,
      Fs.throw.
    split_cases; intros [=]; subst;
      repeat match goal with
             | E : (_, _) = (_, _) |- _ => injection E as ? ?; subst
             end;
      (eexists; split; [reflexivity|]);
      rewrite ?(lookup_insert_ne _ _ _ _ Hpaths);
      apply lookup_insert_eq. }
  destruct Hrecorded as (v & Hversion & Hfile).
  exists v. split; [exact Hversion|]. split; [exact Hfile|].
  intros G' Hsame Htrim Hread.
  exact (UpdaterFacts.main_idle C U G' v v fs1 Hsame Hfile Htrim Hread).
Qed.

Lemma renderer_update_holds_back_main_witness :
  exists v,
    (Updater.getVersionFromGitHub (mirror "1.2.0") diskWithLocalCode).1
    = Ret (Some v) /\
    (@Updater.checkAndUpdateRendererJs exampleRuntime sampleCode
       sampleCodeHost (mirror "1.2.0") diskWithLocalCode).2
    !! @path_join exampleRuntime (Updater.CODE_CACHE_DIR sampleCodeHost)
         "app.version"
    = Some (File v) /\
    forall G',
      Updater.getVersionFromGitHub G'
        (@Updater.checkAndUpdateRendererJs exampleRuntime sampleCode
           sampleCodeHost (mirror "1.2.0") diskWithLocalCode).2
      = (Ret (Some v),
         (@Updater.checkAndUpdateRendererJs exampleRuntime sampleCode
            sampleCodeHost (mirror "1.2.0") diskWithLocalCode).2) ->
      JsString.trim v = v ->
      readFails (Updater.codeFaults sampleCodeHost)
        (@path_join exampleRuntime (Updater.CODE_CACHE_DIR sampleCodeHost)
           "app.version") = false ->
      @Updater.checkAndUpdateMainJs exampleRuntime sampleCode sampleCodeHost
        G'
        (@Updater.checkAndUpdateRendererJs exampleRuntime sampleCode
           sampleCodeHost (mirror "1.2.0") diskWithLocalCode).2
      = (Ret (false, []),
         (@Updater.checkAndUpdateRendererJs exampleRuntime sampleCode
            sampleCodeHost (mirror "1.2.0") diskWithLocalCode).2).
Proof.
  apply (@renderer_update_holds_back_main exampleRuntime sampleCode
           sampleCodeHost (mirror "1.2.0") diskWithLocalCode _
           [Updater.LoadFile "C:/app/code-cache/index.html"]).
  - apply pair_from_fst. vm_compute. reflexivity.
  - discriminate.
Defined.
